(** * IChancy agent-panel client: session lifecycle, retry wrapper, remote
      operations and username generation

    A shallow embedding of [ichancy_api.py] (class [IChancyAPI]) and of
    [generate_username] from [ichancy_create_account.py].

    Modelling conventions.
    - Python values that cross the HTTP boundary or are inspected by the
      retry wrapper are values of [PyVal].  Strings are byte strings;
      [lower] and [repr] act on the ASCII range and keep other bytes as they
      are.
    - A method of [IChancyAPI] is a computation [M World A]: it takes the
      state of the process and of its collaborators and returns an outcome
      (a value, a raised exception, or exhausted fuel for the one unbounded
      loop) together with the new state.  A raised exception keeps the state
      changes made before it, as in Python.
    - The remote service, the wall clock and the random generator are
      oracles stored in the state and indexed by the number of uses so far.
    - Redis is a key/value store of strings that answers every read and
      every delete; a write may be refused (a store out of memory raises on
      SET and still serves GET and DEL), which is the failure
      [_save_session_to_redis] is guarded against.  Logging is omitted.
    - A datetime is counted in microseconds.  [datetime.utcnow()] and what
      [_save_session_to_redis] writes are naive; a stored text may also
      parse to an offset-aware datetime, which Python refuses to subtract
      from, or compare with, a naive one.  The configured durations are
      within the range of [timedelta] and the clock within that of
      [datetime], so date arithmetic does not overflow. *)

From Stdlib Require Import ZArith String Ascii List Lia Bool.
From Stdlib Require Import DecimalString DecimalZ.
From Stdlib Require Import Floats.SpecFloat.
From stdpp Require Import base option strings gmap pretty.

Set Warnings "-register-all".
Open Scope string_scope.
Open Scope Z_scope.

(* ===================================================================== *)
(** * Python values                                                       *)
(* ===================================================================== *)

Inductive PyVal : Type :=
| PyNone
| PyBool (b : bool)
| PyInt (z : Z)
| PyFloat (f : spec_float)
| PyStr (s : string)
| PyList (l : list PyVal)
| PyTuple (l : list PyVal)
| PyDict (d : list (string * PyVal)).

(** Exceptions carry their class and the text of [str(e)]. *)
Inductive ExnKind : Type :=
| RuntimeError | ValueError | AttributeError | TypeError | IndexError
| KeyError | OverflowError | RequestException | RedisError
| CookieConflictError.

Record Exn : Type := mkExn { exn_kind : ExnKind; exn_msg : string }.

Inductive Res (A : Type) : Type :=
| Ok (a : A)
| Raise (e : Exn)
| OutOfFuel.
Arguments Ok {A} a.
Arguments Raise {A} e.
Arguments OutOfFuel {A}.

Module Py.

(** [type(v).__name__] *)
Definition type_name (v : PyVal) : string :=
  match v with
  | PyNone => "NoneType" | PyBool _ => "bool" | PyInt _ => "int"
  | PyFloat _ => "float" | PyStr _ => "str" | PyList _ => "list"
  | PyTuple _ => "tuple" | PyDict _ => "dict"
  end.

(** [bool(v)] *)
Definition truthy (v : PyVal) : bool :=
  match v with
  | PyNone => false
  | PyBool b => b
  | PyInt z => negb (z =? 0)
  | PyFloat (S754_zero _) => false
  | PyFloat _ => true
  | PyStr s => negb (String.eqb s "")
  | PyList l | PyTuple l => match l with [] => false | _ => true end
  | PyDict d => match d with [] => false | _ => true end
  end.

Definition is_dict (v : PyVal) : bool :=
  match v with PyDict _ => true | _ => false end.
Definition is_tuple (v : PyVal) : bool :=
  match v with PyTuple _ => true | _ => false end.
Definition is_list (v : PyVal) : bool :=
  match v with PyList _ => true | _ => false end.

(** Lookup in a dict; the first binding of a key is the live one. *)
Fixpoint lookup (d : list (string * PyVal)) (k : string) : option PyVal :=
  match d with
  | [] => None
  | (k', v) :: d' => if String.eqb k' k then Some v else lookup d' k
  end.

(** [d.get(k, dflt)] on a dict *)
Definition dict_get (d : list (string * PyVal)) (k : string) (dflt : PyVal)
  : PyVal :=
  match lookup d k with Some v => v | None => dflt end.

(** [v.get(k, dflt)] on any value: only dicts have the method. *)
Definition get (v : PyVal) (k : string) (dflt : PyVal) : Res PyVal :=
  match v with
  | PyDict d => Ok (dict_get d k dflt)
  | _ => Raise (mkExn AttributeError
                  ("'" +:+ type_name v +:+ "' object has no attribute 'get'"))
  end.

(** [v[0]] *)
Definition item0 (v : PyVal) : Res PyVal :=
  match v with
  | PyList (x :: _) | PyTuple (x :: _) => Ok x
  | PyList [] => Raise (mkExn IndexError "list index out of range")
  | PyTuple [] => Raise (mkExn IndexError "tuple index out of range")
  | PyStr (String c _) => Ok (PyStr (String c EmptyString))
  | PyStr EmptyString => Raise (mkExn IndexError "string index out of range")
  | PyDict _ => Raise (mkExn KeyError "0")
  | _ => Raise (mkExn TypeError
                  ("'" +:+ type_name v +:+ "' object is not subscriptable"))
  end.

(** The elements a [for] loop visits. *)
Fixpoint chars (s : string) : list PyVal :=
  match s with
  | EmptyString => []
  | String c t => PyStr (String c EmptyString) :: chars t
  end.

Definition iter (v : PyVal) : Res (list PyVal) :=
  match v with
  | PyList l | PyTuple l => Ok l
  | PyDict d => Ok (map (fun kv => PyStr (fst kv)) d)
  | PyStr s => Ok (chars s)
  | _ => Raise (mkExn TypeError
                  ("'" +:+ type_name v +:+ "' object is not iterable"))
  end.

(** The exact value of a float compared with an integer. *)
Definition float_eq_Z (f : spec_float) (z : Z) : bool :=
  match f with
  | S754_zero _ => z =? 0
  | S754_finite s m e =>
      let sm := if s then Z.neg m else Z.pos m in
      if 0 <=? e then sm * 2 ^ e =? z else sm =? z * 2 ^ (- e)
  | _ => false
  end.

(** [v == z] for an int [z]: bool, int and float are one numeric tower. *)
Definition eq_int (v : PyVal) (z : Z) : bool :=
  match v with
  | PyBool b => (if b then 1 else 0) =? z
  | PyInt z' => z' =? z
  | PyFloat f => float_eq_Z f z
  | _ => false
  end.

(** [v == s] for a str [s] *)
Definition eq_str (v : PyVal) (s : string) : bool :=
  match v with PyStr s' => String.eqb s' s | _ => false end.

(** [s.lower()] *)
Definition lower_ascii (c : ascii) : ascii :=
  let n := nat_of_ascii c in
  if ((65 <=? n) && (n <=? 90))%nat then ascii_of_nat (n + 32) else c.

Fixpoint lower (s : string) : string :=
  match s with
  | EmptyString => EmptyString
  | String c t => String (lower_ascii c) (lower t)
  end.

(** [needle in hay] *)
Fixpoint contains (needle hay : string) : bool :=
  String.prefix needle hay
  || match hay with
     | EmptyString => false
     | String _ t => contains needle t
     end.

(** [sep.join(parts)] *)
Fixpoint join (sep : string) (parts : list string) : string :=
  match parts with
  | [] => ""
  | [p] => p
  | p :: ps => p +:+ sep +:+ join sep ps
  end.

Definition hex_digit (n : nat) : ascii :=
  ascii_of_nat (if (n <? 10)%nat then 48 + n else 87 + n).

(** One character inside [repr(str)] delimited by [quote]. *)
Definition repr_char (quote : ascii) (c : ascii) : string :=
  let n := nat_of_ascii c in
  if Ascii.eqb c "\" then "\\"
  else if Ascii.eqb c quote then String "\" (String c EmptyString)
  else if (n =? 10)%nat then "\n"
  else if (n =? 13)%nat then "\r"
  else if (n =? 9)%nat then "\t"
  else if ((n <? 32) || (n =? 127))%nat
       then String "\" (String "x" (String (hex_digit (n / 16))
                                      (String (hex_digit (n mod 16)) EmptyString)))
  else String c EmptyString.

Fixpoint repr_chars (quote : ascii) (s : string) : string :=
  match s with
  | EmptyString => EmptyString
  | String c t => repr_char quote c +:+ repr_chars quote t
  end.

Definition double_quote : ascii := ascii_of_nat 34.

(** [repr(s)] for a str: single quotes unless the text has a single quote
    and no double quote. *)
Definition repr_str (s : string) : string :=
  let quote : ascii :=
    if contains "'" s && negb (contains (String double_quote EmptyString) s)
    then double_quote else "'"%char in
  String quote (repr_chars quote s) +:+ String quote EmptyString.

End Py.

(* ===================================================================== *)
(** * Library functions taken as an interface                             *)
(* ===================================================================== *)

(** The cookie jar of the scraper: an opaque bag of name/value pairs. *)
Definition Cookies : Type := list (string * string).

(** [jar.update(new)]: bindings of [new] override those of [jar]. *)
Definition cookies_update (jar new : Cookies) : Cookies :=
  (new ++ filter (fun kv => negb (existsb (fun kv' => String.eqb kv'.1 kv.1) new)) jar)%list.

(** A [datetime]: naive (no [tzinfo]), or aware of its UTC offset. *)
Inductive DateTime : Type :=
| Naive (t : Z)
| Aware (t : Z) (utcoffset : Z).

Definition aware (d : DateTime) : bool :=
  match d with Naive _ => false | Aware _ _ => true end.

(** [now - d] for the naive [now] *)
Definition datetime_sub (now : Z) (d : DateTime) : Res Z :=
  match d with
  | Naive t => Ok (now - t)
  | Aware _ _ =>
      Raise (mkExn TypeError "can't subtract offset-naive and offset-aware datetimes")
  end.

(** [now < d] for the naive [now] *)
Definition datetime_lt (now : Z) (d : DateTime) : Res bool :=
  match d with
  | Naive t => Ok (now <? t)
  | Aware _ _ =>
      Raise (mkExn TypeError "can't compare offset-naive and offset-aware datetimes")
  end.

(** Text codecs of the libraries used by the client.  [isoformat] is that
    of a naive datetime.  [fromisoformat] and [json_loads_cookies] answer
    [None] where Python raises, and so does [json_dumps_cookies], which
    stands for [json.dumps(dict(jar))]: [dict] raises on a jar that holds
    two cookies of one name.  The two laws are those of [datetime]: a naive
    datetime survives [isoformat] then [fromisoformat], and the empty text
    is no datetime. *)
Class PyRuntime : Type := {
  float_repr : spec_float -> string;
  float_of_str : string -> option spec_float;
  isoformat : Z -> string;
  fromisoformat : string -> option DateTime;
  json_dumps_cookies : Cookies -> option string;
  json_loads_cookies : string -> option Cookies;
  fromisoformat_isoformat : forall t, fromisoformat (isoformat t) = Some (Naive t);
  fromisoformat_empty : fromisoformat "" = None
}.

Section Rendering.
Context `{PyRuntime}.

(** [repr(v)] *)
Fixpoint py_repr (v : PyVal) : string :=
  match v with
  | PyNone => "None"
  | PyBool true => "True"
  | PyBool false => "False"
  | PyInt z => pretty z
  | PyFloat f => float_repr f
  | PyStr s => Py.repr_str s
  | PyList l => "[" +:+ Py.join ", " (map py_repr l) +:+ "]"
  | PyTuple [x] => "(" +:+ py_repr x +:+ ",)"
  | PyTuple l => "(" +:+ Py.join ", " (map py_repr l) +:+ ")"
  | PyDict d =>
      "{" +:+ Py.join ", "
                (map (fun kv => Py.repr_str (fst kv) +:+ ": " +:+ py_repr (snd kv)) d)
          +:+ "}"
  end.

(** [str(v)] *)
Definition py_str (v : PyVal) : string :=
  match v with PyStr s => s | _ => py_repr v end.

(** [float(v)]; 53 bits of precision, overflow past the largest double. *)
Definition py_float (v : PyVal) : Res PyVal :=
  match v with
  | PyFloat f => Ok (PyFloat f)
  | PyBool b => Ok (PyFloat (binary_normalize 53 1024 (if b then 1 else 0) 0 false))
  | PyInt z =>
      match binary_normalize 53 1024 z 0 false with
      | S754_infinity _ =>
          Raise (mkExn OverflowError "int too large to convert to float")
      | f => Ok (PyFloat f)
      end
  | PyStr s =>
      match float_of_str s with
      | Some f => Ok (PyFloat f)
      | None => Raise (mkExn ValueError
                         ("could not convert string to float: " +:+ Py.repr_str s))
      end
  | _ => Raise (mkExn TypeError
                  ("float() argument must be a string or a real number, not '"
                     +:+ Py.type_name v +:+ "'"))
  end.
End Rendering.

(* ===================================================================== *)
(** * State and exceptions                                                *)
(* ===================================================================== *)

Definition M (S A : Type) : Type := S -> Res A * S.

Definition ret {S A} (a : A) : M S A := fun s => (Ok a, s).

Definition bind {S A B} (m : M S A) (k : A -> M S B) : M S B :=
  fun s =>
    match m s with
    | (Ok a, s') => k a s'
    | (Raise e, s') => (Raise e, s')
    | (OutOfFuel, s') => (OutOfFuel, s')
    end.

Definition raise {S A} (e : Exn) : M S A := fun s => (Raise e, s).

(** [try: m  except Exception as e: h e] *)
Definition try_except {S A} (m : M S A) (h : Exn -> M S A) : M S A :=
  fun s =>
    match m s with
    | (Raise e, s') => h e s'
    | r => r
    end.

Definition get_state {S} : M S S := fun s => (Ok s, s).
Definition modify {S} (f : S -> S) : M S unit := fun s => (Ok tt, f s).

(** A pure step that may raise. *)
Definition lift_res {S A} (r : Res A) : M S A := fun s => (r, s).

Declare Scope py_scope.
Delimit Scope py_scope with py.
Notation "x <- m ;; k" := (bind m (fun x => k))
  (at level 100, m at next level, right associativity) : py_scope.
Notation "m ;;; k" := (bind m (fun _ => k))
  (at level 100, right associativity) : py_scope.
Open Scope py_scope.

(* ===================================================================== *)
(** * The process and its collaborators                                   *)
(* ===================================================================== *)

(** [_load_config]: the values read from the environment. *)
Record Config : Type := {
  AGENT_USERNAME : string;
  AGENT_PASSWORD : string;
  PARENT_ID : string;
  SESSION_DURATION_MIN : Z;
  MAX_SESSION_AGE_HOURS : Z
}.

Definition ORIGIN : string := "https://agents.ichancy.com".
Definition ENDPOINT_signin : string := "/global/api/User/signIn".
Definition ENDPOINT_create : string := "/global/api/Player/registerPlayer".
Definition ENDPOINT_statistics : string :=
  "/global/api/Statistics/getPlayersStatisticsPro".
Definition ENDPOINT_deposit : string := "/global/api/Player/depositToPlayer".
Definition ENDPOINT_withdraw : string := "/global/api/Player/withdrawFromPlayer".
Definition ENDPOINT_balance : string := "/global/api/Player/getPlayerBalanceById".

Definition REDIS_COOKIES_KEY : string := "ichancy:cookies".
Definition REDIS_SESSION_EXPIRY_KEY : string := "ichancy:session_expiry".
Definition REDIS_LAST_LOGIN_KEY : string := "ichancy:last_login".

(** [timedelta(minutes=m)] and [timedelta(hours=h)] in microseconds. *)
Definition timedelta_minutes (m : Z) : Z := m * 60000000.
Definition timedelta_hours (h : Z) : Z := h * 3600000000.

(** A POST issued through the scraper (the headers are constant). *)
Record Request : Type := mkRequest { req_url : string; req_json : PyVal }.

(** What the client observes of a response: [resp.status_code],
    [resp.text], [resp.json()] ([None] where it raises) and the cookies
    the response sets. *)
Record Response : Type := mkResponse {
  status_code : Z;
  text : string;
  json : option PyVal;
  set_cookies : Cookies
}.

Inductive Outcome : Type :=
| Replied (r : Response)
| Faulted (msg : string).

Record World : Type := mkWorld {
  scraper : option Cookies;          (* [self.scraper] and its cookie jar *)
  is_logged_in : bool;               (* [self.is_logged_in] *)
  redis : gmap string string;        (* the session store *)
  now_at : nat -> Z;                 (* [datetime.utcnow()] at its n-th call *)
  clock_reads : nat;
  remote : nat -> Request -> Outcome;  (* the answer to the n-th POST *)
  sent : list Request;               (* POSTs issued so far, oldest first *)
  random_at : nat -> nat;            (* the n-th draw of [random] *)
  random_draws : nat;
  redis_refuses : nat -> option string;  (* the error of the n-th SET, if refused *)
  redis_sets : nat                   (* SETs issued so far *)
}.

Definition set_scraper (j : option Cookies) (w : World) : World :=
  mkWorld j (is_logged_in w) (redis w) (now_at w) (clock_reads w)
          (remote w) (sent w) (random_at w) (random_draws w)
          (redis_refuses w) (redis_sets w).
Definition set_is_logged_in (b : bool) (w : World) : World :=
  mkWorld (scraper w) b (redis w) (now_at w) (clock_reads w)
          (remote w) (sent w) (random_at w) (random_draws w)
          (redis_refuses w) (redis_sets w).
Definition set_redis (r : gmap string string) (w : World) : World :=
  mkWorld (scraper w) (is_logged_in w) r (now_at w) (clock_reads w)
          (remote w) (sent w) (random_at w) (random_draws w)
          (redis_refuses w) (redis_sets w).
Definition set_clock_reads (n : nat) (w : World) : World :=
  mkWorld (scraper w) (is_logged_in w) (redis w) (now_at w) n
          (remote w) (sent w) (random_at w) (random_draws w)
          (redis_refuses w) (redis_sets w).
Definition set_sent (l : list Request) (w : World) : World :=
  mkWorld (scraper w) (is_logged_in w) (redis w) (now_at w) (clock_reads w)
          (remote w) l (random_at w) (random_draws w)
          (redis_refuses w) (redis_sets w).
Definition set_random_draws (n : nat) (w : World) : World :=
  mkWorld (scraper w) (is_logged_in w) (redis w) (now_at w) (clock_reads w)
          (remote w) (sent w) (random_at w) n
          (redis_refuses w) (redis_sets w).
Definition set_redis_sets (n : nat) (w : World) : World :=
  mkWorld (scraper w) (is_logged_in w) (redis w) (now_at w) (clock_reads w)
          (remote w) (sent w) (random_at w) (random_draws w)
          (redis_refuses w) n.

(** [datetime.utcnow()] *)
Definition utcnow : M World Z :=
  fun w => (Ok (now_at w (clock_reads w)), set_clock_reads (S (clock_reads w)) w).

(** One draw in [0, n) of the random generator. *)
Definition random_below (n : nat) : M World nat :=
  fun w => (Ok (random_at w (random_draws w) mod n)%nat,
            set_random_draws (S (random_draws w)) w).

(** [self.redis.get / set / delete]; a refused SET raises and writes
    nothing. *)
Definition redis_get (k : string) : M World (option string) :=
  fun w => (Ok (redis w !! k), w).
Definition redis_set (k v : string) : M World unit :=
  fun w =>
    let w1 := set_redis_sets (S (redis_sets w)) w in
    match redis_refuses w (redis_sets w) with
    | Some msg => (Raise (mkExn RedisError msg), w1)
    | None => (Ok tt, set_redis (<[k := v]> (redis w)) w1)
    end.
Definition redis_delete (k : string) : M World unit :=
  modify (fun w => set_redis (delete k (redis w)) w).

(** [self.scraper.post(url, json=payload, headers=...)]: the request is
    recorded, the oracle answers it, a reply updates the cookie jar and a
    transport fault is raised.  Without a scraper the attribute access on
    [None] raises. *)
Definition post (url : string) (payload : PyVal) : M World Response :=
  fun w =>
    match scraper w with
    | None => (Raise (mkExn AttributeError
                        "'NoneType' object has no attribute 'post'"), w)
    | Some jar =>
        let rq := mkRequest url payload in
        let w1 := set_sent (sent w ++ [rq])%list w in
        match remote w (length (sent w)) rq with
        | Replied r =>
            (Ok r, set_scraper (Some (cookies_update jar (set_cookies r))) w1)
        | Faulted msg => (Raise (mkExn RequestException msg), w1)
        end
    end.

(** [resp.json()] *)
Definition resp_json {S} (resp : Response) : M S PyVal :=
  match json resp with
  | Some v => ret v
  | None => raise (mkExn ValueError "Expecting value")
  end.

(** A present, non-empty text: the truth value of what [redis.get] gives. *)
Definition nonempty (o : option string) : option string :=
  match o with
  | Some s => if String.eqb s "" then None else Some s
  | None => None
  end.

(* ===================================================================== *)
(** * Session lifecycle ([ichancy_api.py], lines 95-265)                  *)
(* ===================================================================== *)

Section Session.
Context `{PyRuntime} (cfg : Config).

(** The two timestamps are parsed inside the [try]; the subtraction and
    the comparisons that follow stand outside it. *)
Definition _is_session_valid : M World bool :=
  session_expiry_str <- redis_get REDIS_SESSION_EXPIRY_KEY ;;
  last_login_str <- redis_get REDIS_LAST_LOGIN_KEY ;;
  match nonempty session_expiry_str, nonempty last_login_str with
  | Some es, Some ls =>
      match fromisoformat es, fromisoformat ls with
      | Some session_expiry, Some last_login_time =>
          now <- utcnow ;;
          let max_session_age := timedelta_hours (MAX_SESSION_AGE_HOURS cfg) in
          time_since_login <- lift_res (datetime_sub now last_login_time) ;;
          before_expiry <- lift_res (datetime_lt now session_expiry) ;;
          ret (before_expiry && (time_since_login <? max_session_age))
      | _, _ => ret false
      end
  | _, _ => ret false
  end.

(** The [try] holds the decoding of the cookies, the update of the jar and
    the validity check; [restored] tells whether the early [return] was
    taken. *)
Definition _init_scraper : M World unit :=
  modify (set_scraper (Some [])) ;;;
  cookies_json <- redis_get REDIS_COOKIES_KEY ;;
  restored <- match nonempty cookies_json with
              | Some cj =>
                  try_except
                    (match json_loads_cookies cj with
                     | Some cookies =>
                         modify (fun w =>
                                   set_scraper
                                     (Some (cookies_update (default [] (scraper w))
                                                           cookies)) w) ;;;
                         valid <- _is_session_valid ;;
                         if valid then modify (set_is_logged_in true) ;;; ret true
                         else ret false
                     | None => raise (mkExn ValueError "Expecting value")
                     end)
                    (fun e => ret false)
              | None => ret false
              end ;;
  if restored then ret tt else modify (set_is_logged_in false).

(** The whole body stands in a [try] whose handler only logs. *)
Definition _save_session_to_redis : M World unit :=
  try_except
    (w <- get_state ;;
     match scraper w with
     | None => raise (mkExn AttributeError
                        "'NoneType' object has no attribute 'cookies'")
     | Some jar =>
         match json_dumps_cookies jar with
         | None => raise (mkExn CookieConflictError
                            "There are multiple cookies with name")
         | Some cookies_json =>
             now <- utcnow ;;
             let session_expiry :=
               now + timedelta_minutes (SESSION_DURATION_MIN cfg) in
             redis_set REDIS_COOKIES_KEY cookies_json ;;;
             redis_set REDIS_SESSION_EXPIRY_KEY (isoformat session_expiry) ;;;
             redis_set REDIS_LAST_LOGIN_KEY (isoformat now)
         end
     end)
    (fun e => ret tt).

Definition _clear_session_in_redis : M World unit :=
  redis_delete REDIS_COOKIES_KEY ;;;
  redis_delete REDIS_SESSION_EXPIRY_KEY ;;;
  redis_delete REDIS_LAST_LOGIN_KEY ;;;
  modify (set_is_logged_in false).

Definition _check_captcha (response_text : string) : bool :=
  let text := Py.lower response_text in
  Py.contains "captcha" text || Py.contains "cloudflare" text.

Definition error_dict (msg : string) : PyVal := PyDict [("error", PyStr msg)].

(** [data.get("notification", [{}])[0].get("content", "Login failed")] *)
Definition notification_content (data : PyVal) : Res PyVal :=
  match Py.get data "notification" (PyList [PyDict []]) with
  | Ok notes =>
      match Py.item0 notes with
      | Ok note => Py.get note "content" (PyStr "Login failed")
      | Raise e => Raise e
      | OutOfFuel => OutOfFuel
      end
  | Raise e => Raise e
  | OutOfFuel => OutOfFuel
  end.

Definition ensure_scraper : M World unit :=
  w <- get_state ;;
  match scraper w with
  | None => _init_scraper
  | Some _ => ret tt
  end.

Definition login : M World (bool * PyVal) :=
  ensure_scraper ;;;
  let payload := PyDict [("username", PyStr (AGENT_USERNAME cfg));
                         ("password", PyStr (AGENT_PASSWORD cfg))] in
  try_except
    (resp <- post (ORIGIN +:+ ENDPOINT_signin) payload ;;
     if _check_captcha (text resp) then
       ret (false, error_dict "captcha_detected")
     else
       match json resp with
       | None => ret (false, error_dict "invalid_json")
       | Some data =>
           flag <- lift_res (Py.get data "result" (PyBool false)) ;;
           if Py.truthy flag then
             _save_session_to_redis ;;;
             modify (set_is_logged_in true) ;;;
             ret (true, data)
           else
             error_msg <- lift_res (notification_content data) ;;
             ret (false, data)
       end)
    (fun e => ret (false, error_dict (exn_msg e))).

(** The second half of [ensure_login], from "logging in..." on. *)
Definition login_or_raise : M World bool :=
  r <- login ;;
  let '(success, data) := r in
  if success then ret true
  else
    content <- lift_res (notification_content data) ;;
    error_msg <- lift_res (Py.get data "error" content) ;;
    raise (mkExn RuntimeError ("❌ Failed to login: " +:+ py_str error_msg)).

Definition ensure_login : M World bool :=
  ensure_scraper ;;;
  w <- get_state ;;
  valid <- (if is_logged_in w then _is_session_valid else ret false) ;;
  if valid then ret true
  else login_or_raise.
End Session.

(* ===================================================================== *)
(** * The retry wrapper ([with_retry], lines 267-305)                     *)
(* ===================================================================== *)

(** The wrapper only uses [ensure_login] and [_clear_session_in_redis] of
    the client, so it is stated over any state that offers the two. *)
Section Retry.
Context `{PyRuntime} {S : Type}.
Variable ensure_login : M S bool.
Variable _clear_session_in_redis : M S unit.

(** [result[0] if isinstance(result, tuple) and len(result) > 0 else 0] *)
Definition result_status (result : PyVal) : PyVal :=
  match result with
  | PyTuple (status :: _) => status
  | _ => PyInt 0
  end.

(** [result[1] if isinstance(result, tuple) and len(result) > 1 else {}] *)
Definition result_data (result : PyVal) : PyVal :=
  match result with
  | PyTuple (_ :: data :: _) => data
  | _ => PyDict []
  end.

Definition captcha_like (data : PyVal) : bool :=
  let data_str := Py.lower (py_str data) in
  Py.contains "captcha" data_str || Py.contains "cloudflare" data_str.

(** [isinstance(data, dict) and not data.get("result", True)] *)
Definition result_flag_falsy (data : PyVal) : bool :=
  match data with
  | PyDict d => negb (Py.truthy (Py.dict_get d "result" (PyBool true)))
  | _ => false
  end.

(** The condition of the second [if] of the wrapper. *)
Definition failure_detected (result : PyVal) : bool :=
  let status := result_status result in
  let data := result_data result in
  negb (Py.eq_int status 200) || result_flag_falsy data || captcha_like data.

(** Both tests of the wrapper: [result is None], then the condition. *)
Definition classified_failed (result : PyVal) : bool :=
  match result with
  | PyNone => true
  | _ => failure_detected result
  end.

Definition with_retry (func : M S PyVal) : M S PyVal :=
  ensure_login ;;;
  result <- func ;;
  match result with
  | PyNone =>
      _clear_session_in_redis ;;;
      ensure_login ;;;
      func
  | _ =>
      if failure_detected result then
        _clear_session_in_redis ;;;
        ensure_login ;;;
        func
      else ret result
  end.
End Retry.

(* ===================================================================== *)
(** * Remote operations ([ichancy_api.py], lines 310-535)                 *)
(* ===================================================================== *)

Definition ascii_lowercase : string := "abcdefghijklmnopqrstuvwxyz".
Definition ascii_uppercase : string := "ABCDEFGHIJKLMNOPQRSTUVWXYZ".
Definition digits : string := "0123456789".

(** [random.choice(alphabet)] *)
Definition random_choice (alphabet : string) : M World ascii :=
  i <- random_below (String.length alphabet) ;;
  ret (default "000"%char (String.get i alphabet)).

(** [''.join(random.choice(alphabet) for _ in range(n))] *)
Fixpoint random_string (alphabet : string) (n : nat) : M World string :=
  match n with
  | O => ret ""
  | S n' =>
      c <- random_choice alphabet ;;
      rest <- random_string alphabet n' ;;
      ret (String c rest)
  end.

(** [random.randint(a, b)] *)
Definition randint (a b : Z) : M World Z :=
  i <- random_below (Z.to_nat (b - a + 1)) ;;
  ret (a + Z.of_nat i).

(** [data.get("result", {}).get("records", [])] *)
Definition statistics_records (data : PyVal) : Res PyVal :=
  match Py.get data "result" (PyDict []) with
  | Ok result => Py.get result "records" (PyList [])
  | r => r
  end.

(** [for record in records: if record.get(key) == wanted: <return>]; the
    answer is the first record that matches. *)
Fixpoint scan_records (key wanted : string) (records : list PyVal)
  : Res (option PyVal) :=
  match records with
  | [] => Ok None
  | record :: rest =>
      match Py.get record key PyNone with
      | Ok v => if Py.eq_str v wanted then Ok (Some record)
                else scan_records key wanted rest
      | Raise e => Raise e
      | OutOfFuel => OutOfFuel
      end
  end.

(** The loop over the decoded listing, from [resp.json()] on. *)
Definition find_record (key wanted : string) (resp : Response)
  : M World (option PyVal) :=
  data <- resp_json resp ;;
  records <- lift_res (statistics_records data) ;;
  items <- lift_res (Py.iter records) ;;
  lift_res (scan_records key wanted items).

Definition statistics_payload (filter : list (string * PyVal)) : PyVal :=
  PyDict [("page", PyInt 1); ("pageSize", PyInt 100); ("filter", PyDict filter)].

Definition transfer_payload (player_id amount : PyVal) : PyVal :=
  PyDict [("amount", amount); ("comment", PyNone); ("playerId", player_id);
          ("currencyCode", PyStr "NSP"); ("currency", PyStr "NSP");
          ("moneyStatus", PyInt 5)].

Definition player_payload (cfg : Config) (email pwd login : string) : PyVal :=
  PyDict [("player",
           PyDict [("email", PyStr email); ("password", PyStr pwd);
                   ("parentId", PyStr (PARENT_ID cfg)); ("login", PyStr login)])].

(** [try: data = resp.json()  except Exception: data = {}] *)
Definition json_or_empty (resp : Response) : PyVal :=
  match json resp with Some data => data | None => PyDict [] end.

Section Operations.
Context `{PyRuntime} (cfg : Config).

(** The decorator as the class applies it. *)
Definition retrying : M World PyVal -> M World PyVal :=
  with_retry (ensure_login cfg) _clear_session_in_redis.

Definition _generate_random_credentials : M World (string * string) :=
  tail <- random_string (ascii_lowercase +:+ digits) 7 ;;
  pwd <- random_string (ascii_lowercase +:+ ascii_uppercase +:+ digits) 10 ;;
  ret ("u" +:+ tail, pwd).

(** The undecorated body of each operation carries the suffix [_body];
    the name of the source is the decorated method. *)

Definition get_player_id_by_login_body (login : string) : M World PyVal :=
  resp <- post (ORIGIN +:+ ENDPOINT_statistics)
               (statistics_payload [("login", PyStr login)]) ;;
  try_except
    (found <- find_record "username" login resp ;;
     match found with
     | Some record => lift_res (Py.get record "playerId" PyNone)
     | None => ret PyNone
     end)
    (fun _ => ret PyNone).

Definition get_player_id_by_login (login : string) : M World PyVal :=
  retrying (get_player_id_by_login_body login).

Definition create_player_body : M World PyVal :=
  creds <- _generate_random_credentials ;;
  let '(login, pwd) := creds in
  let email := login +:+ "@example.com" in
  resp <- post (ORIGIN +:+ ENDPOINT_create) (player_payload cfg email pwd login) ;;
  let data := json_or_empty resp in
  player_id <- get_player_id_by_login login ;;
  ret (PyTuple [PyInt (status_code resp); data; PyStr login; PyStr pwd; player_id]).

Definition create_player : M World PyVal := retrying create_player_body.

Definition deposit_to_player_body (player_id amount : PyVal) : M World PyVal :=
  resp <- post (ORIGIN +:+ ENDPOINT_deposit) (transfer_payload player_id amount) ;;
  ret (PyTuple [PyInt (status_code resp); json_or_empty resp]).

Definition deposit_to_player (player_id amount : PyVal) : M World PyVal :=
  retrying (deposit_to_player_body player_id amount).

Definition withdraw_from_player_body (player_id amount : PyVal) : M World PyVal :=
  resp <- post (ORIGIN +:+ ENDPOINT_withdraw) (transfer_payload player_id amount) ;;
  ret (PyTuple [PyInt (status_code resp); json_or_empty resp]).

Definition withdraw_from_player (player_id amount : PyVal) : M World PyVal :=
  retrying (withdraw_from_player_body player_id amount).

Definition get_player_balance_body (player_id : PyVal) : M World PyVal :=
  resp <- post (ORIGIN +:+ ENDPOINT_balance)
               (PyDict [("playerId", PyStr (py_str player_id))]) ;;
  match json resp with
  | None =>
      ret (PyTuple [PyInt (status_code resp); PyDict []; PyFloat (S754_zero false)])
  | Some data =>
      results <- lift_res (Py.get data "result" (PyList [])) ;;
      balance <- (if Py.is_list results && Py.truthy results then
                    first <- lift_res (Py.item0 results) ;;
                    lift_res (Py.get first "balance" (PyInt 0))
                  else ret (PyInt 0)) ;;
      b <- lift_res (py_float balance) ;;
      ret (PyTuple [PyInt (status_code resp); data; b])
  end.

Definition get_player_balance (player_id : PyVal) : M World PyVal :=
  retrying (get_player_balance_body player_id).

(** [check_email_exists] carries no decorator in the source. *)
Definition check_email_exists (email : string) : M World PyVal :=
  resp <- post (ORIGIN +:+ ENDPOINT_statistics)
               (statistics_payload [("email", PyStr email)]) ;;
  try_except
    (found <- find_record "email" email resp ;;
     match found with
     | Some _ => ret (PyBool true)
     | None => ret (PyBool false)
     end)
    (fun _ => ret (PyBool false)).

Definition check_player_exists_body (login : string) : M World PyVal :=
  resp <- post (ORIGIN +:+ ENDPOINT_statistics)
               (statistics_payload [("login", PyStr login)]) ;;
  try_except
    (found <- find_record "username" login resp ;;
     match found with
     | Some _ => ret (PyBool true)
     | None => ret (PyBool false)
     end)
    (fun _ => ret (PyBool false)).

Definition check_player_exists (login : string) : M World PyVal :=
  retrying (check_player_exists_body login).

Definition get_all_players_body : M World PyVal :=
  resp <- post (ORIGIN +:+ ENDPOINT_statistics) (statistics_payload []) ;;
  try_except
    (data <- resp_json resp ;;
     lift_res (statistics_records data))
    (fun _ => ret (PyList [])).

Definition get_all_players : M World PyVal := retrying get_all_players_body.

(** [while self.check_email_exists(email): email = f"{login}_{suffix}@TSA.com"];
    the loop has no counter, so the model gives it fuel and answers
    [OutOfFuel] when the fuel does not suffice. *)
Fixpoint unique_email (fuel : nat) (login email : string) : M World string :=
  match fuel with
  | O => fun w => (OutOfFuel, w)
  | S fuel' =>
      taken <- check_email_exists email ;;
      if Py.truthy taken then
        random_suffix <- randint 1000 9999 ;;
        unique_email fuel' login (login +:+ "_" +:+ pretty random_suffix +:+ "@TSA.com")
      else ret email
  end.

Definition create_player_with_credentials_body (fuel : nat) (login pwd : string)
  : M World PyVal :=
  email <- unique_email fuel login (login +:+ "@TSA.com") ;;
  resp <- post (ORIGIN +:+ ENDPOINT_create) (player_payload cfg email pwd login) ;;
  let data := json_or_empty resp in
  player_id <- get_player_id_by_login login ;;
  ret (PyTuple [PyInt (status_code resp); data; player_id; PyStr email]).

Definition create_player_with_credentials (fuel : nat) (login pwd : string)
  : M World PyVal :=
  retrying (create_player_with_credentials_body fuel login pwd).
End Operations.

(* ===================================================================== *)
(** * Username generation ([ichancy_create_account.py], lines 13-25)      *)
(* ===================================================================== *)

Definition username_unavailable : Exn :=
  mkExn ValueError "❌ اسم المستخدم غير متاح، جرّب اسمًا آخر".

(** [generate_username] only uses the existence check and the random
    suffix, so it is stated over any state that offers the two. *)
Section Username.
Context {S : Type}.
Variable check_player_exists : string -> M S PyVal.
Variable _random_suffix : M S string.

(** The body of [for i in range(6)], for the values of [i] still to run. *)
Fixpoint generate_username_loop (base : string) (range : list nat) : M S string :=
  match range with
  | [] => raise username_unavailable
  | i :: rest =>
      username <- (if (i =? 0)%nat then ret base
                   else sfx <- _random_suffix ;; ret (base +:+ "_" +:+ sfx)) ;;
      taken <- check_player_exists username ;;
      if negb (Py.truthy taken) then ret username
      else generate_username_loop base rest
  end.

Definition generate_username (raw_username : string) : M S string :=
  generate_username_loop ("ZEUS_" +:+ raw_username) (seq 0 6).
End Username.

Section Provisioning.
Context `{PyRuntime} (cfg : Config).

(** [''.join(random.choices(ascii_lowercase + digits, k=length))] *)
Definition _random_suffix : M World string :=
  random_string (ascii_lowercase +:+ digits) 3.

(** [generate_username] over the module-level [api] client. *)
Definition api_generate_username : string -> M World string :=
  generate_username (check_player_exists cfg) _random_suffix.
End Provisioning.

(* ===================================================================== *)
(** * A reference runtime and test fixtures                               *)
(* ===================================================================== *)

(** A runtime in which a naive datetime is written as its count of
    microseconds in decimal, and an aware one at UTC offset zero as that
    count followed by [+00:00]; it satisfies the two laws of [PyRuntime].
    The jar codec knows the empty jar only, and floats are written by sign,
    mantissa and exponent. *)
Definition decimal_isoformat (t : Z) : string :=
  NilZero.string_of_int (Z.to_int t).

Definition utc_suffix : string := "+00:00".

Definition decimal_fromisoformat (s : string) : option DateTime :=
  match NilZero.int_of_string s with
  | Some n => Some (Naive (Z.of_int n))
  | None =>
      let cut := (String.length s - String.length utc_suffix)%nat in
      if String.eqb (String.substring cut (String.length utc_suffix) s) utc_suffix
      then option_map (fun n => Aware (Z.of_int n) 0)
                      (NilZero.int_of_string (String.substring 0 cut s))
      else None
  end.

Lemma decimal_roundtrip (t : Z) :
  decimal_fromisoformat (decimal_isoformat t) = Some (Naive t).
Proof.
  unfold decimal_fromisoformat, decimal_isoformat.
  rewrite NilZero.isi.
  - simpl. now rewrite DecimalZ.of_to.
  - destruct t; simpl; try discriminate.
    intros [= E]. now apply (DecimalPos.Unsigned.to_uint_nonnil p).
  - destruct t; simpl; try discriminate.
    intros [= E]. now apply (DecimalPos.Unsigned.to_uint_nonnil p).
Qed.

Definition plain_float_repr (f : spec_float) : string :=
  match f with
  | S754_zero s => if s then "-0.0" else "0.0"
  | S754_infinity s => if s then "-inf" else "inf"
  | S754_nan => "nan"
  | S754_finite s m e =>
      (if s then "-" else "") +:+ pretty (Z.pos m) +:+ "p" +:+ pretty e
  end.

#[local] Instance reference_runtime : PyRuntime := {|
  float_repr := plain_float_repr;
  float_of_str := fun _ => None;
  isoformat := decimal_isoformat;
  fromisoformat := decimal_fromisoformat;
  json_dumps_cookies := fun _ => Some "{}";
  json_loads_cookies := fun s => if String.eqb s "{}" then Some [] else None;
  fromisoformat_isoformat := decimal_roundtrip;
  fromisoformat_empty := eq_refl
|}.

(** The defaults of [_load_config]. *)
Definition default_config : Config := {|
  AGENT_USERNAME := "tsa_robert@tsa.com";
  AGENT_PASSWORD := "K041@051kkk";
  PARENT_ID := "2307909";
  SESSION_DURATION_MIN := 30;
  MAX_SESSION_AGE_HOURS := 2
|}.

Definition reply (status : Z) (body : string) (decoded : option PyVal) : Outcome :=
  Replied (mkResponse status body decoded []).

(** A process right after [__init__]: no scraper, not logged in.  In the
    fixtures the store accepts every write unless said otherwise. *)
Definition fresh_process (store : gmap string string) (clock : nat -> Z)
  (service : nat -> Request -> Outcome) : World :=
  mkWorld None false store clock 0 service [] (fun _ => 0%nat) 0 (fun _ => None) 0.

(** A process whose scraper exists. *)
Definition running_process (logged_in : bool) (store : gmap string string)
  (clock : nat -> Z) (service : nat -> Request -> Outcome) : World :=
  mkWorld (Some []) logged_in store clock 0 service [] (fun _ => 0%nat) 0
          (fun _ => None) 0.

(** A stored Session Record. *)
Definition session_record (cookies expires_at last_login_at : string)
  : gmap string string :=
  <[REDIS_COOKIES_KEY := cookies]>
    (<[REDIS_SESSION_EXPIRY_KEY := expires_at]>
       (<[REDIS_LAST_LOGIN_KEY := last_login_at]> ∅)).

(* ===================================================================== *)
(** * Observers used to state the properties                              *)
(* ===================================================================== *)

(** A computation run beside an observer's notebook [G] it cannot see. *)
Definition beside {S G A} (m : M S A) : M (S * G) A :=
  fun sg => let '(r, s') := m (fst sg) in (r, (s', snd sg)).


(** What the notebook of a run of [generate_username] lists: a draw of a
    suffix with its outcome, and a probe of a name with its answer. *)
Inductive Event : Type :=
| Drew (o : Res string)
| Probed (name : string) (o : Res PyVal).

(** The suffix generator with the outcome of every draw noted. *)
Definition drawn {S} (draw : M S string) : M (S * list Event) string :=
  fun sg => let '(r, s') := draw (fst sg) in (r, (s', (snd sg ++ [Drew r])%list)).

(** The existence check with every probed name and its answer noted. *)
Definition probing {S} (check : string -> M S PyVal)
  : string -> M (S * list Event) PyVal :=
  fun name sg =>
    let '(r, s') := check name (fst sg) in (r, (s', (snd sg ++ [Probed name r])%list)).

(** The probes among the events. *)
Definition probes (events : list Event) : list (string * Res PyVal) :=
  flat_map (fun ev => match ev with
                      | Probed name o => [(name, o)]
                      | Drew _ => []
                      end) events.

(** [r] is the failure [o]: the same exception, or both out of fuel. *)
Definition same_failure {A B} (o : Res A) (r : Res B) : Prop :=
  match o, r with
  | Raise e, Raise e' => e = e'
  | OutOfFuel, OutOfFuel => True
  | _, _ => False
  end.

Definition is_ok {A} (r : Res A) : bool :=
  match r with Ok _ => true | _ => false end.

Section ClaimedClassification.
Context `{PyRuntime}.

(** The classification in the words of the specification: an embedded
    status code other than 200, a decoded body whose [result] flag is the
    value false, or a challenge marker in the rendered body. *)
Definition embedded_status_not_200 (result : PyVal) : bool :=
  match result with
  | PyTuple (status :: _) => negb (Py.eq_int status 200)
  | _ => false
  end.

Definition result_flag_explicitly_false (result : PyVal) : bool :=
  match result with
  | PyTuple (_ :: PyDict d :: _) =>
      match Py.lookup d "result" with
      | Some (PyBool false) => true
      | _ => false
      end
  | _ => false
  end.

Definition claimed_failed (result : PyVal) : bool :=
  match result with
  | PyNone => true
  | _ => embedded_status_not_200 result
         || result_flag_explicitly_false result
         || captcha_like (result_data result)
  end.
End ClaimedClassification.

(** The identifier a statistics request filters on, if it has one. *)
Definition filter_value (key : string) (rq : Request) : option string :=
  match req_json rq with
  | PyDict d =>
      match Py.lookup d "filter" with
      | Some (PyDict f) =>
          match Py.lookup f key with
          | Some (PyStr s) => Some s
          | _ => None
          end
      | _ => None
      end
  | _ => None
  end.

Definition listing (records : list PyVal) : PyVal :=
  PyDict [("result", PyDict [("records", PyList records)])].

(** A remote service on which every email asked about is registered, and
    every login name too. *)
Definition everything_taken : nat -> Request -> Outcome :=
  fun _ rq =>
    match filter_value "email" rq, filter_value "login" rq with
    | Some email, _ =>
        reply 200 "" (Some (listing [PyDict [("email", PyStr email)]]))
    | None, Some login =>
        reply 200 "" (Some (listing [PyDict [("username", PyStr login);
                                              ("playerId", PyStr "1")]]))
    | None, None => reply 200 "" (Some (PyDict [("result", PyBool true)]))
    end.

(* ===================================================================== *)
(** * Reasoning about computations                                        *)
(* ===================================================================== *)

Ltac unfold_monad :=
  unfold bind, ret, raise, try_except, get_state, modify, lift_res,
         redis_get, redis_set, redis_delete, utcnow in *.

Lemma bind_assoc {S A B C} (m : M S A) (f : A -> M S B) (g : B -> M S C) (s : S) :
  bind (bind m f) g s = bind m (fun a => bind (f a) g) s.
Proof. unfold bind. destruct (m s) as [[a|e|] s']; reflexivity. Qed.

Lemma bind_ret_l {S A B} (a : A) (k : A -> M S B) (s : S) :
  bind (ret a) k s = k a s.
Proof. reflexivity. Qed.

Lemma bind_eq {S A B} (m : M S A) (k : A -> M S B) (s : S) :
  bind m k s = match m s with
               | (Ok a, s') => k a s'
               | (Raise e, s') => (Raise e, s')
               | (OutOfFuel, s') => (OutOfFuel, s')
               end.
Proof. reflexivity. Qed.

Lemma bind_beside {S G A B} (m : M S A) (k : A -> M (S * G) B) (s : S) (g : G) :
  bind (beside m) k (s, g) = match m s with
                             | (Ok a, s') => k a (s', g)
                             | (Raise e, s') => (Raise e, (s', g))
                             | (OutOfFuel, s') => (OutOfFuel, (s', g))
                             end.
Proof. unfold bind, beside. simpl. destruct (m s) as [[a|e|] s']; reflexivity. Qed.

Lemma bind_drawn {S A} (m : M S string) (k : string -> M (S * list Event) A)
  (s : S) (log : list Event) :
  bind (drawn m) k (s, log)
  = match m s with
    | (Ok a, s') => k a (s', (log ++ [Drew (Ok a)])%list)
    | (Raise e, s') => (Raise e, (s', (log ++ [Drew (Raise e)])%list))
    | (OutOfFuel, s') => (OutOfFuel, (s', (log ++ [Drew OutOfFuel])%list))
    end.
Proof. unfold bind, drawn. simpl. destruct (m s) as [[a|e|] s']; reflexivity. Qed.

Lemma nonempty_Some (o : option string) (s : string) :
  nonempty o = Some s <-> o = Some s /\ s <> "".
Proof.
  destruct o as [t|]; simpl.
  - destruct (String.eqb_spec t ""); split.
    + discriminate.
    + intros [[= ->] Hne]. contradiction.
    + intros [= ->]. auto.
    + intros [[= ->] _]. reflexivity.
  - split; [discriminate | intros [[=] _]].
Qed.

(* ===================================================================== *)
(** * Session validity                                                    *)
(* ===================================================================== *)

Section SessionValidity.
Context `{PyRuntime} (cfg : Config).

(** The invariant of a Session Record read at the instant [now]: both
    timestamps are stored and parse to naive datetimes, the instant is
    before the expiry and the login is younger than the maximal age. *)
Definition record_valid_at (store : gmap string string) (now : Z) : Prop :=
  exists es ls expires_at last_login_at,
    store !! REDIS_SESSION_EXPIRY_KEY = Some es
    /\ store !! REDIS_LAST_LOGIN_KEY = Some ls
    /\ fromisoformat es = Some (Naive expires_at)
    /\ fromisoformat ls = Some (Naive last_login_at)
    /\ now < expires_at
    /\ now - last_login_at < timedelta_hours (MAX_SESSION_AGE_HOURS cfg).

(** A stored record both of whose timestamps parse, one of them to a
    datetime that carries a UTC offset. *)
Definition offset_aware_record (store : gmap string string) : Prop :=
  exists es ls session_expiry last_login_time,
    store !! REDIS_SESSION_EXPIRY_KEY = Some es
    /\ store !! REDIS_LAST_LOGIN_KEY = Some ls
    /\ fromisoformat es = Some session_expiry
    /\ fromisoformat ls = Some last_login_time
    /\ (aware last_login_time = true \/ aware session_expiry = true).

(** A timestamp field that is absent, empty or does not parse. *)
Definition unusable_field (store : gmap string string) (key : string) : Prop :=
  forall s, store !! key = Some s -> fromisoformat s = None.

(** The state after one reading of the clock. *)
Definition tick (w : World) : World := set_clock_reads (S (clock_reads w)) w.

Lemma nonempty_None_unparsed (o : option string) :
  nonempty o = None -> forall s, o = Some s -> fromisoformat s = None.
Proof.
  intros Hn s Hs. subst o. simpl in Hn.
  destruct (String.eqb_spec s "") as [E|E]; [subst s; apply fromisoformat_empty | discriminate].
Qed.

Lemma is_session_valid_spec (w : World) :
  exists r w',
    _is_session_valid cfg w = (r, w')
    /\ (w' = w \/ w' = tick w)
    /\ (r = Ok true -> w' = tick w)
    /\ (r = Ok true <-> record_valid_at (redis w) (now_at w (clock_reads w)))
    /\ ((exists b, r = Ok b)
        \/ (exists msg, r = Raise (mkExn TypeError msg) /\ w' = tick w))
    /\ ((exists e, r = Raise e) <-> offset_aware_record (redis w)).
Proof.
  unfold _is_session_valid, record_valid_at, offset_aware_record. unfold_monad.
  destruct (nonempty (redis w !! REDIS_SESSION_EXPIRY_KEY)) as [es|] eqn:Ee.
  2:{ pose proof (nonempty_None_unparsed _ Ee) as Hu.
      exists (Ok false), w. repeat split; eauto; try discriminate.
      - intros (es & ls & e & l & He & _ & Pe & _). rewrite (Hu es He) in Pe. discriminate.
      - intros (e & [=]).
      - intros (es & ls & e & l & He & _ & Pe & _). rewrite (Hu es He) in Pe. discriminate. }
  destruct (nonempty (redis w !! REDIS_LAST_LOGIN_KEY)) as [ls|] eqn:El.
  2:{ pose proof (nonempty_None_unparsed _ El) as Hu.
      exists (Ok false), w. repeat split; eauto; try discriminate.
      - intros (es' & ls & e & l & _ & Hl & _ & Pl & _). rewrite (Hu ls Hl) in Pl. discriminate.
      - intros (e & [=]).
      - intros (es' & ls & e & l & _ & Hl & _ & Pl & _). rewrite (Hu ls Hl) in Pl. discriminate. }
  apply nonempty_Some in Ee as [Ee _]. apply nonempty_Some in El as [El _].
  destruct (fromisoformat es) as [e|] eqn:Pe.
  2:{ exists (Ok false), w. repeat split; eauto; try discriminate.
      - intros (es' & ls' & e & l & He & _ & Pe' & _). congruence.
      - intros (e & [=]).
      - intros (es' & ls' & e & l & He & _ & Pe' & _). congruence. }
  destruct (fromisoformat ls) as [l|] eqn:Pl.
  2:{ exists (Ok false), w. repeat split; eauto; try discriminate.
      - intros (es' & ls' & e' & l & _ & Hl & _ & Pl' & _). congruence.
      - intros (e' & [=]).
      - intros (es' & ls' & e' & l & _ & Hl & _ & Pl' & _). congruence. }
  assert (Hsame : forall es' ls' e' l',
             redis w !! REDIS_SESSION_EXPIRY_KEY = Some es' ->
             redis w !! REDIS_LAST_LOGIN_KEY = Some ls' ->
             fromisoformat es' = Some e' -> fromisoformat ls' = Some l' ->
             e' = e /\ l' = l).
  { intros es' ls' e' l' He Hl Pe' Pl'.
    assert (es' = es) by congruence. assert (ls' = ls) by congruence. subst.
    split; congruence. }
  destruct l as [tl|tl ol]; simpl.
  2:{ eexists _, (tick w). split; [reflexivity|]. split; [right; reflexivity|].
      split; [discriminate|]. split.
      { split; [discriminate|].
        intros (es' & ls' & e' & l' & He & Hl & Pe' & Pl' & _).
        destruct (Hsame _ _ _ _ He Hl Pe' Pl') as [_ [=]]. }
      split; [right; eexists; split; reflexivity|].
      split; [|intros _; eexists; reflexivity].
      intros _. exists es, ls, e, (Aware tl ol). repeat split; auto. }
  destruct e as [te|te oe]; simpl.
  2:{ eexists _, (tick w). split; [reflexivity|]. split; [right; reflexivity|].
      split; [discriminate|]. split.
      { split; [discriminate|].
        intros (es' & ls' & e' & l' & He & Hl & Pe' & Pl' & _).
        destruct (Hsame _ _ _ _ He Hl Pe' Pl') as [[=] _]. }
      split; [right; eexists; split; reflexivity|].
      split; [|intros _; eexists; reflexivity].
      intros _. exists es, ls, (Aware te oe), (Naive tl). repeat split; auto. }
  eexists _, (tick w). split; [reflexivity|]. split; [right; reflexivity|].
  split; [reflexivity|]. split.
  { split.
    - intros [= Hb]. apply andb_true_iff in Hb as [H1 H2].
      exists es, ls, te, tl. repeat split; auto; lia.
    - intros (es' & ls' & e' & l' & He & Hl & Pe' & Pl' & H1 & H2).
      destruct (Hsame _ _ _ _ He Hl Pe' Pl') as [[= ->] [= ->]].
      f_equal. apply andb_true_iff. split; lia. }
  split; [left; eexists; reflexivity|].
  split; [intros (e & [=])|].
  intros (es' & ls' & e' & l' & He & Hl & Pe' & Pl' & Haw).
  destruct (Hsame _ _ _ _ He Hl Pe' Pl') as [-> ->].
  destruct Haw as [Haw | Haw]; discriminate.
Qed.

(** When no stored record is offset-aware the check answers with a bool. *)
Lemma is_session_valid_bool (w : World) :
  ~ offset_aware_record (redis w) ->
  exists b w',
    _is_session_valid cfg w = (Ok b, w')
    /\ (w' = w \/ w' = tick w)
    /\ (b = true -> w' = tick w)
    /\ (b = true <-> record_valid_at (redis w) (now_at w (clock_reads w))).
Proof.
  intros Hnaive.
  destruct (is_session_valid_spec w) as (r & w' & Hrun & Hw & Htick & Hv & Hshape & Hraise).
  destruct Hshape as [(b & ->) | (msg & -> & _)].
  - exists b, w'. repeat split; auto.
    + intros ->. auto.
    + intros ->. apply Hv. reflexivity.
    + intros Hr. apply Hv in Hr. congruence.
  - exfalso. apply Hnaive, Hraise. eexists; reflexivity.
Qed.

Lemma valid_not_offset_aware (store : gmap string string) (now : Z) :
  record_valid_at store now -> ~ offset_aware_record store.
Proof.
  intros (es & ls & e & l & He & Hl & Pe & Pl & _)
         (es' & ls' & e' & l' & He' & Hl' & Pe' & Pl' & Haw).
  assert (es' = es) by congruence. assert (ls' = ls) by congruence. subst.
  rewrite Pe in Pe'. rewrite Pl in Pl'. injection Pe' as <-. injection Pl' as <-.
  destruct Haw; discriminate.
Qed.

(** C4.  [_is_session_valid] never writes the store.  It returns true
    exactly when both timestamps are stored and parse to naive datetimes,
    the instant is before [expires_at] and less than the maximal session
    age has passed since [last_login_at].  A timestamp that is absent,
    empty or does not parse makes it return false.  It raises exactly when
    both timestamps parse and one of them carries a UTC offset: the
    subtraction and the comparison with the naive clock stand outside the
    [try], and the exception is a [TypeError]. *)
Theorem is_session_valid_iff (w : World) :
  exists r w',
    _is_session_valid cfg w = (r, w')
    /\ redis w' = redis w
    /\ (r = Ok true <-> record_valid_at (redis w) (now_at w (clock_reads w)))
    /\ (unusable_field (redis w) REDIS_SESSION_EXPIRY_KEY
        \/ unusable_field (redis w) REDIS_LAST_LOGIN_KEY -> r = Ok false)
    /\ ((exists msg, r = Raise (mkExn TypeError msg)) <-> offset_aware_record (redis w))
    /\ (r = Ok true \/ r = Ok false \/ exists msg, r = Raise (mkExn TypeError msg)).
Proof.
  destruct (is_session_valid_spec w) as (r & w' & Hrun & Hw & _ & Hv & Hshape & Hraise).
  exists r, w'. split; [exact Hrun|].
  split; [destruct Hw as [-> | ->]; reflexivity|].
  split; [exact Hv|].
  assert (Hcases : r = Ok true \/ r = Ok false \/ exists msg, r = Raise (mkExn TypeError msg)).
  { destruct Hshape as [([|] & ->) | (msg & -> & _)]; eauto. }
  split.
  { intros Hun.
    destruct Hcases as [-> | [-> | (msg & ->)]]; [exfalso | reflexivity | exfalso].
    - destruct (proj1 Hv eq_refl) as (es & ls & e & l & He & Hl & Pe & Pl & _).
      destruct Hun as [Hun | Hun];
        [rewrite (Hun es He) in Pe | rewrite (Hun ls Hl) in Pl]; discriminate.
    - destruct (proj1 Hraise (ex_intro _ _ eq_refl))
        as (es & ls & e & l & He & Hl & Pe & Pl & _).
      destruct Hun as [Hun | Hun];
        [rewrite (Hun es He) in Pe | rewrite (Hun ls Hl) in Pl]; discriminate. }
  split; [|exact Hcases].
  split.
  - intros (msg & ->). apply Hraise. eexists; reflexivity.
  - intros Haw. apply Hraise in Haw as (e & ->).
    destruct Hshape as [(b & [=]) | (msg & [= ->] & _)]. eexists; reflexivity.
Qed.
End SessionValidity.


(* ===================================================================== *)
(** * The retry wrapper: classification and bound                         *)
(* ===================================================================== *)

Section RetryFacts.
Context `{PyRuntime} {S : Type}.
Variable ensure_login : M S bool.
Variable _clear_session_in_redis : M S unit.

(** The two tests of the wrapper lead to the same retry. *)
Lemma with_retry_classified (func : M S PyVal) (s : S) :
  with_retry ensure_login _clear_session_in_redis func s
  = (ensure_login ;;;
     result <- func ;;
     if classified_failed result
     then _clear_session_in_redis ;;; ensure_login ;;; func
     else ret result) s.
Proof.
  unfold with_retry, bind.
  destruct (ensure_login s) as [[b|e|] s1]; try reflexivity.
  destruct (func s1) as [[v|e|] s2]; try reflexivity.
  destruct v; reflexivity.
Qed.
End RetryFacts.

Section RetryBound.
Context `{PyRuntime} {S : Type}.
Variable ensure_login : M S bool.
Variable _clear_session_in_redis : M S unit.


(** What the condition of the wrapper says about the shape of a result. *)
Lemma failure_detected_shape (result : PyVal) :
  failure_detected result = true <->
    (forall status rest, result = PyTuple (status :: rest) -> Py.eq_int status 200 = false)
    \/ (exists status d rest v,
          result = PyTuple (status :: PyDict d :: rest)
          /\ Py.lookup d "result" = Some v /\ Py.truthy v = false)
    \/ captcha_like (result_data result) = true.
Proof.
  unfold failure_detected. rewrite !orb_true_iff, negb_true_iff.
  split.
  - intros [[Hs | Hf] | Hc]; [left | right; left | right; right]; auto.
    + intros status rest ->. exact Hs.
    + unfold result_flag_falsy in Hf.
      destruct result as [| | | | |l|l|d]; simpl in Hf; try discriminate.
      destruct l as [|status [|data rest]]; simpl in Hf; try discriminate.
      destruct data as [| | | | | | |d]; try discriminate.
      apply negb_true_iff in Hf. unfold Py.dict_get in Hf.
      destruct (Py.lookup d "result") as [v|] eqn:Hl; [|discriminate].
      exists status, d, rest, v. auto.
  - intros [Hs | [(status & d & rest & v & -> & Hl & Hv) | Hc]].
    + destruct result as [| | | | |l|l|d]; try (left; left; reflexivity).
      destruct l as [|status rest]; [left; left; reflexivity|].
      left; left. simpl. eauto.
    + left; right. simpl. unfold Py.dict_get. rewrite Hl, Hv. reflexivity.
    + right. exact Hc.
Qed.

(** C2, as the code has it.  The wrapper classifies a first result as
    failed exactly when the result is None, or it is not a tuple whose
    first element equals 200 (a result that is no tuple, or the empty
    tuple, counts as status 0), or the second element of the tuple is a
    dict whose [result] entry is present and falsy, or the lowered text of
    that second element (of the empty dict when there is none) contains
    captcha or cloudflare; the last case holds whatever the status. *)
Theorem classified_failed_iff (result : PyVal) :
  classified_failed result = true <->
    result = PyNone
    \/ (forall status rest, result = PyTuple (status :: rest) -> Py.eq_int status 200 = false)
    \/ (exists status d rest v,
          result = PyTuple (status :: PyDict d :: rest)
          /\ Py.lookup d "result" = Some v /\ Py.truthy v = false)
    \/ captcha_like (result_data result) = true.
Proof.
  destruct result as [| | | | |l|l|d];
    try (unfold classified_failed; rewrite failure_detected_shape;
         split; [intros Hf; right; exact Hf | intros [Hn | Hf]; [discriminate | exact Hf]]).
  split; [intros _; left; reflexivity | reflexivity].
Qed.
End RetryBound.

(** A bare [True], the answer of an existence check, is classified as failed
    although it is not None, embeds no status code, carries no [result]
    flag and shows no challenge marker; so is a balance answer with status
    200 whose [result] list is empty. *)
Lemma classification_counterexample :
  (classified_failed (PyBool true) = true
   /\ claimed_failed (PyBool true) = false)
  /\ (classified_failed
        (PyTuple [PyInt 200; PyDict [("result", PyList [])]; PyFloat (S754_zero false)])
      = true
      /\ claimed_failed
           (PyTuple [PyInt 200; PyDict [("result", PyList [])]; PyFloat (S754_zero false)])
         = false).
Proof. repeat split; vm_compute; reflexivity. Qed.

(* ===================================================================== *)
(** * Username generation: at most six probes                             *)
(* ===================================================================== *)

(** The name tried at iteration [i], given the suffix drawn for it: the
    prefixed base at the first iteration, the base with the suffix
    afterwards. *)
Definition candidate (base : string) (i : nat) (sfx : string) : string :=
  if (i =? 0)%nat then base else base +:+ "_" +:+ sfx.

(** The events of iteration [i] once its name is probed: from the second
    iteration on a draw that returned [sfx] comes first. *)
Definition iteration (base : string) (i : nat) (sfx : string) (o : Res PyVal)
  : list Event :=
  if (i =? 0)%nat then [Probed base o]
  else [Drew (Ok sfx); Probed (base +:+ "_" +:+ sfx) o].

(** The events of consecutive iterations, from [i] on, each of which found
    its name taken: [taken] lists the suffix and the answer of each. *)
Fixpoint taken_rounds (base : string) (i : nat) (taken : list (string * PyVal))
  : list Event :=
  match taken with
  | [] => []
  | (sfx, v) :: rest => (iteration base i sfx (Ok v) ++ taken_rounds base (S i) rest)%list
  end.

(** How the loop over [n] iterations starting at [i] ends after [taken]:
    on a name reported free, after the last iteration, on a probe that
    fails, or on a draw that fails. *)
Definition loop_end (base : string) (i n : nat) (taken : list (string * PyVal))
  (tail : list Event) (r : Res string) : Prop :=
  let k := length taken in
  ((k < n)%nat
   /\ exists sfx v, tail = iteration base (i + k) sfx (Ok v)
                    /\ Py.truthy v = false
                    /\ r = Ok (candidate base (i + k) sfx))
  \/ (k = n /\ tail = [] /\ r = Raise username_unavailable)
  \/ ((k < n)%nat
      /\ exists sfx o, tail = iteration base (i + k) sfx o /\ same_failure o r)
  \/ ((k < n)%nat /\ (0 < i + k)%nat
      /\ exists o, tail = [Drew o] /\ same_failure o r).

Lemma probes_app (l1 l2 : list Event) :
  probes (l1 ++ l2) = (probes l1 ++ probes l2)%list.
Proof. apply flat_map_app. Qed.

Lemma probes_iteration (base : string) (i : nat) (sfx : string) (o : Res PyVal) :
  length (probes (iteration base i sfx o)) = 1%nat.
Proof. unfold iteration. destruct (i =? 0)%nat; reflexivity. Qed.

Lemma probes_taken_rounds (base : string) (taken : list (string * PyVal)) :
  forall i, length (probes (taken_rounds base i taken)) = length taken.
Proof.
  induction taken as [|[sfx v] rest IH]; intros i; [reflexivity|].
  simpl. rewrite probes_app, length_app, probes_iteration, IH. reflexivity.
Qed.

Lemma loop_end_probes (base : string) (i n : nat) (taken : list (string * PyVal))
  (tail : list Event) (r : Res string) :
  loop_end base i n taken tail r ->
  (length (probes (taken_rounds base i taken ++ tail)) <= n)%nat.
Proof.
  unfold loop_end. rewrite probes_app, length_app, probes_taken_rounds.
  intros [(Hk & sfx & v & -> & _) | [(Hk & -> & _)
         | [(Hk & sfx & o & -> & _) | (Hk & _ & o & -> & _)]]];
    rewrite ?probes_iteration; simpl; lia.
Qed.

Section UsernameFacts.
Context {St : Type}.
Variable check_player_exists : string -> M St PyVal.
Variable _random_suffix : M St string.

(** One more iteration in front of a run that is already described. *)
Lemma loop_end_step (base : string) (i n : nat) (sfx : string) (v : PyVal)
  (taken : list (string * PyVal)) (tail : list Event) (r : Res string) :
  loop_end base (S i) n taken tail r ->
  loop_end base i (S n) ((sfx, v) :: taken) tail r.
Proof.
  unfold loop_end. simpl length.
  replace (i + S (length taken))%nat with (S i + length taken)%nat by lia.
  intros [(Hk & Hrest) | [(Hk & Hrest) | [(Hk & Hrest) | (Hk & Hpos & Hrest)]]].
  - left. split; [lia | exact Hrest].
  - right; left. split; [lia | exact Hrest].
  - right; right; left. split; [lia | exact Hrest].
  - right; right; right. split; [lia|]. split; [lia | exact Hrest].
Qed.

(** The probe of the name of iteration [i], then the rest of the loop. *)
Lemma probe_then_loop (base : string) (i n : nat) (sfx : string)
  (IH : forall (s : St) (log : list Event),
      let run := generate_username_loop (probing check_player_exists)
                                        (drawn _random_suffix) base
                                        (seq (S i) n) (s, log) in
      (fst run, fst (snd run))
      = generate_username_loop check_player_exists _random_suffix base (seq (S i) n) s
      /\ exists taken tail,
          snd (snd run) = (log ++ taken_rounds base (S i) taken ++ tail)%list
          /\ Forall (fun t => Py.truthy (snd t) = true) taken
          /\ loop_end base (S i) n taken tail (fst run))
  (s0 : St) (log0 log : list Event) :
  log = (log0 ++ (if (i =? 0)%nat then [] else [Drew (Ok sfx)]))%list ->
  let run := (taken <- probing check_player_exists (candidate base i sfx) ;;
              if negb (Py.truthy taken) then ret (candidate base i sfx)
              else generate_username_loop (probing check_player_exists)
                                          (drawn _random_suffix) base (seq (S i) n))
               (s0, log) in
  (fst run, fst (snd run))
  = (taken <- check_player_exists (candidate base i sfx) ;;
     if negb (Py.truthy taken) then ret (candidate base i sfx)
     else generate_username_loop check_player_exists _random_suffix base (seq (S i) n)) s0
  /\ exists taken tail,
      snd (snd run) = (log0 ++ taken_rounds base i taken ++ tail)%list
      /\ Forall (fun t => Py.truthy (snd t) = true) taken
      /\ loop_end base i (S n) taken tail (fst run).
Proof.
  intros Hlog. cbv zeta.
  set (loop := generate_username_loop (probing check_player_exists)
                                      (drawn _random_suffix) base (seq (S i) n)) in *.
  assert (Hev : forall o,
             (log ++ [Probed (candidate base i sfx) o])%list
             = (log0 ++ iteration base i sfx o)%list).
  { intros o. rewrite Hlog. unfold iteration, candidate.
    destruct (i =? 0)%nat; [rewrite app_nil_r | rewrite <- app_assoc]; reflexivity. }
  unfold bind, probing, ret. simpl.
  destruct (check_player_exists (candidate base i sfx) s0) as [[v|e|] s1] eqn:Hchk; simpl.
  - destruct (Py.truthy v) eqn:Hv; simpl.
    + specialize (IH s1 (log ++ [Probed (candidate base i sfx) (Ok v)])%list).
      cbv zeta in IH. fold loop in IH.
      destruct IH as (Hrun & taken & tail & Hevents & Htaken & Hend).
      split; [exact Hrun|].
      exists ((sfx, v) :: taken), tail. split.
      { rewrite Hevents, Hev. simpl taken_rounds. rewrite <- !app_assoc. reflexivity. }
      split; [constructor; [exact Hv | exact Htaken]|].
      apply loop_end_step. exact Hend.
    + split; [reflexivity|]. exists [], (iteration base i sfx (Ok v)).
      split; [rewrite Hev; reflexivity|]. split; [constructor|].
      left. simpl. rewrite Nat.add_0_r. split; [lia|]. exists sfx, v. auto.
  - split; [reflexivity|]. exists [], (iteration base i sfx (Raise e)).
    split; [rewrite Hev; reflexivity|]. split; [constructor|].
    right; right; left. simpl. rewrite Nat.add_0_r. split; [lia|].
    exists sfx, (Raise e). split; reflexivity.
  - split; [reflexivity|]. exists [], (iteration base i sfx OutOfFuel).
    split; [rewrite Hev; reflexivity|]. split; [constructor|].
    right; right; left. simpl. rewrite Nat.add_0_r. split; [lia|].
    exists sfx, OutOfFuel. split; [reflexivity | exact I].
Qed.

Lemma generate_username_loop_events (base : string) (n : nat) :
  forall (i : nat) (s : St) (log : list Event),
    let run := generate_username_loop (probing check_player_exists)
                                      (drawn _random_suffix) base (seq i n) (s, log) in
    (fst run, fst (snd run))
    = generate_username_loop check_player_exists _random_suffix base (seq i n) s
    /\ exists taken tail,
        snd (snd run) = (log ++ taken_rounds base i taken ++ tail)%list
        /\ Forall (fun t => Py.truthy (snd t) = true) taken
        /\ loop_end base i n taken tail (fst run).
Proof.
  induction n as [|n IH]; intros i s log; cbv zeta.
  - simpl. split; [reflexivity|]. exists [], []. simpl. rewrite app_nil_r.
    split; [reflexivity|]. split; [constructor|].
    right; left. repeat split.
  - simpl seq. simpl generate_username_loop.
    destruct (i =? 0)%nat eqn:Hi.
    + rewrite !bind_ret_l.
      pose proof (probe_then_loop base i n "" (IH (S i)) s log log) as Hstep.
      unfold candidate in Hstep. rewrite Hi in Hstep.
      apply Hstep. rewrite app_nil_r. reflexivity.
    + rewrite !bind_assoc.
      rewrite bind_drawn, (bind_eq _random_suffix).
      destruct (_random_suffix s) as [[sfx|e|] s0]; simpl.
      * rewrite !bind_ret_l.
        pose proof (probe_then_loop base i n sfx (IH (S i)) s0 log
                      (log ++ [Drew (Ok sfx)])%list) as Hstep.
        unfold candidate in Hstep. rewrite Hi in Hstep.
        apply Hstep. reflexivity.
      * split; [reflexivity|]. exists [], [Drew (Raise e)]. simpl.
        split; [reflexivity|]. split; [constructor|].
        unfold loop_end. simpl length. right; right; right. rewrite Nat.add_0_r.
        apply Nat.eqb_neq in Hi.
        split; [lia|]. split; [lia|]. exists (Raise e). split; reflexivity.
      * split; [reflexivity|]. exists [], [Drew OutOfFuel]. simpl.
        split; [reflexivity|]. split; [constructor|].
        unfold loop_end. simpl length. right; right; right. rewrite Nat.add_0_r.
        apply Nat.eqb_neq in Hi.
        split; [lia|]. split; [lia|]. exists OutOfFuel. split; [reflexivity | exact I].
Qed.
End UsernameFacts.

Section UsernameBound.
Context {St : Type}.
Variable check_player_exists : string -> M St PyVal.
Variable _random_suffix : M St string.

(** C9.  Username generation probes the existence check on at most six
    names.  Its run is a sequence of iterations that found their name
    taken, followed by its end.  The first iteration probes the prefixed
    base; every later one draws a suffix and probes the base with that
    suffix.  The run ends in exactly one of four ways: a probe answers
    "not taken" before the sixth iteration is over, and that name is
    returned; six probes answered "taken", and the "username unavailable"
    error is raised; a probe does not return, and its failure is the
    failure of the run; a draw does not return, and its failure is the
    failure of the run.  The notebook lists the draws and the probes in
    order, and the run with the notebook is the run of
    [generate_username] itself. *)
Theorem generate_username_at_most_six (raw_username : string) (s : St) :
  let base := "ZEUS_" +:+ raw_username in
  let run := generate_username (probing check_player_exists)
                               (drawn _random_suffix) raw_username (s, []) in
  let r := fst run in
  let events := snd (snd run) in
  (r, fst (snd run)) = generate_username check_player_exists _random_suffix raw_username s
  /\ (length (probes events) <= 6)%nat
  /\ exists (taken : list (string * PyVal)) (tail : list Event),
      events = (taken_rounds base 0 taken ++ tail)%list
      /\ Forall (fun t => Py.truthy (snd t) = true) taken
      /\ let k := length taken in
         ((k < 6)%nat
          /\ exists sfx v, tail = iteration base k sfx (Ok v)
                           /\ Py.truthy v = false
                           /\ r = Ok (candidate base k sfx))
         \/ (k = 6%nat /\ tail = [] /\ r = Raise username_unavailable)
         \/ ((k < 6)%nat
             /\ exists sfx o, tail = iteration base k sfx o /\ same_failure o r)
         \/ ((0 < k < 6)%nat
             /\ exists o, tail = [Drew o] /\ same_failure o r).
Proof.
  cbv zeta. unfold generate_username.
  destruct (generate_username_loop_events check_player_exists _random_suffix
              ("ZEUS_" +:+ raw_username) 6 0%nat s [])
    as (Hrun & taken & tail & Hevents & Htaken & Hend).
  cbv zeta in *. simpl app in Hevents. rewrite Hevents.
  split; [exact Hrun|].
  split; [apply (loop_end_probes _ _ _ _ _ _ Hend)|].
  exists taken, tail. split; [reflexivity|]. split; [exact Htaken|].
  unfold loop_end in Hend. simpl Nat.add in Hend.
  destruct Hend as [Ha | [Hb | [Hc | (Hk & Hpos & Hd)]]]; auto.
  right; right; right. split; [lia | exact Hd].
Qed.
End UsernameBound.

(* ===================================================================== *)
(** * Login and [ensure_login]                                            *)
(* ===================================================================== *)

(** What a collaborator-visible step leaves untouched when it neither posts
    nor writes the store. *)
Definition same_service (w w' : World) : Prop :=
  remote w' = remote w /\ sent w' = sent w /\ redis w' = redis w
  /\ now_at w' = now_at w /\ (clock_reads w <= clock_reads w')%nat
  /\ redis_refuses w' = redis_refuses w /\ redis_sets w' = redis_sets w.

Lemma same_service_refl (w : World) : same_service w w.
Proof. unfold same_service. repeat split; auto. Qed.

(** How many of the next three writes the store takes before it refuses
    one. *)
Definition writes_taken (w : World) : nat :=
  let n := redis_sets w in
  match redis_refuses w n with
  | Some _ => 0
  | None =>
      match redis_refuses w (S n) with
      | Some _ => 1
      | None =>
          match redis_refuses w (S (S n)) with
          | Some _ => 2
          | None => 3
          end
      end
  end.

Lemma writes_taken_same (w w' : World) :
  same_service w w' -> writes_taken w' = writes_taken w.
Proof.
  intros (_ & _ & _ & _ & _ & Hr & Hn). unfold writes_taken. rewrite Hr, Hn.
  reflexivity.
Qed.

Section SessionFacts.
Context `{PyRuntime} (cfg : Config).

(** The sign-in request of [login]. *)
Definition signin_request : Request :=
  mkRequest (ORIGIN +:+ ENDPOINT_signin)
            (PyDict [("username", PyStr (AGENT_USERNAME cfg));
                     ("password", PyStr (AGENT_PASSWORD cfg))]).

(** The store after the three writes of [_save_session_to_redis] at the
    instant [now]. *)
Definition saved_store (cookies_json : string) (now : Z)
  (store : gmap string string) : gmap string string :=
  <[REDIS_LAST_LOGIN_KEY := isoformat now]>
    (<[REDIS_SESSION_EXPIRY_KEY :=
         isoformat (now + timedelta_minutes (SESSION_DURATION_MIN cfg))]>
       (<[REDIS_COOKIES_KEY := cookies_json]> store)).

(** The store after the first [n] of these writes: the cookies, then the
    expiry, then the instant of the login. *)
Definition store_after_writes (n : nat) (cookies_json : string) (now : Z)
  (store : gmap string string) : gmap string string :=
  match n with
  | 0%nat => store
  | 1%nat => <[REDIS_COOKIES_KEY := cookies_json]> store
  | 2%nat =>
      <[REDIS_SESSION_EXPIRY_KEY :=
          isoformat (now + timedelta_minutes (SESSION_DURATION_MIN cfg))]>
        (<[REDIS_COOKIES_KEY := cookies_json]> store)
  | _ => saved_store cookies_json now store
  end.

(** A payload from which [ensure_login] can build its error message. *)
Definition failure_payload (data : PyVal) : Prop :=
  exists d content, data = PyDict d /\ notification_content data = Ok content.

Lemma error_dict_failure_payload (msg : string) : failure_payload (error_dict msg).
Proof. exists [("error", PyStr msg)], (PyStr "Login failed"). split; reflexivity. Qed.

(** The jar [_init_scraper] leaves: the stored cookies when they decode. *)
Definition restored_jar (store : gmap string string) : Cookies :=
  match nonempty (store !! REDIS_COOKIES_KEY) with
  | Some cj =>
      match json_loads_cookies cj with
      | Some cookies => cookies_update [] cookies
      | None => []
      end
  | None => []
  end.

(** The stored cookies decode and the stored record is valid at [now]. *)
Definition restorable (store : gmap string string) (now : Z) : Prop :=
  exists cj cookies,
    store !! REDIS_COOKIES_KEY = Some cj /\ cj <> ""
    /\ json_loads_cookies cj = Some cookies
    /\ record_valid_at cfg store now.

Lemma init_scraper_run (w : World) :
  exists w1,
    _init_scraper cfg w = (Ok tt, w1)
    /\ scraper w1 = Some (restored_jar (redis w))
    /\ same_service w w1
    /\ (is_logged_in w1 = true <-> restorable (redis w) (now_at w (clock_reads w))).
Proof.
  unfold _init_scraper, restored_jar, restorable. unfold_monad. simpl.
  destruct (nonempty (redis w !! REDIS_COOKIES_KEY)) as [cj|] eqn:Hcj.
  2:{ eexists. split; [reflexivity|]. split; [reflexivity|].
      split; [unfold same_service; simpl; repeat split; auto|].
      simpl. split; [discriminate|].
      intros (cj & cookies & Hl & Hne & _).
      assert (nonempty (redis w !! REDIS_COOKIES_KEY) = Some cj)
        by (apply nonempty_Some; auto).
      congruence. }
  apply nonempty_Some in Hcj as [Hcj Hne].
  destruct (json_loads_cookies cj) as [cookies|] eqn:Hload.
  2:{ eexists. split; [reflexivity|]. split; [reflexivity|].
      split; [unfold same_service; simpl; repeat split; auto|].
      simpl. split; [discriminate|].
      intros (cj' & cookies & Hl & _ & Hload' & _). congruence. }
  match goal with
  | |- context [_is_session_valid cfg ?w0] =>
      destruct (is_session_valid_spec cfg w0)
        as (r & w' & Hrun & Hw & _ & Hv & Hshape & _);
      rewrite Hrun
  end.
  simpl in Hv.
  destruct Hshape as [(b & ->) | (msg & -> & _)]; [destruct b|];
    destruct Hw as [-> | ->]; simpl;
    (eexists; split; [reflexivity|]; split; [reflexivity|];
     split; [unfold same_service; simpl; repeat split; auto; lia|]);
    simpl; split; try discriminate; try reflexivity.
  all: try (intros _; exists cj, cookies; repeat split; auto; apply Hv; reflexivity).
  all: intros (_ & _ & _ & _ & _ & Hvalid); apply Hv in Hvalid; discriminate.
Qed.

Lemma init_scraper_spec (w : World) :
  exists w1 jar,
    _init_scraper cfg w = (Ok tt, w1)
    /\ scraper w1 = Some jar /\ same_service w w1.
Proof.
  destruct (init_scraper_run w) as (w1 & Hrun & Hjar & Hsame & _). eauto.
Qed.

Lemma ensure_scraper_spec (w : World) :
  exists w1 jar,
    ensure_scraper cfg w = (Ok tt, w1)
    /\ scraper w1 = Some jar /\ same_service w w1
    /\ match scraper w with Some _ => w1 = w | None => True end.
Proof.
  unfold ensure_scraper. unfold_monad.
  destruct (scraper w) as [jar|] eqn:Hs.
  - exists w, jar. split; [reflexivity|]. split; [exact Hs|].
    split; [apply same_service_refl | reflexivity].
  - destruct (init_scraper_spec w) as (w1 & jar & Hrun & Hj & Hsame).
    exists w1, jar. rewrite Hrun. auto.
Qed.

Lemma ensure_scraper_ready (w : World) (jar : Cookies) :
  scraper w = Some jar -> ensure_scraper cfg w = (Ok tt, w).
Proof. intros Hs. unfold ensure_scraper. unfold_monad. rewrite Hs. reflexivity. Qed.


(** [_save_session_to_redis] never raises: it writes until a write is
    refused, and nothing when the jar cannot be rendered. *)
Lemma save_session_run (w : World) (jar : Cookies) :
  scraper w = Some jar ->
  exists w',
    _save_session_to_redis cfg w = (Ok tt, w')
    /\ scraper w' = Some jar /\ is_logged_in w' = is_logged_in w
    /\ sent w' = sent w /\ remote w' = remote w /\ now_at w' = now_at w
    /\ match json_dumps_cookies jar with
       | None => redis w' = redis w
       | Some cookies_json =>
           redis w' = store_after_writes (writes_taken w) cookies_json
                                         (now_at w (clock_reads w)) (redis w)
       end.
Proof.
  intros Hs. unfold _save_session_to_redis, writes_taken, store_after_writes, saved_store.
  unfold_monad. rewrite Hs.
  destruct (json_dumps_cookies jar) as [cookies_json|];
    [|eexists; repeat split; auto].
  simpl.
  destruct (redis_refuses w (redis_sets w));
    [eexists; repeat split; simpl; auto|].
  simpl.
  destruct (redis_refuses w (S (redis_sets w)));
    [eexists; repeat split; simpl; auto|].
  simpl.
  destruct (redis_refuses w (S (S (redis_sets w))));
    eexists; repeat split; simpl; auto.
Qed.

(** What [login] tells by the answer of the sign-in endpoint. *)
Definition login_tells (answer : Outcome) (b : bool) (data : PyVal) : Prop :=
  match answer with
  | Faulted msg => b = false /\ data = error_dict msg
  | Replied r =>
      if _check_captcha (text r) then b = false /\ data = error_dict "captcha_detected"
      else match json r with
           | None => b = false /\ data = error_dict "invalid_json"
           | Some decoded =>
               data = decoded \/ exists msg, b = false /\ data = error_dict msg
           end
  end.

(** What a successful [login] leaves in the store. *)
Definition store_after_login (w w' : World) (now : Z) : Prop :=
  exists jar,
    scraper w' = Some jar
    /\ match json_dumps_cookies jar with
       | None => redis w' = redis w
       | Some cookies_json =>
           redis w' = store_after_writes (writes_taken w) cookies_json now (redis w)
       end.

Lemma login_ready (w : World) (jar : Cookies) :
  scraper w = Some jar ->
  exists b data w',
    login cfg w = (Ok (b, data), w')
    /\ sent w' = (sent w ++ [signin_request])%list
    /\ remote w' = remote w /\ now_at w' = now_at w
    /\ (b = false ->
        failure_payload data /\ redis w' = redis w
        /\ is_logged_in w' = is_logged_in w)
    /\ (b = true ->
        is_logged_in w' = true
        /\ store_after_login w w' (now_at w (clock_reads w)))
    /\ login_tells (remote w (length (sent w)) signin_request) b data.
Proof.
  intros Hs. unfold login.
  rewrite bind_eq, (ensure_scraper_ready w jar Hs).
  fold signin_request. unfold try_except. rewrite bind_eq.
  unfold post at 1. rewrite Hs. unfold login_tells.
  destruct (remote w (length (sent w)) (mkRequest (ORIGIN +:+ ENDPOINT_signin) _))
    as [r|msg] eqn:Hans; unfold signin_request; rewrite Hans.
  2:{ unfold ret. eexists _, _, _. split; [reflexivity|]. simpl.
      repeat split; auto using error_dict_failure_payload; discriminate. }
  destruct (_check_captcha (text r)) eqn:Hcap.
  { unfold ret. eexists _, _, _. split; [reflexivity|]. simpl.
    repeat split; auto using error_dict_failure_payload; discriminate. }
  destruct (json r) as [data|] eqn:Hjson.
  2:{ unfold ret. eexists _, _, _. split; [reflexivity|]. simpl.
      repeat split; auto using error_dict_failure_payload; discriminate. }
  rewrite bind_eq. unfold lift_res at 1.
  destruct (Py.get data "result" (PyBool false)) as [flag|e|] eqn:Hflag.
  3:{ destruct data; discriminate. }
  2:{ unfold ret. eexists _, _, _. split; [reflexivity|]. simpl.
      repeat split; eauto using error_dict_failure_payload; discriminate. }
  destruct (Py.truthy flag) eqn:Htruthy.
  - match goal with
    | |- context [bind (_save_session_to_redis cfg) _ ?wp] =>
        destruct (save_session_run wp (cookies_update jar (set_cookies r)) eq_refl)
          as (w' & Hsave & Hjar' & _ & Hsent & Hremote & Hnow & Hstore);
        rewrite (bind_eq (_save_session_to_redis cfg)), Hsave
    end.
    unfold_monad. eexists _, _, _. split; [reflexivity|]. simpl.
    split; [exact Hsent|]. split; [exact Hremote|]. split; [exact Hnow|].
    split; [discriminate|]. split; [|auto].
    intros _. split; [reflexivity|].
    exists (cookies_update jar (set_cookies r)). split; [exact Hjar'|].
    exact Hstore.
  - rewrite bind_eq. unfold lift_res at 1.
    destruct (notification_content data) as [content|e|] eqn:Hnote.
    + unfold ret. eexists _, _, _. split; [reflexivity|]. simpl.
      repeat split; auto; try discriminate.
      destruct data; try discriminate. eexists _, _. split; [reflexivity | exact Hnote].
    + unfold ret. eexists _, _, _. split; [reflexivity|]. simpl.
      repeat split; eauto using error_dict_failure_payload; discriminate.
    + unfold notification_content in Hnote.
      destruct (Py.get data "notification" (PyList [PyDict []])) as [notes|?|] eqn:Hn;
        try discriminate; [|destruct data; discriminate].
      destruct (Py.item0 notes) as [note|?|] eqn:Hi; try discriminate.
      * destruct note; discriminate.
      * destruct notes as [| | | |[|]|[|]|[|]|]; discriminate.
Qed.
End SessionFacts.

Section LoginTheorems.
Context `{PyRuntime} (cfg : Config).

(** [login] starts by making sure the scraper exists, so it runs as from
    the state that step leaves. *)
Lemma login_from_ready (w : World) :
  login cfg w = login cfg (snd (ensure_scraper cfg w)).
Proof.
  destruct (ensure_scraper_spec cfg w) as (w1 & jar & Hrun & Hjar & _).
  rewrite Hrun. simpl. unfold login.
  rewrite !bind_eq, Hrun, (ensure_scraper_ready cfg w1 jar Hjar). reflexivity.
Qed.

Lemma login_spec (w : World) :
  let w1 := snd (ensure_scraper cfg w) in
  exists b data w',
    login cfg w = (Ok (b, data), w')
    /\ sent w' = (sent w ++ [signin_request cfg])%list
    /\ (b = false -> failure_payload data)
    /\ (b = true ->
        is_logged_in w' = true
        /\ store_after_login cfg w w' (now_at w (clock_reads w1)))
    /\ login_tells (remote w (length (sent w)) (signin_request cfg)) b data.
Proof.
  cbv zeta. rewrite login_from_ready.
  destruct (ensure_scraper_spec cfg w) as (w1 & jar & Hrun & Hjar & Hsame & _).
  rewrite Hrun. simpl.
  pose proof (writes_taken_same w w1 Hsame) as Hwrites.
  destruct Hsame as (Hremote & Hsent & Hredis & Hnow & _).
  destruct (login_ready cfg w1 jar Hjar)
    as (b & data & w' & Hlogin & Hs & _ & _ & Hfalse & Htrue & Htells).
  exists b, data, w'. unfold store_after_login in *.
  rewrite Hsent, Hredis, Hnow, Hremote, Hwrites in *.
  repeat split; auto.
  - intros Hb. apply Hfalse. exact Hb.
  - apply Htrue. assumption.
  - apply Htrue. assumption.
Qed.

(** C8, as the code has it.  [login] never raises: it returns a pair of a
    flag and a payload after exactly one request to the sign-in endpoint
    (no retry of its own).  A transport fault gives a failure whose payload
    carries the text of the fault; a response whose text shows a challenge
    marker gives a failure tagged [captcha_detected]; a response whose body
    does not decode gives a failure tagged [invalid_json]. *)
Theorem login_failure_values (w : World) :
  exists b data w',
    login cfg w = (Ok (b, data), w')
    /\ sent w' = (sent w ++ [signin_request cfg])%list
    /\ match remote w (length (sent w)) (signin_request cfg) with
       | Faulted msg => b = false /\ data = PyDict [("error", PyStr msg)]
       | Replied r =>
           if _check_captcha (text r)
           then b = false /\ data = PyDict [("error", PyStr "captcha_detected")]
           else match json r with
                | None => b = false /\ data = PyDict [("error", PyStr "invalid_json")]
                | Some _ => True
                end
       end.
Proof.
  destruct (login_spec w) as (b & data & w' & Hrun & Hsent & _ & _ & Htells).
  exists b, data, w'. split; [exact Hrun|]. split; [exact Hsent|].
  unfold login_tells in Htells.
  destruct (remote w (length (sent w)) (signin_request cfg)) as [r|msg]; [|exact Htells].
  destruct (_check_captcha (text r)); [exact Htells|].
  destruct (json r); [exact I | exact Htells].
Qed.

Lemma saved_store_valid (cookies_json : string) (now : Z) (store : gmap string string) :
  0 < SESSION_DURATION_MIN cfg ->
  0 < MAX_SESSION_AGE_HOURS cfg ->
  record_valid_at cfg (saved_store cfg cookies_json now store) now.
Proof.
  intros Hd Ha. unfold record_valid_at, saved_store.
  exists (isoformat (now + timedelta_minutes (SESSION_DURATION_MIN cfg))),
         (isoformat now),
         (now + timedelta_minutes (SESSION_DURATION_MIN cfg)), now.
  repeat split.
  - rewrite lookup_insert_ne by discriminate. apply lookup_insert_eq.
  - apply lookup_insert_eq.
  - apply fromisoformat_isoformat.
  - apply fromisoformat_isoformat.
  - unfold timedelta_minutes. lia.
  - unfold timedelta_hours. lia.
Qed.

(** C6, as the code has it.  A successful [login] marks the process
    authenticated whatever became of the save.  When the jar cannot be
    rendered the store is left as it was.  Otherwise the store holds the
    writes it took before its first refusal, in the order cookies,
    [expires_at], [last_login_at], and every other key keeps its value.
    When it took all three, [expires_at] is the instant of writing plus the
    session duration and [last_login_at] is the instant of writing; with a
    positive session duration and a positive maximal session age that
    record satisfies the validity invariant at that instant.  The instant
    is the reading of the clock taken by [_save_session_to_redis]. *)
Theorem login_persists_valid_record (w : World) (data : PyVal) :
  fst (login cfg w) = Ok (true, data) ->
  let now := now_at w (clock_reads (snd (ensure_scraper cfg w))) in
  let w' := snd (login cfg w) in
  is_logged_in w' = true
  /\ exists jar,
      scraper w' = Some jar
      /\ match json_dumps_cookies jar with
         | None => redis w' = redis w
         | Some cookies_json =>
             redis w' = store_after_writes cfg (writes_taken w) cookies_json now (redis w)
             /\ (writes_taken w = 3%nat ->
                 redis w' !! REDIS_SESSION_EXPIRY_KEY
                 = Some (isoformat (now + timedelta_minutes (SESSION_DURATION_MIN cfg)))
                 /\ redis w' !! REDIS_LAST_LOGIN_KEY = Some (isoformat now)
                 /\ redis w' !! REDIS_COOKIES_KEY = Some cookies_json
                 /\ (0 < SESSION_DURATION_MIN cfg ->
                     0 < MAX_SESSION_AGE_HOURS cfg ->
                     record_valid_at cfg (redis w') now))
         end.
Proof.
  intros Hok. cbv zeta.
  destruct (login_spec w) as (b & data' & w' & Hrun & _ & _ & Htrue & _).
  rewrite Hrun in *. simpl in *. injection Hok as -> ->.
  destruct (Htrue eq_refl) as (Hli & jar & Hjar & Hstore).
  split; [exact Hli|]. exists jar. split; [exact Hjar|].
  destruct (json_dumps_cookies jar) as [cookies_json|]; [|exact Hstore].
  split; [exact Hstore|].
  intros Hall. rewrite Hall in Hstore. simpl in Hstore. rewrite Hstore.
  repeat split.
  - unfold saved_store. rewrite lookup_insert_ne by discriminate.
    apply lookup_insert_eq.
  - unfold saved_store. apply lookup_insert_eq.
  - unfold saved_store.
    rewrite !lookup_insert_ne by discriminate. apply lookup_insert_eq.
  - apply saved_store_valid; assumption.
Qed.
End LoginTheorems.

Section EnsureLogin.
Context `{PyRuntime} (cfg : Config).

Lemma failure_payload_message (data : PyVal) :
  failure_payload data ->
  exists content error_msg,
    notification_content data = Ok content
    /\ Py.get data "error" content = Ok error_msg.
Proof.
  intros (d & content & -> & Hc). exists content. eexists. split; [exact Hc|].
  reflexivity.
Qed.

(** The login of [ensure_login] in a state whose scraper exists: one
    sign-in request, then success or a raised [RuntimeError]. *)
Lemma login_or_raise_ready (w : World) (jar : Cookies) :
  scraper w = Some jar ->
  sent (snd (login_or_raise cfg w)) = (sent w ++ [signin_request cfg])%list
  /\ ((exists data,
          fst (login cfg w) = Ok (true, data)
          /\ login_or_raise cfg w = (Ok true, snd (login cfg w))
          /\ is_logged_in (snd (login cfg w)) = true)
      \/ (exists data msg,
             fst (login cfg w) = Ok (false, data)
             /\ fst (login_or_raise cfg w) = Raise (mkExn RuntimeError msg))).
Proof.
  intros Hjar. unfold login_or_raise.
  destruct (login_ready cfg w jar Hjar)
    as (b & data & w' & Hrun & Hs' & _ & _ & Hfalse & Htrue & _).
  rewrite bind_eq, Hrun. simpl fst. simpl snd.
  destruct b.
  - unfold ret. simpl. split; [exact Hs'|].
    left. exists data. repeat split. apply Htrue. reflexivity.
  - destruct (Hfalse eq_refl) as (Hpay & _ & _).
    destruct (failure_payload_message data Hpay) as (content & error_msg & Hc & He).
    rewrite !bind_eq. unfold lift_res, raise. rewrite Hc, He. simpl.
    split; [exact Hs'|].
    right. eexists _, _. split; reflexivity.
Qed.

(** [ensure_login] in a state whose scraper exists: it returns at once on
    a valid session, logs in when there is none, and lets the [TypeError]
    of the validity check pass when the process is authenticated beside an
    offset-aware record. *)
Lemma ensure_login_ready (w : World) (jar : Cookies) :
  scraper w = Some jar ->
  let now := now_at w (clock_reads w) in
  (is_logged_in w = true /\ record_valid_at cfg (redis w) now
   /\ ensure_login cfg w = (Ok true, tick w))
  \/ (~ (is_logged_in w = true /\ record_valid_at cfg (redis w) now)
      /\ ~ (is_logged_in w = true /\ offset_aware_record (redis w))
      /\ exists wl,
          (wl = w \/ wl = tick w)
          /\ ensure_login cfg w = login_or_raise cfg wl)
  \/ (is_logged_in w = true /\ offset_aware_record (redis w)
      /\ exists msg, ensure_login cfg w = (Raise (mkExn TypeError msg), tick w)).
Proof.
  intros Hs. cbv zeta. unfold ensure_login.
  rewrite !bind_eq, (ensure_scraper_ready cfg w jar Hs).
  unfold get_state. rewrite bind_eq. cbv beta iota. rewrite bind_eq.
  destruct (is_logged_in w) eqn:Hli.
  - destruct (is_session_valid_spec cfg w)
      as (r & w' & Hrun & Hw & Htick & Hv & Hshape & Hraise).
    rewrite Hrun.
    destruct Hshape as [([|] & ->) | (msg & -> & ->)].
    + left. rewrite (Htick eq_refl). repeat split. apply Hv. reflexivity.
    + right; left. split.
      { intros [_ Hvalid]. apply Hv in Hvalid. discriminate. }
      split.
      { intros [_ Haw]. apply Hraise in Haw as (e & [=]). }
      exists w'. split; [exact Hw | reflexivity].
    + right; right. split; [reflexivity|]. split.
      { apply Hraise. eexists; reflexivity. }
      exists msg. reflexivity.
  - right; left. split.
    { intros [Hl _]. discriminate. }
    split.
    { intros [Hl _]. discriminate. }
    exists w. split; [left; reflexivity | reflexivity].
Qed.

Lemma ensure_login_from_ready (w : World) :
  ensure_login cfg w = ensure_login cfg (snd (ensure_scraper cfg w)).
Proof.
  destruct (ensure_scraper_spec cfg w) as (w1 & jar & Hrun & Hjar & _).
  rewrite Hrun. simpl. unfold ensure_login.
  rewrite !bind_eq, Hrun, (ensure_scraper_ready cfg w1 jar Hjar). reflexivity.
Qed.

End EnsureLogin.

(* ===================================================================== *)
(** * Concrete runs                                                       *)
(* ===================================================================== *)

(** A service that accepts the sign-in and refuses everything else with a
    challenge page. *)
Definition accepts_signin_only : nat -> Request -> Outcome :=
  fun _ rq =>
    if String.eqb (req_url rq) (ORIGIN +:+ ENDPOINT_signin)
    then reply 200 "signed in" (Some (PyDict [("result", PyBool true)]))
    else reply 403 "<title>Attention Required! | Cloudflare</title>" None.

(** A service out of reach: every request ends in a transport fault. *)
Definition unreachable : nat -> Request -> Outcome :=
  fun _ _ => Faulted "Connection refused".


(** A process just started beside an empty store. *)
Definition first_start : World :=
  fresh_process ∅ (fun _ => 1000) accepts_signin_only.


(** On a challenge page [login] answers with the tag [captcha_detected],
    and on an undecodable body with the tag [invalid_json]; neither is the
    tag the specification names. *)
Lemma login_tags_counterexample :
  fst (login default_config
         (running_process false ∅ (fun _ => 0)
            (fun _ _ => reply 403 "<title>Just a moment... Cloudflare</title>" None)))
  = Ok (false, PyDict [("error", PyStr "captcha_detected")])
  /\ PyStr "captcha_detected" <> PyStr "challenge_detected"
  /\ fst (login default_config
            (running_process false ∅ (fun _ => 0)
               (fun _ _ => reply 200 "<html>Bad Gateway</html>" None)))
     = Ok (false, PyDict [("error", PyStr "invalid_json")])
  /\ PyStr "invalid_json" <> PyStr "invalid_response".
Proof.
  split; [vm_compute; reflexivity|]. split; [discriminate|].
  split; [vm_compute; reflexivity | discriminate].
Qed.

(** A store that takes [n] more writes and refuses every later one. *)
Definition full_after (n : nat) : nat -> option string :=
  fun i =>
    if (i <? n)%nat then None
    else Some "OOM command not allowed when used memory > 'maxmemory'.".

(** A process whose scraper exists, beside a record written at instant 0
    and long expired: the clock shows three hours later.  The service
    accepts the sign-in and the store takes [n] more writes. *)
Definition filling_process (n : nat) : World :=
  mkWorld (Some []) false
          (session_record "{}" (isoformat 1800000000) (isoformat 0))
          (fun _ => 10800000000) 0 accepts_signin_only [] (fun _ => 0%nat) 0
          (full_after n) 0.

(** A login that succeeds while the store takes the cookies and the new
    expiry and refuses the third write.  The login is reported successful
    and the process is marked authenticated, yet the record left in the
    store pairs the new expiry with the instant of the old login: its
    [last_login_at] is not the instant of writing and the validity check
    answers false on it.  With a store that refuses every write the old record
    stays as it was.  Either way the next [ensure_login] signs in again. *)
Lemma login_save_counterexample :
  let w' := snd (login default_config (filling_process 2)) in
  let w0 := snd (login default_config (filling_process 0)) in
  (fst (login default_config (filling_process 2))
   = Ok (true, PyDict [("result", PyBool true)])
   /\ is_logged_in w' = true
   /\ redis w' !! REDIS_SESSION_EXPIRY_KEY
      = Some (isoformat (10800000000 + timedelta_minutes 30))
   /\ redis w' !! REDIS_LAST_LOGIN_KEY = Some (isoformat 0)
   /\ redis w' !! REDIS_LAST_LOGIN_KEY <> Some (isoformat 10800000000)
   /\ fst (_is_session_valid default_config w') = Ok false
   /\ map req_url (sent (snd (ensure_login default_config w')))
      = [ORIGIN +:+ ENDPOINT_signin; ORIGIN +:+ ENDPOINT_signin])
  /\ (fst (login default_config (filling_process 0))
      = Ok (true, PyDict [("result", PyBool true)])
      /\ is_logged_in w0 = true
      /\ redis w0 = redis (filling_process 0)
      /\ map req_url (sent (snd (ensure_login default_config w0)))
         = [ORIGIN +:+ ENDPOINT_signin; ORIGIN +:+ ENDPOINT_signin]).
Proof.
  cbv zeta. split.
  - split; [vm_compute; reflexivity|]. split; [vm_compute; reflexivity|].
    split; [vm_compute; reflexivity|]. split; [vm_compute; reflexivity|].
    split; [vm_compute; discriminate|].
    split; vm_compute; reflexivity.
  - split; [vm_compute; reflexivity|]. split; [vm_compute; reflexivity|].
    split; vm_compute; reflexivity.
Qed.

(** A process marked authenticated beside a record both of whose
    timestamps carry the UTC offset zero; read without the offset the
    record would be valid for an hour. *)
Definition offset_process : World :=
  running_process true (session_record "{}" "3600000000+00:00" "0+00:00")
                  (fun _ => 1000) accepts_signin_only.

(** On such a record the validity check raises, and so does
    [ensure_login], which sends nothing; a process that starts beside the
    same record catches the exception while restoring and signs in. *)
Example is_session_valid_offset_aware :
  fst (_is_session_valid default_config offset_process)
  = Raise (mkExn TypeError "can't subtract offset-naive and offset-aware datetimes")
  /\ fst (ensure_login default_config offset_process)
     = Raise (mkExn TypeError "can't subtract offset-naive and offset-aware datetimes")
  /\ sent (snd (ensure_login default_config offset_process)) = []
  /\ fst (ensure_login default_config
            (fresh_process (session_record "{}" "3600000000+00:00" "0+00:00")
                           (fun _ => 1000) accepts_signin_only))
     = Ok true
  /\ map req_url
         (sent (snd (ensure_login default_config
                       (fresh_process (session_record "{}" "3600000000+00:00" "0+00:00")
                                      (fun _ => 1000) accepts_signin_only))))
     = [ORIGIN +:+ ENDPOINT_signin].
Proof. repeat split; vm_compute; reflexivity. Qed.

(** The first login of a fresh process with the default configuration,
    beside a store that takes every write. *)
Lemma login_persists_valid_record_witness :
  fst (login default_config first_start) = Ok (true, PyDict [("result", PyBool true)])
  /\ redis (snd (login default_config first_start)) !! REDIS_SESSION_EXPIRY_KEY
     = Some (isoformat (1000 + timedelta_minutes 30))
  /\ redis (snd (login default_config first_start)) !! REDIS_LAST_LOGIN_KEY
     = Some (isoformat 1000)
  /\ record_valid_at default_config (redis (snd (login default_config first_start))) 1000.
Proof.
  assert (H1 : fst (login default_config first_start)
               = Ok (true, PyDict [("result", PyBool true)]))
    by (vm_compute; reflexivity).
  destruct (login_persists_valid_record default_config first_start
              (PyDict [("result", PyBool true)]) H1)
    as (_ & jar & _ & Hstore).
  change (json_dumps_cookies jar) with (Some "{}") in Hstore.
  destruct Hstore as (_ & Hall).
  destruct (Hall eq_refl) as (He & Hl & _ & Hv).
  split; [exact H1|]. split; [exact He|]. split; [exact Hl|].
  apply Hv; simpl; lia.
Defined.

(* ===================================================================== *)
(** * Remote operations: what the bodies do with a response               *)
(* ===================================================================== *)

Lemma post_ready (url : string) (payload : PyVal) (w : World) (jar : Cookies) :
  scraper w = Some jar ->
  post url payload w
  = match remote w (length (sent w)) (mkRequest url payload) with
    | Replied r =>
        (Ok r, set_scraper (Some (cookies_update jar (set_cookies r)))
                           (set_sent (sent w ++ [mkRequest url payload])%list w))
    | Faulted msg =>
        (Raise (mkExn RequestException msg),
         set_sent (sent w ++ [mkRequest url payload])%list w)
    end.
Proof. intros Hs. unfold post. rewrite Hs. reflexivity. Qed.

(** Reading a response does not touch the state. *)
Lemma find_record_pure (key wanted : string) (resp : Response) (w : World) :
  snd (find_record key wanted resp w) = w.
Proof.
  unfold find_record, resp_json. unfold_monad.
  destruct (json resp) as [data|]; simpl; [|reflexivity].
  destruct (statistics_records data) as [records|e|]; simpl; try reflexivity.
  destruct (Py.iter records) as [items|e|]; simpl; try reflexivity.
Qed.

Lemma find_record_undecodable (key wanted : string) (resp : Response) (w : World) :
  json resp = None ->
  exists e, find_record key wanted resp w = (Raise e, w).
Proof.
  intros Hj. unfold find_record, resp_json. rewrite Hj. eexists. reflexivity.
Qed.

Section OperationFacts.
Context `{PyRuntime} (cfg : Config).

(** [check_email_exists] goes straight to the statistics endpoint: it never
    signs in and never touches the session, and whatever the answer it
    sends its request at most once. *)
Lemma check_email_exists_direct (email : string) (w : World) :
  let run := check_email_exists email w in
  redis (snd run) = redis w
  /\ is_logged_in (snd run) = is_logged_in w
  /\ (sent (snd run) = sent w
      \/ sent (snd run)
         = (sent w ++ [mkRequest (ORIGIN +:+ ENDPOINT_statistics)
                                 (statistics_payload [("email", PyStr email)])])%list).
Proof.
  cbv zeta. unfold check_email_exists. rewrite bind_eq.
  destruct (scraper w) as [jar|] eqn:Hs.
  2:{ unfold post. rewrite Hs. simpl. auto. }
  rewrite (post_ready _ _ w jar Hs).
  destruct (remote w (length (sent w)) _) as [r|msg]; [|simpl; auto].
  unfold try_except. rewrite bind_eq.
  match goal with
  | |- context [find_record ?k ?x r ?w0] =>
      pose proof (find_record_pure k x r w0) as Hp;
      destruct (find_record k x r w0) as [[found|e|] w1]; simpl in Hp; subst w1
  end.
  - destruct found; simpl; auto.
  - simpl; auto.
  - simpl; auto.
Qed.

(** On a body that does not decode, the listing operations answer with
    their defaults and the balance is 0.0. *)
Lemma undecodable_body_defaults (w : World) (jar : Cookies) (r : Response)
  (login email : string) (player_id : PyVal) :
  scraper w = Some jar ->
  (forall rq, remote w (length (sent w)) rq = Replied r) ->
  json r = None ->
  fst (check_player_exists_body login w) = Ok (PyBool false)
  /\ fst (check_email_exists email w) = Ok (PyBool false)
  /\ fst (get_player_id_by_login_body login w) = Ok PyNone
  /\ fst (get_all_players_body w) = Ok (PyList [])
  /\ fst (get_player_balance_body player_id w)
     = Ok (PyTuple [PyInt (status_code r); PyDict []; PyFloat (S754_zero false)]).
Proof.
  intros Hs Hr Hj.
  unfold check_player_exists_body, check_email_exists, get_player_id_by_login_body,
    get_all_players_body, get_player_balance_body.
  rewrite !bind_eq, !(post_ready _ _ w jar Hs), !Hr.
  unfold try_except. rewrite !bind_eq.
  repeat match goal with
         | |- context [find_record ?k ?x r ?w0] =>
             destruct (find_record_undecodable k x r w0 Hj) as (? & ->)
         end.
  unfold resp_json. rewrite Hj. repeat split; reflexivity.
Qed.

(** A decoded body that is no dict makes the balance operation raise: its
    [data.get] stands outside the [try]. *)
Lemma balance_raises_on_non_dict (w : World) (jar : Cookies) (r : Response)
  (data player_id : PyVal) :
  scraper w = Some jar ->
  (forall rq, remote w (length (sent w)) rq = Replied r) ->
  json r = Some data ->
  Py.is_dict data = false ->
  fst (get_player_balance_body player_id w)
  = Raise (mkExn AttributeError
             ("'" +:+ Py.type_name data +:+ "' object has no attribute 'get'")).
Proof.
  intros Hs Hr Hj Hd. unfold get_player_balance_body.
  rewrite bind_eq, (post_ready _ _ w jar Hs), Hr, Hj.
  rewrite bind_eq. unfold lift_res.
  destruct data; try discriminate; reflexivity.
Qed.

(** The same body leaves the sibling listing operations on their defaults. *)
Lemma siblings_tolerate_non_dict (w : World) (jar : Cookies) (r : Response)
  (data : PyVal) (login email : string) :
  scraper w = Some jar ->
  (forall rq, remote w (length (sent w)) rq = Replied r) ->
  json r = Some data ->
  Py.is_dict data = false ->
  fst (check_player_exists_body login w) = Ok (PyBool false)
  /\ fst (check_email_exists email w) = Ok (PyBool false)
  /\ fst (get_player_id_by_login_body login w) = Ok PyNone
  /\ fst (get_all_players_body w) = Ok (PyList []).
Proof.
  intros Hs Hr Hj Hd.
  unfold check_player_exists_body, check_email_exists, get_player_id_by_login_body,
    get_all_players_body.
  rewrite !bind_eq, !(post_ready _ _ w jar Hs), !Hr.
  unfold try_except, find_record, resp_json. rewrite Hj.
  unfold_monad. unfold statistics_records.
  destruct data; try discriminate; repeat split; reflexivity.
Qed.
End OperationFacts.

(** A service that accepts the sign-in and answers every other request
    with status 200 and the given decoded body. *)
Definition answers (decoded : option PyVal) : nat -> Request -> Outcome :=
  fun _ rq =>
    if String.eqb (req_url rq) (ORIGIN +:+ ENDPOINT_signin)
    then reply 200 "signed in" (Some (PyDict [("result", PyBool true)]))
    else reply 200 "body" decoded.

(** A process whose scraper exists but whose session is gone. *)
Definition expired_process (service : nat -> Request -> Outcome) : World :=
  running_process false ∅ (fun _ => 1000) service.

(** C3, at a failing input.  With the session gone and the statistics
    endpoint answering 403 with a challenge page, [check_email_exists]
    sends its one request and answers False: no sign-in before it, no
    invalidation and no second attempt after it.  Its sibling
    [check_player_exists] signs in, asks, and on the failed answer signs in
    and asks once more.  In a process that has not yet built its scraper
    [check_email_exists] raises, since nothing ensured the session. *)
Theorem check_email_exists_not_intercepted :
  fst (check_email_exists "bob@TSA.com" (expired_process accepts_signin_only))
  = Ok (PyBool false)
  /\ map req_url
         (sent (snd (check_email_exists "bob@TSA.com"
                       (expired_process accepts_signin_only))))
     = [ORIGIN +:+ ENDPOINT_statistics]
  /\ is_logged_in (snd (check_email_exists "bob@TSA.com"
                          (expired_process accepts_signin_only))) = false
  /\ map req_url
         (sent (snd (check_player_exists default_config "bob"
                       (expired_process accepts_signin_only))))
     = [ORIGIN +:+ ENDPOINT_signin; ORIGIN +:+ ENDPOINT_statistics;
        ORIGIN +:+ ENDPOINT_signin; ORIGIN +:+ ENDPOINT_statistics]
  /\ fst (check_email_exists "bob@TSA.com" first_start)
     = Raise (mkExn AttributeError "'NoneType' object has no attribute 'post'").
Proof. repeat split; vm_compute; reflexivity. Qed.

(** C7, at a failing input.  When the balance endpoint answers with a
    JSON body that decodes to a list, or to null, [get_player_balance]
    raises an [AttributeError] instead of answering with balance 0.0; on
    the same bodies the existence checks, the id lookup and the listing
    answer with their defaults. *)
Theorem balance_raises_on_malformed_body :
  fst (get_player_balance default_config (PyStr "42")
         (expired_process (answers (Some (PyList [])))))
  = Raise (mkExn AttributeError "'list' object has no attribute 'get'")
  /\ fst (get_player_balance default_config (PyStr "42")
            (expired_process (answers (Some PyNone))))
     = Raise (mkExn AttributeError "'NoneType' object has no attribute 'get'")
  /\ fst (check_player_exists default_config "bob"
            (expired_process (answers (Some (PyList []))))) = Ok (PyBool false)
  /\ fst (check_email_exists "bob@TSA.com"
            (expired_process (answers (Some PyNone)))) = Ok (PyBool false)
  /\ fst (get_player_id_by_login default_config "bob"
            (expired_process (answers (Some PyNone)))) = Ok PyNone
  /\ fst (get_all_players default_config
            (expired_process (answers (Some (PyList []))))) = Ok (PyList [])
  /\ fst (get_player_balance default_config (PyStr "42")
            (expired_process (answers None)))
     = Ok (PyTuple [PyInt 200; PyDict []; PyFloat (S754_zero false)]).
Proof. repeat split; vm_compute; reflexivity. Qed.

(* ===================================================================== *)
(** * The e-mail loop of [create_player_with_credentials]                 *)
(* ===================================================================== *)

Section EmailLoop.
Context `{PyRuntime}.

Lemma randint_spec (a b : Z) (w : World) :
  exists z w',
    randint a b w = (Ok z, w')
    /\ scraper w' = scraper w /\ remote w' = remote w /\ sent w' = sent w.
Proof.
  unfold randint, random_below. unfold_monad. eexists _, _.
  split; [reflexivity|]. simpl. auto.
Qed.

(** On the service where everything is taken, a check of any email answers
    True after one request. *)
Lemma check_email_exists_taken (email : string) (w : World) (jar : Cookies) :
  scraper w = Some jar ->
  remote w = everything_taken ->
  exists w' jar',
    check_email_exists email w = (Ok (PyBool true), w')
    /\ scraper w' = Some jar' /\ remote w' = remote w
    /\ length (sent w') = S (length (sent w)).
Proof.
  intros Hs Hr. unfold check_email_exists.
  rewrite bind_eq, (post_ready _ _ w jar Hs), Hr.
  unfold everything_taken at 1. cbn -[cookies_update].
  unfold try_except, find_record, resp_json. unfold_monad. cbn -[cookies_update].
  rewrite String.eqb_refl. cbn -[cookies_update].
  eexists _, _. split; [reflexivity|]. cbn -[cookies_update].
  repeat split; auto. rewrite length_app. simpl. lia.
Qed.

(** The loop returns only the candidate its last check reported free. *)
Lemma unique_email_returns_free (fuel : nat) :
  forall (login email : string) (w : World) (e : string) (w' : World),
    unique_email fuel login email w = (Ok e, w') ->
    exists w0 v,
      check_email_exists e w0 = (Ok v, w') /\ Py.truthy v = false.
Proof.
  induction fuel as [|fuel IH]; intros login email w e w' Hrun.
  - discriminate.
  - simpl in Hrun. rewrite bind_eq in Hrun.
    destruct (check_email_exists email w) as [[taken|ex|] w1] eqn:Hchk;
      try discriminate.
    destruct (Py.truthy taken) eqn:Ht.
    + rewrite bind_eq in Hrun.
      destruct (randint_spec 1000 9999 w1) as (z & w2 & Hz & _).
      rewrite Hz in Hrun. apply IH in Hrun. exact Hrun.
    + unfold ret in Hrun. injection Hrun as <- <-.
      exists w, taken. auto.
Qed.

(** A candidate reported free is returned at once, whatever the fuel. *)
Lemma unique_email_free_at_once (fuel : nat) (login email : string)
  (w w1 : World) (v : PyVal) :
  check_email_exists email w = (Ok v, w1) ->
  Py.truthy v = false ->
  unique_email (S fuel) login email w = (Ok email, w1).
Proof.
  intros Hchk Hv. simpl. rewrite bind_eq, Hchk, Hv. reflexivity.
Qed.

(** While every candidate is reported taken the loop goes on: any fuel is
    used up, one request for each unit. *)
Lemma unique_email_never_ends (fuel : nat) :
  forall (login email : string) (w : World) (jar : Cookies),
    scraper w = Some jar ->
    remote w = everything_taken ->
    fst (unique_email fuel login email w) = OutOfFuel
    /\ length (sent (snd (unique_email fuel login email w)))
       = (length (sent w) + fuel)%nat.
Proof.
  induction fuel as [|fuel IH]; intros login email w jar Hs Hr.
  - simpl. split; [reflexivity | lia].
  - simpl. rewrite bind_eq.
    destruct (check_email_exists_taken email w jar Hs Hr)
      as (w1 & jar1 & Hchk & Hs1 & Hr1 & Hl1).
    rewrite Hchk. cbv beta iota. cbn [Py.truthy]. cbv iota. rewrite bind_eq.
    destruct (randint_spec 1000 9999 w1) as (z & w2 & Hz & Hs2 & Hr2 & Hsent2).
    rewrite Hz.
    assert (Hs2' : scraper w2 = Some jar1) by congruence.
    assert (Hr2' : remote w2 = everything_taken) by congruence.
    destruct (IH login (login +:+ "_" +:+ pretty z +:+ "@TSA.com") w2 jar1 Hs2' Hr2')
      as (Hout & Hlen).
    split; [exact Hout|]. rewrite Hlen, Hsent2, Hl1. lia.
Qed.

(** C10.  The e-mail loop of [create_player_with_credentials] has no
    iteration bound.  It returns only a candidate that its last existence
    check reported free, and it returns at once when the candidate at hand
    is reported free; but as long as every probed candidate is reported
    taken it keeps probing: on a service where every e-mail asked about
    exists, no amount of fuel lets it return, and it sends one request for
    each unit of fuel.  (Username generation stops after six probes.) *)
Theorem unique_email_unbounded :
  (forall fuel login email w e w',
      unique_email fuel login email w = (Ok e, w') ->
      exists w0 v, check_email_exists e w0 = (Ok v, w') /\ Py.truthy v = false)
  /\ (forall fuel login email w w1 v,
         check_email_exists email w = (Ok v, w1) ->
         Py.truthy v = false ->
         unique_email (S fuel) login email w = (Ok email, w1))
  /\ (forall fuel login email w jar,
         scraper w = Some jar ->
         remote w = everything_taken ->
         fst (unique_email fuel login email w) = OutOfFuel
         /\ length (sent (snd (unique_email fuel login email w)))
            = (length (sent w) + fuel)%nat).
Proof.
  split; [|split].
  - intros fuel. apply unique_email_returns_free.
  - intros fuel login email w w1 v. apply unique_email_free_at_once.
  - intros fuel. apply unique_email_never_ends.
Qed.
End EmailLoop.

(** One run that ends at once (nothing is registered) and one that cannot
    end (everything is). *)
Lemma unique_email_unbounded_witness :
  (exists w0 v,
      check_email_exists "bob@TSA.com" w0
      = (Ok v, snd (unique_email 1 "bob" "bob@TSA.com"
                      (expired_process (answers (Some (listing []))))))
      /\ Py.truthy v = false)
  /\ fst (unique_email 50 "bob" "bob@TSA.com" (expired_process everything_taken))
     = OutOfFuel.
Proof.
  split.
  - apply (proj1 unique_email_unbounded 1%nat "bob" "bob@TSA.com"
             (expired_process (answers (Some (listing [])))) "bob@TSA.com").
    vm_compute. reflexivity.
  - apply (proj2 (proj2 unique_email_unbounded) 50%nat "bob" "bob@TSA.com"
             (expired_process everything_taken) []); reflexivity.
Defined.

(* ===================================================================== *)
(** * End-to-end scenarios of the specification                           *)
(* ===================================================================== *)

(** A service on which exactly the given login names are registered. *)
Definition registered (names : list string) : nat -> Request -> Outcome :=
  fun _ rq =>
    if String.eqb (req_url rq) (ORIGIN +:+ ENDPOINT_signin)
    then reply 200 "signed in" (Some (PyDict [("result", PyBool true)]))
    else match filter_value "login" rq with
         | Some login =>
             if existsb (String.eqb login) names
             then reply 200 "found" (Some (listing [PyDict [("username", PyStr login);
                                                            ("playerId", PyStr "7")]]))
             else reply 200 "none" (Some (listing []))
         | None => reply 200 "none" (Some (listing []))
         end.

(** A fresh process whose random generator draws 0, 1, 2, ... *)
Definition counting_process (service : nat -> Request -> Outcome) : World :=
  mkWorld None false ∅ (fun _ => 1000) 0 service [] (fun n => n) 0 (fun _ => None) 0.

(** Base "bob" with the prefixed name and the first two suffixed variants
    taken: the third variant is returned. *)
Example generate_username_bob :
  fst (api_generate_username default_config "bob"
         (counting_process (registered ["ZEUS_bob"; "ZEUS_bob_abc"; "ZEUS_bob_def"])))
  = Ok "ZEUS_bob_ghi".
Proof. vm_compute. reflexivity. Qed.

(** With every name taken the sixth probe is the last one. *)
Example generate_username_all_taken :
  fst (api_generate_username default_config "bob" (counting_process everything_taken))
  = Raise username_unavailable.
Proof. vm_compute. reflexivity. Qed.

(** A deposit answered with status 403: the session is invalidated, the
    client signs in again and the deposit is issued once more; the second
    answer, also 403, is what the call returns. *)
Example deposit_forbidden_twice :
  let run := deposit_to_player default_config (PyStr "7") (PyInt 10)
               (expired_process accepts_signin_only) in
  fst run = Ok (PyTuple [PyInt 403; PyDict []])
  /\ map req_url (sent (snd run))
     = [ORIGIN +:+ ENDPOINT_signin; ORIGIN +:+ ENDPOINT_deposit;
        ORIGIN +:+ ENDPOINT_signin; ORIGIN +:+ ENDPOINT_deposit].
Proof. vm_compute. split; reflexivity. Qed.

(** After a first successful login, [ensure_login] called again returns
    without a second login. *)
Example ensure_login_twice :
  let w1 := snd (ensure_login default_config first_start) in
  fst (ensure_login default_config w1) = Ok true
  /\ map req_url (sent (snd (ensure_login default_config w1)))
     = [ORIGIN +:+ ENDPOINT_signin].
Proof. vm_compute. split; reflexivity. Qed.

(* ===================================================================== *)
(** * Further properties of the session lifecycle                         *)
(* ===================================================================== *)

(** The store once the three keys of the Session Record are deleted. *)
Definition cleared_store (store : gmap string string) : gmap string string :=
  delete REDIS_LAST_LOGIN_KEY
    (delete REDIS_SESSION_EXPIRY_KEY (delete REDIS_COOKIES_KEY store)).

Lemma clear_session_run (w : World) :
  _clear_session_in_redis w
  = (Ok tt, set_is_logged_in false (set_redis (cleared_store (redis w)) w)).
Proof. reflexivity. Qed.

Lemma cleared_store_lookup (store : gmap string string) :
  cleared_store store !! REDIS_COOKIES_KEY = None
  /\ cleared_store store !! REDIS_SESSION_EXPIRY_KEY = None
  /\ cleared_store store !! REDIS_LAST_LOGIN_KEY = None.
Proof.
  unfold cleared_store. repeat split.
  - rewrite !lookup_delete_ne by discriminate. apply lookup_delete_eq.
  - rewrite lookup_delete_ne by discriminate. apply lookup_delete_eq.
  - apply lookup_delete_eq.
Qed.

Lemma cleared_store_idempotent (store : gmap string string) :
  cleared_store (cleared_store store) = cleared_store store.
Proof.
  destruct (cleared_store_lookup store) as (Hc & He & Hl).
  unfold cleared_store at 1.
  rewrite (delete_id (cleared_store store) REDIS_COOKIES_KEY) by exact Hc.
  rewrite (delete_id (cleared_store store) REDIS_SESSION_EXPIRY_KEY) by exact He.
  apply delete_id. exact Hl.
Qed.

Section SessionExtras.
Context `{PyRuntime} (cfg : Config).

Lemma no_expiry_no_record (store : gmap string string) (now : Z) :
  store !! REDIS_SESSION_EXPIRY_KEY = None -> ~ record_valid_at cfg store now.
Proof. intros Hn (es & ls & e & l & He & _). congruence. Qed.

Lemma no_expiry_not_aware (store : gmap string string) :
  store !! REDIS_SESSION_EXPIRY_KEY = None -> ~ offset_aware_record store.
Proof. intros Hn (es & ls & e & l & He & _). congruence. Qed.

(** X1.  [_clear_session_in_redis] removes the three keys of the Session
    Record and nothing else from the store, marks the process
    unauthenticated, and is idempotent; after it the validity check
    answers false at every instant. *)
Theorem clear_session_invalidates (w : World) :
  let w' := snd (_clear_session_in_redis w) in
  fst (_clear_session_in_redis w) = Ok tt
  /\ redis w' !! REDIS_COOKIES_KEY = None
  /\ redis w' !! REDIS_SESSION_EXPIRY_KEY = None
  /\ redis w' !! REDIS_LAST_LOGIN_KEY = None
  /\ (forall k, k <> REDIS_COOKIES_KEY -> k <> REDIS_SESSION_EXPIRY_KEY ->
                k <> REDIS_LAST_LOGIN_KEY -> redis w' !! k = redis w !! k)
  /\ is_logged_in w' = false
  /\ sent w' = sent w
  /\ _clear_session_in_redis w' = (Ok tt, w')
  /\ fst (_is_session_valid cfg w') = Ok false.
Proof.
  cbv zeta. rewrite clear_session_run. simpl fst. simpl snd.
  destruct (cleared_store_lookup (redis w)) as (Hc & He & Hl).
  split; [reflexivity|]. split; [exact Hc|]. split; [exact He|]. split; [exact Hl|].
  split.
  { intros k H1 H2 H3. simpl. unfold cleared_store.
    rewrite !lookup_delete_ne by congruence. reflexivity. }
  split; [reflexivity|]. split; [reflexivity|]. split.
  - rewrite clear_session_run. simpl. rewrite cleared_store_idempotent. reflexivity.
  - match goal with
    | |- context [_is_session_valid cfg ?w0] =>
        destruct (is_session_valid_bool cfg w0) as (b & w1 & Hrun & _ & _ & Hb);
        [apply no_expiry_not_aware; exact He|]
    end.
    rewrite Hrun. simpl. destruct b; [|reflexivity].
    exfalso. assert (Hv := proj1 Hb eq_refl). revert Hv.
    apply no_expiry_no_record. exact He.
Qed.

(** X2.  After the session is invalidated, [ensure_login] always logs in
    afresh: whatever the state was, it sends exactly one sign-in request. *)
Theorem ensure_login_after_clear (w : World) :
  sent (snd ((_clear_session_in_redis ;;; ensure_login cfg) w))
  = (sent w ++ [signin_request cfg])%list.
Proof.
  rewrite bind_eq, clear_session_run.
  set (w0 := set_is_logged_in false (set_redis (cleared_store (redis w)) w)).
  rewrite ensure_login_from_ready.
  destruct (ensure_scraper_spec cfg w0) as (w1 & jar & Hrun & Hjar & Hsame & _).
  rewrite Hrun. simpl snd.
  destruct Hsame as (_ & Hsent & Hredis & _).
  destruct (ensure_login_ready cfg w1 jar Hjar)
    as [(_ & Hvalid & _) | [(_ & _ & wl & Hwl & Hrun') | (_ & Haw & _)]].
  - exfalso. revert Hvalid. apply no_expiry_no_record. rewrite Hredis.
    apply (cleared_store_lookup (redis w)).
  - rewrite Hrun'.
    assert (Hjar' : scraper wl = Some jar) by (destruct Hwl as [-> | ->]; exact Hjar).
    destruct (login_or_raise_ready cfg wl jar Hjar') as (Hs & _).
    rewrite Hs. destruct Hwl as [-> | ->]; simpl; rewrite Hsent; reflexivity.
  - exfalso. revert Haw. apply no_expiry_not_aware. rewrite Hredis.
    apply (cleared_store_lookup (redis w)).
Qed.

(** [login] keeps the scraper it found. *)
Lemma login_keeps_scraper (w : World) (jar : Cookies) :
  scraper w = Some jar -> exists jar', scraper (snd (login cfg w)) = Some jar'.
Proof.
  intros Hs. unfold login.
  rewrite bind_eq, (ensure_scraper_ready cfg w jar Hs).
  unfold try_except. rewrite bind_eq.
  unfold post at 1. rewrite Hs.
  destruct (remote w (length (sent w)) _) as [r|msg];
    [|eexists; simpl; eassumption].
  destruct (_check_captcha (text r)); [eexists; reflexivity|].
  destruct (json r) as [data|]; [|eexists; reflexivity].
  rewrite bind_eq. unfold lift_res at 1.
  destruct (Py.get data "result" (PyBool false)) as [flag|e|];
    try (eexists; reflexivity).
  destruct (Py.truthy flag).
  - match goal with
    | |- context [bind (_save_session_to_redis cfg) _ ?wp] =>
        destruct (save_session_run cfg wp (cookies_update jar (set_cookies r)) eq_refl)
          as (w' & Hsave & Hjar' & _);
        rewrite (bind_eq (_save_session_to_redis cfg)), Hsave
    end.
    unfold_monad. simpl. eexists; exact Hjar'.
  - rewrite bind_eq. unfold lift_res at 1.
    destruct (notification_content data); eexists; reflexivity.
Qed.

Lemma saved_store_valid_at (cookies_json : string) (written now : Z)
  (store : gmap string string) :
  now < written + timedelta_minutes (SESSION_DURATION_MIN cfg) ->
  now - written < timedelta_hours (MAX_SESSION_AGE_HOURS cfg) ->
  record_valid_at cfg (saved_store cfg cookies_json written store) now.
Proof.
  intros Hd Ha. unfold record_valid_at, saved_store.
  exists (isoformat (written + timedelta_minutes (SESSION_DURATION_MIN cfg))),
         (isoformat written),
         (written + timedelta_minutes (SESSION_DURATION_MIN cfg)), written.
  repeat split; auto.
  - rewrite lookup_insert_ne by discriminate. apply lookup_insert_eq.
  - apply lookup_insert_eq.
  - apply fromisoformat_isoformat.
  - apply fromisoformat_isoformat.
Qed.

(** X3.  After a successful [login] whose save went through (the jar
    could be rendered and the store took the three writes), a following
    [ensure_login] returns success without sending anything, provided the
    clock it reads is still before the written expiry and within the
    maximal age of the login. *)
Theorem ensure_login_after_login (w : World) (data : PyVal) :
  let w' := snd (login cfg w) in
  let written := now_at w (clock_reads (snd (ensure_scraper cfg w))) in
  let now := now_at w' (clock_reads w') in
  fst (login cfg w) = Ok (true, data) ->
  writes_taken w = 3%nat ->
  (forall jar, scraper w' = Some jar -> json_dumps_cookies jar <> None) ->
  now < written + timedelta_minutes (SESSION_DURATION_MIN cfg) ->
  now - written < timedelta_hours (MAX_SESSION_AGE_HOURS cfg) ->
  ensure_login cfg w' = (Ok true, tick w').
Proof.
  cbv zeta. rewrite login_from_ready.
  destruct (ensure_scraper_spec cfg w) as (w1 & jar & Hrun & Hjar & Hsame & _).
  rewrite Hrun. simpl snd.
  pose proof (writes_taken_same w w1 Hsame) as Hwrites.
  destruct Hsame as (_ & _ & _ & Hnow & _).
  intros Hok Hall Hrender Hd Ha.
  destruct (login_keeps_scraper w1 jar Hjar) as (jar' & Hjar').
  destruct (login_ready cfg w1 jar Hjar)
    as (b & data' & w' & Hlogin & _ & _ & Hnow' & _ & Htrue & _).
  rewrite Hlogin in *. simpl in *. injection Hok as -> ->.
  destruct (Htrue eq_refl) as (Hli & jar2 & Hjar2 & Hredis).
  specialize (Hrender jar2 Hjar2).
  destruct (json_dumps_cookies jar2) as [cookies_json|]; [|contradiction].
  rewrite Hwrites, Hall in Hredis. simpl in Hredis.
  destruct (ensure_login_ready cfg w' jar' Hjar')
    as [(_ & _ & Hnoop) | [(Hnot & _) | (_ & Haw & _)]].
  - exact Hnoop.
  - exfalso. apply Hnot. split; [exact Hli|].
    rewrite Hredis, Hnow.
    apply saved_store_valid_at; assumption.
  - exfalso. revert Haw.
    apply (valid_not_offset_aware cfg _ (now_at w' (clock_reads w'))).
    rewrite Hredis, Hnow.
    apply saved_store_valid_at; assumption.
Qed.

(** X5.  A failed [login] leaves the stored Session Record and the
    authenticated flag as they were. *)
Theorem login_failure_keeps_session (w : World) (jar : Cookies) (data : PyVal) :
  scraper w = Some jar ->
  fst (login cfg w) = Ok (false, data) ->
  redis (snd (login cfg w)) = redis w
  /\ is_logged_in (snd (login cfg w)) = is_logged_in w.
Proof.
  intros Hs Hfail.
  destruct (login_ready cfg w jar Hs)
    as (b & data' & w' & Hlogin & _ & _ & _ & Hfalse & _).
  rewrite Hlogin in *. simpl in *. injection Hfail as -> ->.
  destruct (Hfalse eq_refl) as (_ & Hr & Hl). auto.
Qed.
End SessionExtras.

Section RestoreExtras.
Context `{PyRuntime} (cfg : Config).

(** X4.  [_init_scraper] builds the scraper and never writes the store.
    Whatever the authenticated flag was, afterwards it is set exactly when
    the store holds non-empty cookies that decode and the stored record is
    valid at the instant of the check; in every other case the process is
    left unauthenticated with the stored record still in place. *)
Theorem init_scraper_restores (w : World) :
  let w1 := snd (_init_scraper cfg w) in
  fst (_init_scraper cfg w) = Ok tt
  /\ redis w1 = redis w
  /\ sent w1 = sent w
  /\ (exists jar, scraper w1 = Some jar)
  /\ (is_logged_in w1 = true <->
      exists cj cookies,
        redis w !! REDIS_COOKIES_KEY = Some cj /\ cj <> ""
        /\ json_loads_cookies cj = Some cookies
        /\ record_valid_at cfg (redis w) (now_at w (clock_reads w))).
Proof.
  cbv zeta.
  destruct (init_scraper_run cfg w) as (w1 & Hrun & Hjar & Hsame & Hflag).
  rewrite Hrun. simpl fst. simpl snd.
  destruct Hsame as (_ & Hsent & Hredis & _).
  split; [reflexivity|]. split; [exact Hredis|]. split; [exact Hsent|].
  split; [eexists; exact Hjar|]. exact Hflag.
Qed.
End RestoreExtras.

(** The first login of a fresh process, followed at once by [ensure_login]. *)
Lemma ensure_login_after_login_witness :
  fst (login default_config first_start) = Ok (true, PyDict [("result", PyBool true)])
  /\ ensure_login default_config (snd (login default_config first_start))
     = (Ok true, tick (snd (login default_config first_start))).
Proof.
  assert (H1 : fst (login default_config first_start)
               = Ok (true, PyDict [("result", PyBool true)]))
    by (vm_compute; reflexivity).
  split; [exact H1|].
  apply (ensure_login_after_login default_config first_start
           (PyDict [("result", PyBool true)]) H1);
    try (vm_compute; reflexivity).
  intros jar _. discriminate.
Defined.

(** A login against a service out of reach, beside a stored record. *)
Lemma login_failure_keeps_session_witness :
  redis (snd (login default_config
                (running_process true
                   (session_record "{}" (isoformat 3600000000) (isoformat 0))
                   (fun _ => 1000) unreachable)))
  = session_record "{}" (isoformat 3600000000) (isoformat 0)
  /\ is_logged_in (snd (login default_config
                          (running_process true
                             (session_record "{}" (isoformat 3600000000) (isoformat 0))
                             (fun _ => 1000) unreachable)))
     = true.
Proof.
  apply (login_failure_keeps_session default_config
           (running_process true
              (session_record "{}" (isoformat 3600000000) (isoformat 0))
              (fun _ => 1000) unreachable)
           [] (PyDict [("error", PyStr "Connection refused")])).
  - reflexivity.
  - vm_compute. reflexivity.
Defined.

(* ===================================================================== *)
(** * Further properties of the retry wrapper on the remote operations    *)
(* ===================================================================== *)

(** A body that, given a scraper, sends exactly the request [rq] and keeps
    the scraper, whatever the service answers. *)
Definition one_request (func : M World PyVal) (rq : Request) : Prop :=
  forall s jar,
    scraper s = Some jar ->
    sent (snd (func s)) = (sent s ++ [rq])%list
    /\ exists jar', scraper (snd (func s)) = Some jar'.

Section RetryRequests.
Context `{PyRuntime} (cfg : Config).

(** The state [login_or_raise] leaves is the one [login] leaves. *)
Lemma login_or_raise_state (w : World) (jar : Cookies) :
  scraper w = Some jar ->
  snd (login_or_raise cfg w) = snd (login cfg w).
Proof.
  intros Hs. unfold login_or_raise.
  destruct (login_ready cfg w jar Hs) as (b & data & w' & Hrun & _).
  rewrite bind_eq, Hrun. simpl.
  destruct b; [reflexivity|].
  rewrite bind_eq. unfold lift_res at 1.
  destruct (notification_content data); try reflexivity.
  rewrite bind_eq. unfold lift_res at 1.
  destruct (Py.get data "error" a); reflexivity.
Qed.

(** [ensure_login] sends nothing or one sign-in request, and leaves a
    scraper behind. *)
Lemma ensure_login_requests (w : World) :
  exists l,
    sent (snd (ensure_login cfg w)) = (sent w ++ l)%list
    /\ (l = [] \/ l = [signin_request cfg])
    /\ exists jar, scraper (snd (ensure_login cfg w)) = Some jar.
Proof.
  rewrite ensure_login_from_ready.
  destruct (ensure_scraper_spec cfg w) as (w1 & jar & Hrun & Hjar & Hsame & _).
  rewrite Hrun. simpl snd. destruct Hsame as (_ & Hsent & _).
  destruct (ensure_login_ready cfg w1 jar Hjar)
    as [(_ & _ & Hnoop) | [(_ & _ & wl & Hwl & Hrun') | (_ & _ & msg & Hraise)]].
  - exists []. rewrite Hnoop. simpl. rewrite app_nil_r. eauto.
  - exists [signin_request cfg]. rewrite Hrun'.
    assert (Hjar' : scraper wl = Some jar) by (destruct Hwl as [-> | ->]; exact Hjar).
    assert (Hsent' : sent wl = sent w) by (destruct Hwl as [-> | ->]; exact Hsent).
    destruct (login_or_raise_ready cfg wl jar Hjar') as (Hs & _).
    rewrite Hs, Hsent'. split; [reflexivity|]. split; [right; reflexivity|].
    rewrite (login_or_raise_state wl jar Hjar').
    apply (login_keeps_scraper cfg wl jar Hjar').
  - exists []. rewrite Hraise. simpl. rewrite app_nil_r. eauto.
Qed.

(** After an invalidation [ensure_login] sends exactly one sign-in. *)
Lemma ensure_login_after_clear_requests (w : World) :
  sent (snd ((_clear_session_in_redis ;;; ensure_login cfg) w))
  = (sent w ++ [signin_request cfg])%list
  /\ exists jar, scraper (snd ((_clear_session_in_redis ;;; ensure_login cfg) w))
                 = Some jar.
Proof.
  rewrite bind_eq, clear_session_run.
  set (w0 := set_is_logged_in false (set_redis (cleared_store (redis w)) w)).
  destruct (ensure_login_requests w0) as (l & Hl & _ & Hjar).
  split; [|exact Hjar].
  rewrite ensure_login_from_ready in *.
  destruct (ensure_scraper_spec cfg w0) as (w1 & jar & Hrun & Hjar1 & Hsame & _).
  rewrite Hrun in *. simpl snd in *.
  destruct Hsame as (_ & Hsent & Hredis & _).
  destruct (ensure_login_ready cfg w1 jar Hjar1)
    as [(_ & Hvalid & _) | [(_ & _ & wl & Hwl & Hrun') | (_ & Haw & _)]].
  - exfalso. revert Hvalid. apply no_expiry_no_record. rewrite Hredis.
    apply (cleared_store_lookup (redis w)).
  - rewrite Hrun'.
    assert (Hjar' : scraper wl = Some jar) by (destruct Hwl as [-> | ->]; exact Hjar1).
    destruct (login_or_raise_ready cfg wl jar Hjar') as (Hs & _).
    rewrite Hs. destruct Hwl as [-> | ->]; simpl; rewrite Hsent; reflexivity.
  - exfalso. revert Haw. apply no_expiry_not_aware. rewrite Hredis.
    apply (cleared_store_lookup (redis w)).
Qed.

(** The requests of one call of a wrapped one-request operation. *)
Lemma retrying_one_request (func : M World PyVal) (rq : Request) (w : World) :
  one_request func rq ->
  let run := retrying cfg func w in
  exists l1,
    (l1 = [] \/ l1 = [signin_request cfg])
    /\ ((sent (snd run) = (sent w ++ l1)%list /\ is_ok (fst run) = false)
        \/ (sent (snd run) = (sent w ++ l1 ++ [rq])%list
            /\ exists s1, fst run = fst (func s1)
                          /\ match fst run with
                             | Ok v => classified_failed v = false
                             | _ => True
                             end)
        \/ (sent (snd run) = (sent w ++ l1 ++ [rq; signin_request cfg])%list
            /\ is_ok (fst run) = false)
        \/ (sent (snd run) = (sent w ++ l1 ++ [rq; signin_request cfg; rq])%list
            /\ exists s0 v s1, fst (func s0) = Ok v /\ classified_failed v = true
                               /\ fst run = fst (func s1))).
Proof.
  intros Hone. cbv zeta. unfold retrying. rewrite with_retry_classified.
  destruct (ensure_login_requests w) as (l1 & Hl1 & Hcase & jar1 & Hjar1).
  exists l1. split; [exact Hcase|].
  rewrite bind_eq.
  destruct (ensure_login cfg w) as [[b|e|] s1] eqn:He; simpl in Hl1, Hjar1;
    try solve [left; simpl; auto].
  destruct (Hone s1 jar1 Hjar1) as (Hs2 & jar2 & Hjar2).
  rewrite bind_eq.
  destruct (func s1) as [[v|e|] s2] eqn:Hf; simpl in Hs2, Hjar2.
  2,3: right; left; simpl; rewrite Hs2, Hl1, <- app_assoc;
       (split; [reflexivity|]); exists s1; rewrite Hf; simpl; auto.
  destruct (classified_failed v) eqn:Hv.
  2:{ right; left. unfold ret. simpl. rewrite Hs2, Hl1, <- app_assoc.
      split; [reflexivity|]. exists s1. rewrite Hf. simpl. auto. }
  destruct (ensure_login_after_clear_requests s2) as (Hs4 & jar4 & Hjar4).
  rewrite <- bind_assoc, (bind_eq (_clear_session_in_redis ;;; ensure_login cfg)).
  destruct ((_clear_session_in_redis ;;; ensure_login cfg) s2) as [[b'|e|] s4] eqn:Hce;
    simpl in Hs4, Hjar4.
  2,3: right; right; left; simpl; rewrite Hs4, Hs2, Hl1, <- !app_assoc;
       split; reflexivity.
  destruct (Hone s4 jar4 Hjar4) as (Hs5 & _).
  right; right; right. rewrite Hs5, Hs4, Hs2, Hl1, <- !app_assoc.
  split; [reflexivity|]. exists s1, v, s4. rewrite Hf. auto.
Qed.
End RetryRequests.

(** The request of a deposit, of a withdrawal and of an existence check. *)
Definition deposit_request (player_id amount : PyVal) : Request :=
  mkRequest (ORIGIN +:+ ENDPOINT_deposit) (transfer_payload player_id amount).
Definition withdraw_request (player_id amount : PyVal) : Request :=
  mkRequest (ORIGIN +:+ ENDPOINT_withdraw) (transfer_payload player_id amount).
Definition login_lookup_request (login : string) : Request :=
  mkRequest (ORIGIN +:+ ENDPOINT_statistics)
            (statistics_payload [("login", PyStr login)]).

(** The shapes the list of requests of one wrapped call can take: an
    optional sign-in, the request, and after a failed first answer a
    sign-in and the request once more. *)
Definition call_requests (signin rq : Request) (new : list Request) : Prop :=
  exists l1,
    (l1 = [] \/ l1 = [signin])
    /\ (new = l1 \/ new = (l1 ++ [rq])%list
        \/ new = (l1 ++ [rq; signin])%list
        \/ new = (l1 ++ [rq; signin; rq])%list).

Section TransferExtras.
Context `{PyRuntime} (cfg : Config).

Lemma deposit_body_one_request (player_id amount : PyVal) :
  one_request (deposit_to_player_body player_id amount)
              (deposit_request player_id amount).
Proof.
  intros s jar Hs. unfold deposit_to_player_body, deposit_request.
  rewrite bind_eq, (post_ready _ _ s jar Hs).
  destruct (remote s (length (sent s)) _) as [r|msg]; simpl; eauto.
Qed.

Lemma withdraw_body_one_request (player_id amount : PyVal) :
  one_request (withdraw_from_player_body player_id amount)
              (withdraw_request player_id amount).
Proof.
  intros s jar Hs. unfold withdraw_from_player_body, withdraw_request.
  rewrite bind_eq, (post_ready _ _ s jar Hs).
  destruct (remote s (length (sent s)) _) as [r|msg]; simpl; eauto.
Qed.

Lemma retrying_call_requests (func : M World PyVal) (rq : Request) (w : World) :
  one_request func rq ->
  exists new,
    sent (snd (retrying cfg func w)) = (sent w ++ new)%list
    /\ call_requests (signin_request cfg) rq new.
Proof.
  intros Hone.
  destruct (retrying_one_request cfg func rq w Hone)
    as (l1 & Hl1 & [(Hs & _) | [(Hs & _) | [(Hs & _) | (Hs & _)]]]);
    rewrite Hs; eexists; (split; [reflexivity|]); exists l1; auto.
Qed.

(** X6.  In every state, one call of [deposit_to_player] or of
    [withdraw_from_player] sends the transfer request at most twice and
    otherwise only sign-in requests: an optional sign-in, the transfer, and
    possibly a sign-in followed by the same transfer once more. *)
Theorem transfer_requests_bounded (player_id amount : PyVal) (w : World) :
  (exists new,
      sent (snd (deposit_to_player cfg player_id amount w)) = (sent w ++ new)%list
      /\ call_requests (signin_request cfg) (deposit_request player_id amount) new)
  /\ (exists new,
         sent (snd (withdraw_from_player cfg player_id amount w)) = (sent w ++ new)%list
         /\ call_requests (signin_request cfg) (withdraw_request player_id amount) new).
Proof.
  split.
  - apply retrying_call_requests, deposit_body_one_request.
  - apply retrying_call_requests, withdraw_body_one_request.
Qed.

(** With a valid session the wrapper goes straight to the operation. *)
Lemma retrying_valid_session (func : M World PyVal) (w : World) (jar : Cookies) :
  scraper w = Some jar ->
  is_logged_in w = true ->
  record_valid_at cfg (redis w) (now_at w (clock_reads w)) ->
  retrying cfg func w
  = (result <- func ;;
     if classified_failed result
     then _clear_session_in_redis ;;; ensure_login cfg ;;; func
     else ret result) (tick w).
Proof.
  intros Hs Hli Hv. unfold retrying. rewrite with_retry_classified, bind_eq.
  destruct (ensure_login_ready cfg w jar Hs)
    as [(_ & _ & Hnoop) | [(Hnot & _) | (_ & Haw & _)]].
  - rewrite Hnoop. reflexivity.
  - exfalso. apply Hnot. auto.
  - exfalso. revert Haw. apply (valid_not_offset_aware cfg _ _ Hv).
Qed.

(** X7.  With a valid session, a deposit answered with status 200, a dict
    body whose [result] entry is absent or truthy and no challenge marker
    in it is sent exactly once; the call returns the status and the body
    and leaves the stored session as it was. *)
Theorem deposit_sent_once_on_success
  (player_id amount : PyVal) (w : World) (jar : Cookies) (r : Response)
  (d : list (string * PyVal)) :
  scraper w = Some jar ->
  is_logged_in w = true ->
  record_valid_at cfg (redis w) (now_at w (clock_reads w)) ->
  remote w (length (sent w)) (deposit_request player_id amount) = Replied r ->
  status_code r = 200 ->
  json r = Some (PyDict d) ->
  Py.truthy (Py.dict_get d "result" (PyBool true)) = true ->
  captcha_like (PyDict d) = false ->
  let run := deposit_to_player cfg player_id amount w in
  fst run = Ok (PyTuple [PyInt 200; PyDict d])
  /\ sent (snd run) = (sent w ++ [deposit_request player_id amount])%list
  /\ redis (snd run) = redis w
  /\ is_logged_in (snd run) = true.
Proof.
  intros Hs Hli Hv Hr Hst Hj Hflag Hcap. cbv zeta.
  unfold deposit_to_player. rewrite (retrying_valid_session _ w jar Hs Hli Hv).
  rewrite bind_eq. unfold deposit_to_player_body.
  rewrite bind_eq, (post_ready _ _ (tick w) jar Hs).
  change (remote (tick w) (length (sent (tick w)))) with (remote w (length (sent w))).
  unfold deposit_request in Hr. rewrite Hr. unfold ret at 1.
  unfold json_or_empty. rewrite Hj, Hst.
  assert (Hc : failure_detected (PyTuple [PyInt 200; PyDict d]) = false).
  { unfold failure_detected. simpl result_status. simpl result_data.
    rewrite Hcap. simpl. rewrite Hflag. reflexivity. }
  unfold ret. simpl. rewrite Hc. simpl. auto.
Qed.

(** X8.  The wrapper does not catch exceptions.  With a valid session, a
    transport fault on the deposit request is raised to the caller as it
    is: the request was sent once, there is no second attempt, and the
    stored session is not invalidated. *)
Theorem deposit_fault_is_raised
  (player_id amount : PyVal) (w : World) (jar : Cookies) (msg : string) :
  scraper w = Some jar ->
  is_logged_in w = true ->
  record_valid_at cfg (redis w) (now_at w (clock_reads w)) ->
  remote w (length (sent w)) (deposit_request player_id amount) = Faulted msg ->
  let run := deposit_to_player cfg player_id amount w in
  fst run = Raise (mkExn RequestException msg)
  /\ sent (snd run) = (sent w ++ [deposit_request player_id amount])%list
  /\ redis (snd run) = redis w
  /\ is_logged_in (snd run) = true.
Proof.
  intros Hs Hli Hv Hr. cbv zeta.
  unfold deposit_to_player. rewrite (retrying_valid_session _ w jar Hs Hli Hv).
  rewrite bind_eq. unfold deposit_to_player_body.
  rewrite bind_eq, (post_ready _ _ (tick w) jar Hs).
  change (remote (tick w) (length (sent (tick w)))) with (remote w (length (sent w))).
  unfold deposit_request in Hr. rewrite Hr. simpl. auto.
Qed.
End TransferExtras.

(** A process with a scraper, marked authenticated, beside a record written
    at instant 0 and valid for an hour; the clock shows 1000. *)
Definition valid_process (service : nat -> Request -> Outcome) : World :=
  running_process true
    (session_record "{}" (isoformat 3600000000) (isoformat 0))
    (fun _ => 1000) service.

Lemma valid_process_record (service : nat -> Request -> Outcome) :
  record_valid_at default_config (redis (valid_process service))
                  (now_at (valid_process service) (clock_reads (valid_process service))).
Proof.
  exists (isoformat 3600000000), (isoformat 0), 3600000000, 0.
  repeat split; vm_compute; reflexivity.
Qed.

(** A deposit accepted at once. *)
Lemma deposit_sent_once_on_success_witness :
  fst (deposit_to_player default_config (PyStr "7") (PyInt 10)
         (valid_process (answers (Some (PyDict [("result", PyBool true)])))))
  = Ok (PyTuple [PyInt 200; PyDict [("result", PyBool true)]])
  /\ sent (snd (deposit_to_player default_config (PyStr "7") (PyInt 10)
                  (valid_process (answers (Some (PyDict [("result", PyBool true)]))))))
     = [deposit_request (PyStr "7") (PyInt 10)].
Proof.
  destruct (deposit_sent_once_on_success default_config (PyStr "7") (PyInt 10)
              (valid_process (answers (Some (PyDict [("result", PyBool true)]))))
              [] (mkResponse 200 "body" (Some (PyDict [("result", PyBool true)])) [])
              [("result", PyBool true)])
    as (Hr & Hs & _); try reflexivity.
  - apply valid_process_record.
  - split; [exact Hr | exact Hs].
Defined.

(** A deposit against a service out of reach. *)
Lemma deposit_fault_is_raised_witness :
  fst (deposit_to_player default_config (PyStr "7") (PyInt 10)
         (valid_process unreachable))
  = Raise (mkExn RequestException "Connection refused")
  /\ redis (snd (deposit_to_player default_config (PyStr "7") (PyInt 10)
                   (valid_process unreachable)))
     = redis (valid_process unreachable).
Proof.
  destruct (deposit_fault_is_raised default_config (PyStr "7") (PyInt 10)
              (valid_process unreachable) [] "Connection refused")
    as (Hr & _ & Hredis & _); try reflexivity.
  - apply valid_process_record.
  - split; [exact Hr | exact Hredis].
Defined.

Section ExistenceExtras.
Context `{PyRuntime} (cfg : Config).

Lemma check_player_exists_body_one_request (login : string) :
  one_request (check_player_exists_body login) (login_lookup_request login).
Proof.
  intros s jar Hs. unfold check_player_exists_body, login_lookup_request.
  rewrite bind_eq, (post_ready _ _ s jar Hs).
  destruct (remote s (length (sent s)) _) as [r|msg]; [|simpl; eauto].
  unfold try_except. rewrite bind_eq.
  match goal with
  | |- context [find_record ?k ?x r ?w0] =>
      pose proof (find_record_pure k x r w0) as Hp;
      destruct (find_record k x r w0) as [[found|e|] w1]; simpl in Hp; subst w1
  end.
  - destruct found; simpl; eauto.
  - simpl; eauto.
  - simpl; eauto.
Qed.

(** The existence check answers with a bool or not at all. *)
Lemma check_player_exists_body_bool (login : string) (w : World) (v : PyVal) :
  fst (check_player_exists_body login w) = Ok v -> exists b, v = PyBool b.
Proof.
  unfold check_player_exists_body. rewrite bind_eq.
  destruct (post _ _ w) as [[r|e|] w1]; try discriminate.
  unfold try_except. rewrite bind_eq.
  destruct (find_record "username" login r w1) as [[found|e|] w2]; simpl.
  - destruct found; intros [= <-]; eauto.
  - intros [= <-]; eauto.
  - discriminate.
Qed.

(** X9.  A bare bool is always classified as failed, so whenever
    [check_player_exists] returns, its body has run twice: the statistics
    request was sent, the session invalidated, a fresh sign-in made and
    the statistics request sent again; the answer is that of the second
    request. *)
Theorem check_player_exists_asks_twice (login : string) (w : World) :
  is_ok (fst (check_player_exists cfg login w)) = true ->
  exists l1,
    (l1 = [] \/ l1 = [signin_request cfg])
    /\ sent (snd (check_player_exists cfg login w))
       = (sent w ++ l1 ++ [login_lookup_request login; signin_request cfg;
                           login_lookup_request login])%list
    /\ exists b, fst (check_player_exists cfg login w) = Ok (PyBool b).
Proof.
  intros Hok. unfold check_player_exists in *.
  destruct (retrying_one_request cfg _ _ w (check_player_exists_body_one_request login))
    as (l1 & Hl1 & [(_ & Hno) | [(_ & s1 & Hres & Hcls) | [(_ & Hno) | (Hs & s0 & v & s1 & _ & _ & Hres)]]]).
  - rewrite Hno in Hok. discriminate.
  - exfalso.
    destruct (fst (retrying cfg (check_player_exists_body login) w)) as [v|e|] eqn:Hr;
      try discriminate.
    symmetry in Hres.
    destruct (check_player_exists_body_bool login s1 v Hres) as (b & ->).
    discriminate.
  - rewrite Hno in Hok. discriminate.
  - exists l1. split; [exact Hl1|]. split; [exact Hs|].
    destruct (fst (retrying cfg (check_player_exists_body login) w)) as [v'|e|] eqn:Hr;
      try discriminate.
    symmetry in Hres.
    destruct (check_player_exists_body_bool login s1 v' Hres) as (b & ->).
    exists b. reflexivity.
Qed.
End ExistenceExtras.

(** One existence check by a process with a valid session. *)
Lemma check_player_exists_asks_twice_witness :
  is_ok (fst (check_player_exists default_config "bob"
                (valid_process (registered ["bob"])))) = true
  /\ exists l1,
      (l1 = [] \/ l1 = [signin_request default_config])
      /\ sent (snd (check_player_exists default_config "bob"
                      (valid_process (registered ["bob"]))))
         = ([] ++ l1 ++ [login_lookup_request "bob"; signin_request default_config;
                         login_lookup_request "bob"])%list
      /\ exists b, fst (check_player_exists default_config "bob"
                          (valid_process (registered ["bob"]))) = Ok (PyBool b).
Proof.
  assert (H1 : is_ok (fst (check_player_exists default_config "bob"
                             (valid_process (registered ["bob"])))) = true)
    by (vm_compute; reflexivity).
  split; [exact H1|].
  exact (check_player_exists_asks_twice default_config "bob"
           (valid_process (registered ["bob"])) H1).
Defined.

(* ===================================================================== *)
(** * Further properties of the listing operations                        *)
(* ===================================================================== *)

(** [record.get(key)] of a record of the listing (None when the record is
    no dict, a case the scans below exclude). *)
Definition record_field (key : string) (record : PyVal) : PyVal :=
  match record with
  | PyDict d => Py.dict_get d key PyNone
  | _ => PyNone
  end.

(** The test of the scans: the field equals the wanted text, exactly. *)
Definition field_is (key wanted : string) (record : PyVal) : bool :=
  Py.eq_str (record_field key record) wanted.

Lemma scan_records_dicts (key wanted : string) (records : list PyVal) :
  Forall (fun record => Py.is_dict record = true) records ->
  scan_records key wanted records = Ok (List.find (field_is key wanted) records).
Proof.
  induction 1 as [|record rest Hd _ IH]; [reflexivity|].
  destruct record; try discriminate. simpl. unfold field_is at 1. simpl.
  destruct (Py.eq_str (Py.dict_get d key PyNone) wanted); [reflexivity | exact IH].
Qed.

Lemma find_existsb {A} (f : A -> bool) (l : list A) :
  existsb f l = match List.find f l with Some _ => true | None => false end.
Proof.
  induction l as [|a l IH]; [reflexivity|]. simpl.
  destruct (f a); [reflexivity | exact IH].
Qed.

Section ListingExtras.
Context `{PyRuntime} (cfg : Config).

Lemma find_record_listing (key wanted : string) (r : Response) (data : PyVal)
  (records : list PyVal) (w : World) :
  json r = Some data ->
  statistics_records data = Ok (PyList records) ->
  Forall (fun record => Py.is_dict record = true) records ->
  find_record key wanted r w = (Ok (List.find (field_is key wanted) records), w).
Proof.
  intros Hj Hrec Hd. unfold find_record, resp_json. rewrite Hj.
  unfold_monad. rewrite Hrec. simpl. rewrite (scan_records_dicts _ _ _ Hd).
  reflexivity.
Qed.

(** X10.  On a listing whose records are dicts, the existence checks
    answer True exactly when some record carries the asked login (in
    [username]) or e-mail (in [email]) as an exact, case-sensitive match,
    and the id lookup answers with the [playerId] of the first such record
    (None when that record has none, or when no record matches). *)
Theorem listing_first_exact_match (login email : string) (w : World)
  (jar : Cookies) (r : Response) (data : PyVal) (records : list PyVal) :
  scraper w = Some jar ->
  (forall rq, remote w (length (sent w)) rq = Replied r) ->
  json r = Some data ->
  statistics_records data = Ok (PyList records) ->
  Forall (fun record => Py.is_dict record = true) records ->
  fst (check_player_exists_body login w)
  = Ok (PyBool (existsb (field_is "username" login) records))
  /\ fst (check_email_exists email w)
     = Ok (PyBool (existsb (field_is "email" email) records))
  /\ fst (get_player_id_by_login_body login w)
     = Ok (match List.find (field_is "username" login) records with
           | Some record => record_field "playerId" record
           | None => PyNone
           end).
Proof.
  intros Hs Hr Hj Hrec Hd.
  unfold check_player_exists_body, check_email_exists, get_player_id_by_login_body.
  rewrite !bind_eq, !(post_ready _ _ w jar Hs), !Hr.
  unfold try_except. rewrite !bind_eq.
  rewrite !(find_record_listing _ _ r data records _ Hj Hrec Hd).
  rewrite !find_existsb.
  split; [|split].
  - destruct (List.find (field_is "username" login) records); reflexivity.
  - destruct (List.find (field_is "email" email) records); reflexivity.
  - destruct (List.find (field_is "username" login) records) as [record|] eqn:Hf;
      [|reflexivity].
    apply find_some in Hf as [Hin _].
    rewrite Forall_forall in Hd. specialize (Hd record).
    destruct record; try (discriminate Hd; apply list_elem_of_In; exact Hin).
    reflexivity.
Qed.
End ListingExtras.

(** A listing with one player, asked about three ways. *)
Definition bob_record : PyVal :=
  PyDict [("username", PyStr "bob"); ("email", PyStr "bob@TSA.com");
          ("playerId", PyStr "7")].

Lemma listing_first_exact_match_witness :
  fst (check_player_exists_body "Bob"
         (valid_process (fun _ _ => reply 200 "body" (Some (listing [bob_record])))))
  = Ok (PyBool false)
  /\ fst (check_email_exists "bob@TSA.com"
            (valid_process (fun _ _ => reply 200 "body" (Some (listing [bob_record])))))
     = Ok (PyBool true)
  /\ fst (get_player_id_by_login_body "bob"
            (valid_process (fun _ _ => reply 200 "body" (Some (listing [bob_record])))))
     = Ok (PyStr "7").
Proof.
  assert (Hd : Forall (fun record => Py.is_dict record = true) [bob_record])
    by (repeat constructor).
  pose proof (listing_first_exact_match "Bob" "bob@TSA.com"
                (valid_process (fun _ _ => reply 200 "body" (Some (listing [bob_record]))))
                [] (mkResponse 200 "body" (Some (listing [bob_record])) [])
                (listing [bob_record]) [bob_record]
                eq_refl (fun _ => eq_refl) eq_refl eq_refl Hd) as (H1 & H2 & _).
  pose proof (listing_first_exact_match "bob" "bob@TSA.com"
                (valid_process (fun _ _ => reply 200 "body" (Some (listing [bob_record]))))
                [] (mkResponse 200 "body" (Some (listing [bob_record])) [])
                (listing [bob_record]) [bob_record]
                eq_refl (fun _ => eq_refl) eq_refl eq_refl Hd) as (_ & _ & H3).
  split; [exact H1|]. split; [exact H2 | exact H3].
Defined.

(* ===================================================================== *)
(** * Challenge detection ignores case and position                       *)
(* ===================================================================== *)

Lemma lower_app (a b : string) : Py.lower (a +:+ b) = Py.lower a +:+ Py.lower b.
Proof. induction a as [|c a IH]; simpl; [reflexivity | now rewrite IH]. Qed.

Lemma prefix_app (needle rest : string) : String.prefix needle (needle +:+ rest) = true.
Proof.
  induction needle as [|c needle IH]; simpl.
  - destruct rest; reflexivity.
  - destruct (ascii_dec c c) as [_|Hne]; [exact IH | contradiction].
Qed.

Lemma contains_app (needle before after : string) :
  Py.contains needle (before +:+ needle +:+ after) = true.
Proof.
  induction before as [|c before IH].
  - change ("" +:+ needle +:+ after) with (needle +:+ after).
    replace (Py.contains needle (needle +:+ after))
      with (String.prefix needle (needle +:+ after)
            || match needle +:+ after with
               | EmptyString => false
               | String _ t => Py.contains needle t
               end)
      by (destruct (needle +:+ after); reflexivity).
    rewrite prefix_app. reflexivity.
  - simpl. rewrite IH. apply orb_true_r.
Qed.

Section CaptchaExtras.
Context `{PyRuntime}.

(** X11.  A text that contains the word captcha or cloudflare in any
    mixture of upper and lower case, at any position, is detected as a
    challenge by [_check_captcha]; as the body of a result it makes the
    retry wrapper classify the result as failed even with status 200. *)
Theorem challenge_marker_any_case (before marker after : string) :
  Py.lower marker = "captcha" \/ Py.lower marker = "cloudflare" ->
  _check_captcha (before +:+ marker +:+ after) = true
  /\ classified_failed (PyTuple [PyInt 200; PyStr (before +:+ marker +:+ after)]) = true.
Proof.
  intros Hm.
  assert (Hc : Py.contains "captcha" (Py.lower (before +:+ marker +:+ after))
               || Py.contains "cloudflare" (Py.lower (before +:+ marker +:+ after))
               = true).
  { rewrite !lower_app.
    destruct Hm as [-> | ->]; rewrite contains_app;
      [reflexivity | apply orb_true_r]. }
  split; [exact Hc|].
  unfold classified_failed, failure_detected, captcha_like. simpl result_data.
  simpl py_str. rewrite Hc. apply orb_true_r.
Qed.
End CaptchaExtras.

Lemma challenge_marker_any_case_witness :
  Py.lower "CloudFlare" = "cloudflare"
  /\ _check_captcha ("<title>Attention | " +:+ "CloudFlare" +:+ "</title>") = true.
Proof.
  split; [reflexivity|].
  apply (challenge_marker_any_case "<title>Attention | " "CloudFlare" "</title>").
  right. reflexivity.
Defined.

(* ===================================================================== *)
(** * Generated credentials, suffixes and e-mail addresses                *)
(* ===================================================================== *)

(** Every character of [s] satisfies [p]. *)
Fixpoint all_chars (p : ascii -> bool) (s : string) : bool :=
  match s with
  | EmptyString => true
  | String c t => p c && all_chars p t
  end.

(** [c in alphabet] *)
Fixpoint in_alphabet (alphabet : string) (c : ascii) : bool :=
  match alphabet with
  | EmptyString => false
  | String a t => Ascii.eqb a c || in_alphabet t c
  end.

Lemma get_in_alphabet (alphabet : string) :
  forall (i : nat) (c : ascii),
    String.get i alphabet = Some c -> in_alphabet alphabet c = true.
Proof.
  induction alphabet as [|a t IH]; intros i c Hg; [destruct i; discriminate|].
  destruct i as [|i]; simpl in *.
  - injection Hg as ->. rewrite Ascii.eqb_refl. reflexivity.
  - rewrite (IH i c Hg). apply orb_true_r.
Qed.

Lemma get_below_length (s : string) :
  forall i : nat, (i < String.length s)%nat -> exists c, String.get i s = Some c.
Proof.
  induction s as [|a t IH]; intros i Hi; simpl in Hi; [lia|].
  destruct i as [|i]; simpl; [eauto|]. apply IH. lia.
Qed.

(** What a step that only draws random numbers leaves untouched. *)
Definition only_draws (w w' : World) : Prop :=
  scraper w' = scraper w /\ is_logged_in w' = is_logged_in w
  /\ redis w' = redis w /\ sent w' = sent w /\ remote w' = remote w.

Lemma random_string_format (alphabet : string) (n : nat) :
  (0 < String.length alphabet)%nat ->
  forall w : World,
    exists s w',
      random_string alphabet n w = (Ok s, w')
      /\ String.length s = n
      /\ all_chars (in_alphabet alphabet) s = true
      /\ random_draws w' = (random_draws w + n)%nat
      /\ only_draws w w'.
Proof.
  intros Hne. induction n as [|n IH]; intros w.
  - exists "", w. unfold only_draws. simpl. repeat split; auto; lia.
  - assert (Hi : (random_at w (random_draws w) mod String.length alphabet
                  < String.length alphabet)%nat)
      by (apply Nat.mod_upper_bound; lia).
    destruct (get_below_length alphabet _ Hi) as (c & Hc).
    destruct (IH (set_random_draws (S (random_draws w)) w))
      as (s & w' & Hrun & Hlen & Hall & Hdraws & Hsame).
    cbn [random_string]. unfold random_choice, random_below, bind, ret.
    rewrite Hc. cbn [default from_option]. rewrite Hrun.
    exists (String c s), w'.
    split; [reflexivity|]. simpl. rewrite Hlen, Hall, (get_in_alphabet _ _ _ Hc).
    repeat split; auto; try apply Hsame.
    rewrite Hdraws. simpl. lia.
Qed.

Lemma generate_random_credentials_run (w : World) :
  exists tail pwd w',
    _generate_random_credentials w = (Ok ("u" +:+ tail, pwd), w')
    /\ String.length tail = 7%nat
    /\ all_chars (in_alphabet (ascii_lowercase +:+ digits)) tail = true
    /\ String.length pwd = 10%nat
    /\ all_chars (in_alphabet (ascii_lowercase +:+ ascii_uppercase +:+ digits)) pwd = true
    /\ random_draws w' = (random_draws w + 17)%nat
    /\ sent w' = sent w /\ redis w' = redis w.
Proof.
  unfold _generate_random_credentials. rewrite bind_eq.
  destruct (random_string_format (ascii_lowercase +:+ digits) 7
              ltac:(vm_compute; lia) w)
    as (tail & w1 & Hrun1 & Hlen1 & Hall1 & Hd1 & Hsame1).
  rewrite Hrun1, bind_eq.
  destruct (random_string_format (ascii_lowercase +:+ ascii_uppercase +:+ digits) 10
              ltac:(vm_compute; lia) w1)
    as (pwd & w2 & Hrun2 & Hlen2 & Hall2 & Hd2 & Hsame2).
  rewrite Hrun2. unfold ret. exists tail, pwd, w2.
  destruct Hsame1 as (_ & _ & Hr1 & Hs1 & _). destruct Hsame2 as (_ & _ & Hr2 & Hs2 & _).
  repeat split; auto; try congruence. lia.
Qed.

(** X12.  [_generate_random_credentials] always returns a login made of
    the letter u and seven characters from a-z0-9, and a password of ten
    characters from a-zA-Z0-9; it only draws random numbers (17 of them). *)
Theorem generate_random_credentials_format (w : World) :
  exists tail pwd w',
    _generate_random_credentials w = (Ok ("u" +:+ tail, pwd), w')
    /\ String.length tail = 7%nat
    /\ all_chars (in_alphabet (ascii_lowercase +:+ digits)) tail = true
    /\ String.length pwd = 10%nat
    /\ all_chars (in_alphabet (ascii_lowercase +:+ ascii_uppercase +:+ digits)) pwd = true
    /\ random_draws w' = (random_draws w + 17)%nat
    /\ sent w' = sent w /\ redis w' = redis w.
Proof.
  unfold _generate_random_credentials. rewrite bind_eq.
  destruct (random_string_format (ascii_lowercase +:+ digits) 7
              ltac:(vm_compute; lia) w)
    as (tail & w1 & Hrun1 & Hlen1 & Hall1 & Hd1 & Hsame1).
  rewrite Hrun1, bind_eq.
  destruct (random_string_format (ascii_lowercase +:+ ascii_uppercase +:+ digits) 10
              ltac:(vm_compute; lia) w1)
    as (pwd & w2 & Hrun2 & Hlen2 & Hall2 & Hd2 & Hsame2).
  rewrite Hrun2. unfold ret. exists tail, pwd, w2.
  destruct Hsame1 as (_ & _ & Hr1 & Hs1 & _). destruct Hsame2 as (_ & _ & Hr2 & Hs2 & _).
  repeat split; auto; try congruence. lia.
Qed.

Lemma randint_range (a b : Z) (w : World) :
  a <= b ->
  exists z w',
    randint a b w = (Ok z, w') /\ a <= z <= b /\ only_draws w w'.
Proof.
  intros Hab. unfold randint, random_below. unfold_monad. eexists _, _.
  split; [reflexivity|]. split.
  - assert (Hm : (random_at w (random_draws w) mod Z.to_nat (b - a + 1)
                  < Z.to_nat (b - a + 1))%nat)
      by (apply Nat.mod_upper_bound; lia).
    lia.
  - unfold only_draws. simpl. auto.
Qed.

Section EmailExtras.
Context `{PyRuntime} (cfg : Config).

(** The e-mail addresses the loop can return for [login], starting from
    [email]. *)
Definition email_candidate (login email e : string) : Prop :=
  e = email
  \/ exists z, 1000 <= z <= 9999 /\ e = login +:+ "_" +:+ pretty z +:+ "@TSA.com".

Lemma unique_email_candidate (fuel : nat) :
  forall (login email : string) (w : World) (e : string) (w' : World),
    unique_email fuel login email w = (Ok e, w') ->
    email_candidate login email e.
Proof.
  induction fuel as [|fuel IH]; intros login email w e w' Hrun; [discriminate|].
  simpl in Hrun. rewrite bind_eq in Hrun.
  destruct (check_email_exists email w) as [[taken|ex|] w1]; try discriminate.
  destruct (Py.truthy taken).
  - rewrite bind_eq in Hrun.
    destruct (randint_range 1000 9999 w1 ltac:(lia)) as (z & w2 & Hz & Hrange & _).
    rewrite Hz in Hrun. apply IH in Hrun.
    destruct Hrun as [-> | Hsfx]; [right; eauto | right; exact Hsfx].
  - unfold ret in Hrun. injection Hrun as <- <-. left. reflexivity.
Qed.

(** X13.  The e-mail address the uniqueness loop settles on is the plain
    [login@TSA.com] or [login_NNNN@TSA.com] with NNNN between 1000 and
    9999, and it is an address whose existence check answered "free". *)
Theorem unique_email_format (fuel : nat) (login : string) (w : World)
  (e : string) (w' : World) :
  unique_email fuel login (login +:+ "@TSA.com") w = (Ok e, w') ->
  (e = login +:+ "@TSA.com"
   \/ exists z, 1000 <= z <= 9999 /\ e = login +:+ "_" +:+ pretty z +:+ "@TSA.com")
  /\ exists w0 v, check_email_exists e w0 = (Ok v, w') /\ Py.truthy v = false.
Proof.
  intros Hrun. split.
  - exact (unique_email_candidate fuel login _ w e w' Hrun).
  - exact (unique_email_returns_free fuel login _ w e w' Hrun).
Qed.
End EmailExtras.

Lemma unique_email_format_witness :
  unique_email 5 "bob" ("bob" +:+ "@TSA.com")
    (valid_process (answers (Some (listing [bob_record]))))
  = (Ok "bob_1000@TSA.com",
     snd (unique_email 5 "bob" ("bob" +:+ "@TSA.com")
            (valid_process (answers (Some (listing [bob_record]))))))
  /\ ("bob_1000@TSA.com" = "bob" +:+ "@TSA.com"
      \/ exists z, 1000 <= z <= 9999
                   /\ "bob_1000@TSA.com" = "bob" +:+ "_" +:+ pretty z +:+ "@TSA.com").
Proof.
  assert (H1 : unique_email 5 "bob" ("bob" +:+ "@TSA.com")
                 (valid_process (answers (Some (listing [bob_record]))))
               = (Ok "bob_1000@TSA.com",
                  snd (unique_email 5 "bob" ("bob" +:+ "@TSA.com")
                         (valid_process (answers (Some (listing [bob_record])))))))
    by (vm_compute; reflexivity).
  split; [exact H1|].
  exact (proj1 (unique_email_format 5 "bob" _ _ _ H1)).
Defined.

Section UsernameFormat.
Context {St : Type}.
Variable check_player_exists : string -> M St PyVal.
Variable _random_suffix : M St string.
Variable good_suffix : string -> Prop.
Hypothesis suffix_good :
  forall s sfx s', _random_suffix s = (Ok sfx, s') -> good_suffix sfx.

Lemma generate_username_loop_result (base : string) (range : list nat) :
  forall (s : St) (u : string) (s' : St),
    generate_username_loop check_player_exists _random_suffix base range s = (Ok u, s') ->
    (u = base \/ exists sfx, good_suffix sfx /\ u = base +:+ "_" +:+ sfx)
    /\ exists s0 v, check_player_exists u s0 = (Ok v, s') /\ Py.truthy v = false.
Proof.
  induction range as [|i rest IH]; intros s u s' Hrun; [discriminate|].
  cbn [generate_username_loop] in Hrun.
  destruct (i =? 0)%nat.
  - rewrite bind_ret_l, bind_eq in Hrun.
    destruct (check_player_exists base s) as [[v|e|] s1] eqn:Hchk; try discriminate.
    destruct (Py.truthy v) eqn:Hv; simpl in Hrun.
    + apply IH in Hrun. exact Hrun.
    + injection Hrun as <- <-. split; [left; reflexivity | eauto].
  - rewrite bind_assoc, bind_eq in Hrun.
    destruct (_random_suffix s) as [[sfx|e|] s0] eqn:Hsfx; try discriminate.
    rewrite bind_ret_l, bind_eq in Hrun.
    destruct (check_player_exists (base +:+ "_" +:+ sfx) s0) as [[v|e|] s1] eqn:Hchk;
      try discriminate.
    destruct (Py.truthy v) eqn:Hv; simpl in Hrun.
    + apply IH in Hrun. exact Hrun.
    + injection Hrun as <- <-. split; [right | eauto].
      exists sfx. split; [exact (suffix_good _ _ _ Hsfx) | reflexivity].
Qed.
End UsernameFormat.

Section ProvisioningExtras.
Context `{PyRuntime} (cfg : Config).

(** X14.  A username returned by [generate_username] over the client is
    the raw name behind the prefix ZEUS_, alone or followed by an
    underscore and three characters from a-z0-9, and it is a name for
    which [check_player_exists] answered "not taken". *)
Theorem api_generate_username_format (raw_username : string) (w : World)
  (u : string) (w' : World) :
  api_generate_username cfg raw_username w = (Ok u, w') ->
  (u = "ZEUS_" +:+ raw_username
   \/ exists sfx,
       (String.length sfx = 3%nat
        /\ all_chars (in_alphabet (ascii_lowercase +:+ digits)) sfx = true)
       /\ u = "ZEUS_" +:+ raw_username +:+ "_" +:+ sfx)
  /\ exists w0 v, check_player_exists cfg u w0 = (Ok v, w') /\ Py.truthy v = false.
Proof.
  unfold api_generate_username, generate_username.
  apply (generate_username_loop_result (check_player_exists cfg) _random_suffix
           (fun sfx => String.length sfx = 3%nat
                       /\ all_chars (in_alphabet (ascii_lowercase +:+ digits)) sfx = true)).
  intros s sfx s' Hsfx. unfold _random_suffix in Hsfx.
  destruct (random_string_format (ascii_lowercase +:+ digits) 3
              ltac:(vm_compute; lia) s)
    as (x & s1 & Hrun & Hlen & Hall & _).
  rewrite Hrun in Hsfx. injection Hsfx as <- <-. auto.
Qed.

Lemma get_player_id_by_login_body_one_request (login : string) :
  one_request (get_player_id_by_login_body login) (login_lookup_request login).
Proof.
  intros s jar Hs. unfold get_player_id_by_login_body, login_lookup_request.
  rewrite bind_eq, (post_ready _ _ s jar Hs).
  destruct (remote s (length (sent s)) _) as [r|msg]; [|simpl; eauto].
  unfold try_except. rewrite bind_eq.
  match goal with
  | |- context [find_record ?k ?x r ?w0] =>
      pose proof (find_record_pure k x r w0) as Hp;
      destruct (find_record k x r w0) as [[found|e|] w1]; simpl in Hp; subst w1
  end.
  - destruct found as [record|]; [|simpl; eauto].
    unfold lift_res. destruct (Py.get record "playerId" PyNone); simpl; eauto.
  - simpl; eauto.
  - simpl; eauto.
Qed.

(** X15.  When [create_player_with_credentials] (its body) returns, the
    result is the 4-tuple of the status, the decoded body, the looked-up
    player id and the e-mail address; that address is the plain or the
    four-digit-suffixed one, and the registration request that was sent
    carries exactly this address with the login and the password given. *)
Theorem create_with_credentials_reports_sent_email
  (fuel : nat) (login pwd : string) (w : World) (result : PyVal) :
  fst (create_player_with_credentials_body cfg fuel login pwd w) = Ok result ->
  exists status data player_id e,
    result = PyTuple [PyInt status; data; player_id; PyStr e]
    /\ (e = login +:+ "@TSA.com"
        \/ exists z, 1000 <= z <= 9999
                     /\ e = login +:+ "_" +:+ pretty z +:+ "@TSA.com")
    /\ In (mkRequest (ORIGIN +:+ ENDPOINT_create) (player_payload cfg e pwd login))
          (sent (snd (create_player_with_credentials_body cfg fuel login pwd w))).
Proof.
  unfold create_player_with_credentials_body. rewrite bind_eq.
  destruct (unique_email fuel login (login +:+ "@TSA.com") w) as [[e|ex|] w1] eqn:He;
    try discriminate.
  pose proof (unique_email_candidate fuel login _ w e w1 He) as Hcand.
  rewrite bind_eq.
  destruct (scraper w1) as [jar|] eqn:Hs.
  2:{ unfold post. rewrite Hs. discriminate. }
  rewrite (post_ready _ _ w1 jar Hs).
  destruct (remote w1 (length (sent w1)) _) as [r|msg]; [|discriminate].
  rewrite bind_eq.
  match goal with
  | |- context [get_player_id_by_login cfg login ?w2] =>
      destruct (retrying_call_requests cfg _ _ w2
                  (get_player_id_by_login_body_one_request login))
        as (new & Hsent & _);
      fold (get_player_id_by_login cfg login) in Hsent;
      destruct (get_player_id_by_login cfg login w2) as [[pid|ex|] w3] eqn:Hid;
      try discriminate
  end.
  unfold ret. simpl. intros [= <-].
  exists (status_code r), (json_or_empty r), pid, e.
  split; [reflexivity|]. split; [exact Hcand|].
  simpl in Hsent. rewrite Hsent. apply in_or_app. left.
  apply in_or_app. right. left. reflexivity.
Qed.

(** X16.  On a decoded body that is a dict, [get_player_balance] (its
    body) answers with balance 0.0 when the [result] entry is absent, is
    no list or is an empty list, and also when the first element of the
    list is a dict without a [balance] entry. *)
Theorem balance_defaults_to_zero (player_id : PyVal) (w : World) (jar : Cookies)
  (r : Response) (d : list (string * PyVal)) :
  scraper w = Some jar ->
  (forall rq, remote w (length (sent w)) rq = Replied r) ->
  json r = Some (PyDict d) ->
  match Py.lookup d "result" with
  | Some (PyList (PyDict first :: _)) => Py.lookup first "balance" = None
  | Some (PyList (_ :: _)) => False
  | _ => True
  end ->
  fst (get_player_balance_body player_id w)
  = Ok (PyTuple [PyInt (status_code r); PyDict d; PyFloat (S754_zero false)]).
Proof.
  intros Hs Hr Hj Hshape. unfold get_player_balance_body.
  rewrite bind_eq, (post_ready _ _ w jar Hs), Hr, Hj.
  rewrite bind_eq. unfold lift_res at 1. simpl Py.get. unfold Py.dict_get.
  destruct (Py.lookup d "result") as [results|]; [|reflexivity].
  destruct results as [| | | | |l| |]; try reflexivity.
  destruct l as [|first rest]; [reflexivity|].
  destruct first as [| | | | | | |fd]; try contradiction.
  rewrite bind_eq. simpl. unfold_monad. simpl. unfold Py.dict_get.
  rewrite Hshape. reflexivity.
Qed.
End ProvisioningExtras.

Lemma api_generate_username_format_witness :
  api_generate_username default_config "bob"
    (counting_process (registered ["ZEUS_bob"; "ZEUS_bob_abc"; "ZEUS_bob_def"]))
  = (Ok "ZEUS_bob_ghi",
     snd (api_generate_username default_config "bob"
            (counting_process (registered ["ZEUS_bob"; "ZEUS_bob_abc"; "ZEUS_bob_def"]))))
  /\ ("ZEUS_bob_ghi" = "ZEUS_" +:+ "bob"
      \/ exists sfx,
          (String.length sfx = 3%nat
           /\ all_chars (in_alphabet (ascii_lowercase +:+ digits)) sfx = true)
          /\ "ZEUS_bob_ghi" = "ZEUS_" +:+ "bob" +:+ "_" +:+ sfx).
Proof.
  assert (H1 : api_generate_username default_config "bob"
                 (counting_process (registered ["ZEUS_bob"; "ZEUS_bob_abc"; "ZEUS_bob_def"]))
               = (Ok "ZEUS_bob_ghi",
                  snd (api_generate_username default_config "bob"
                         (counting_process
                            (registered ["ZEUS_bob"; "ZEUS_bob_abc"; "ZEUS_bob_def"])))))
    by (vm_compute; reflexivity).
  split; [exact H1|].
  exact (proj1 (api_generate_username_format default_config "bob" _ _ _ H1)).
Defined.

Lemma create_with_credentials_reports_sent_email_witness :
  fst (create_player_with_credentials_body default_config 5 "bob" "Pass1234"
         (valid_process (answers (Some (listing [bob_record])))))
  = Ok (PyTuple [PyInt 200; listing [bob_record]; PyStr "7"; PyStr "bob_1000@TSA.com"])
  /\ exists status data player_id e,
      PyTuple [PyInt 200; listing [bob_record]; PyStr "7"; PyStr "bob_1000@TSA.com"]
      = PyTuple [PyInt status; data; player_id; PyStr e]
      /\ (e = "bob" +:+ "@TSA.com"
          \/ exists z, 1000 <= z <= 9999
                       /\ e = "bob" +:+ "_" +:+ pretty z +:+ "@TSA.com")
      /\ In (mkRequest (ORIGIN +:+ ENDPOINT_create)
                       (player_payload default_config e "Pass1234" "bob"))
            (sent (snd (create_player_with_credentials_body default_config 5 "bob"
                          "Pass1234"
                          (valid_process (answers (Some (listing [bob_record]))))))).
Proof.
  assert (H1 : fst (create_player_with_credentials_body default_config 5 "bob" "Pass1234"
                      (valid_process (answers (Some (listing [bob_record])))))
               = Ok (PyTuple [PyInt 200; listing [bob_record]; PyStr "7";
                              PyStr "bob_1000@TSA.com"]))
    by (vm_compute; reflexivity).
  split; [exact H1|].
  exact (create_with_credentials_reports_sent_email default_config 5 "bob" "Pass1234"
           _ _ H1).
Defined.

Lemma balance_defaults_to_zero_witness :
  fst (get_player_balance_body (PyStr "7")
         (valid_process (fun _ _ => reply 200 "body" (Some (PyDict [("result", PyList [])])))))
  = Ok (PyTuple [PyInt 200; PyDict [("result", PyList [])]; PyFloat (S754_zero false)]).
Proof.
  apply (balance_defaults_to_zero (PyStr "7")
           (valid_process (fun _ _ => reply 200 "body"
                                        (Some (PyDict [("result", PyList [])]))))
           [] (mkResponse 200 "body" (Some (PyDict [("result", PyList [])])) [])
           [("result", PyList [])]).
  - reflexivity.
  - intros rq. reflexivity.
  - reflexivity.
  - exact I.
Defined.

(* ===================================================================== *)
(** * The provisioning flow ([ichancy_create_account.py], lines 30-146)   *)
(* ===================================================================== *)

(** The collaborators of the flow.  The bot is a reachable recorder of the
    messages sent and of the next-step handlers registered; a handler, a
    closure in the source, is the step it runs with the values it closed
    over.  Text sent by a user is read on the ASCII range, as [lower] is. *)
Inductive Handler : Type :=
| UsernameStep (telegram_id : Z)
| PasswordStep (telegram_id : Z) (username : string).

Record Outgoing : Type := mkOutgoing {
  to_chat : Z;
  body : string;
  parse_mode : option string
}.

(** [message.chat.id] and [message.text] ([None] for a message without text). *)
Record Message : Type := mkMessage { chat_id : Z; message_text : option string }.

(** [call.message.chat.id] and [call.from_user.id] *)
Record Call : Type := mkCall { call_chat_id : Z; from_user_id : Z }.

(** One call of [db.update_player_info]. *)
Record PlayerInfo : Type := mkPlayerInfo {
  info_telegram_id : Z;
  info_player_id : PyVal;
  info_username : string;
  info_email : PyVal;
  info_password : string
}.

Record Flow : Type := mkFlow {
  api : World;                          (* the module-level [api] client *)
  outbox : list Outgoing;               (* [bot.send_message] calls, oldest first *)
  next_step : list (Z * Handler);       (* handlers registered by chat id *)
  db_calls : list PlayerInfo;           (* [db.update_player_info] calls *)
  db_answer : nat -> option string      (* whether the n-th call raises, and what *)
}.

Definition set_api (w : World) (fl : Flow) : Flow :=
  mkFlow w (outbox fl) (next_step fl) (db_calls fl) (db_answer fl).

(** A method of the client run on the flow's [api]. *)
Definition on_api {A} (m : M World A) : M Flow A :=
  fun fl => let '(r, w') := m (api fl) in (r, set_api w' fl).

(** [bot.send_message(chat_id, text, parse_mode=...)] *)
Definition send_message (chat : Z) (text : string) (mode : option string)
  : M Flow unit :=
  modify (fun fl => mkFlow (api fl) (outbox fl ++ [mkOutgoing chat text mode])%list
                           (next_step fl) (db_calls fl) (db_answer fl)).

(** [bot.register_next_step_handler_by_chat_id(chat_id, handler)] *)
Definition register_next_step_handler_by_chat_id (chat : Z) (h : Handler)
  : M Flow unit :=
  modify (fun fl => mkFlow (api fl) (outbox fl) (next_step fl ++ [(chat, h)])%list
                           (db_calls fl) (db_answer fl)).

(** Modelled from the spec: the module [db] is not among the sources; its
    [update_player_info] is the persistence collaborator that receives
    (external user id, player id, username, email, password).  The call is
    recorded, and the oracle says whether it raises. *)
Definition db_update_player_info (row : PlayerInfo) : M Flow unit :=
  fun fl =>
    let fl' := mkFlow (api fl) (outbox fl) (next_step fl)
                      (db_calls fl ++ [row])%list (db_answer fl) in
    match db_answer fl (length (db_calls fl)) with
    | None => (Ok tt, fl')
    | Some msg => (Raise (mkExn RuntimeError msg), fl')
    end.

Definition nl : string := String (ascii_of_nat 10) EmptyString.

(** Character classes of [str] on the ASCII range. *)
Definition code (c : ascii) : nat := nat_of_ascii c.
Definition isdigit (c : ascii) : bool := ((48 <=? code c) && (code c <=? 57))%nat.
Definition isupper (c : ascii) : bool := ((65 <=? code c) && (code c <=? 90))%nat.
Definition islower (c : ascii) : bool := ((97 <=? code c) && (code c <=? 122))%nat.
Definition isalnum (c : ascii) : bool := isdigit c || isupper c || islower c.
Definition isspace (c : ascii) : bool :=
  ((9 <=? code c) && (code c <=? 13))%nat
  || ((28 <=? code c) && (code c <=? 32))%nat.
Definition is_ascii (s : string) : bool :=
  all_chars (fun c => (code c <? 128)%nat) s.

(** [any(p(c) for c in s)] *)
Fixpoint any_char (p : ascii -> bool) (s : string) : bool :=
  match s with
  | EmptyString => false
  | String c t => p c || any_char p t
  end.

(** [''.join(c for c in s if p(c))] *)
Fixpoint keep_chars (p : ascii -> bool) (s : string) : string :=
  match s with
  | EmptyString => EmptyString
  | String c t => if p c then String c (keep_chars p t) else keep_chars p t
  end.

Fixpoint lstrip (s : string) : string :=
  match s with
  | EmptyString => EmptyString
  | String c t => if isspace c then lstrip t else s
  end.

Fixpoint rstrip (s : string) : string :=
  match s with
  | EmptyString => EmptyString
  | String c t =>
      match rstrip t with
      | EmptyString => if isspace c then EmptyString else String c EmptyString
      | t' => String c t'
      end
  end.

(** [s.strip()] *)
Definition strip (s : string) : string := rstrip (lstrip s).

(** [message.text.strip()] *)
Definition stripped_text {S} (message : Message) : M S string :=
  match message_text message with
  | Some t => ret (strip t)
  | None => raise (mkExn AttributeError "'NoneType' object has no attribute 'strip'")
  end.

(** [c.isalnum() or c in ['_', '-']] *)
Definition username_char (c : ascii) : bool :=
  isalnum c || Ascii.eqb c "_" || Ascii.eqb c "-".

Definition MSG_ask_username : string := "📝 أرسل اسم المستخدم المطلوب (بالإنجليزية فقط، بدون مسافات):".
Definition MSG_name_too_short : string := "❌ الاسم قصير جداً، يجب أن يكون 3 أحرف على الأقل".
Definition MSG_password_too_short : string := "❌ كلمة المرور قصيرة جداً، يجب أن تكون 8 أحرف على الأقل".
Definition MSG_password_needs_case : string := "❌ يجب أن تحتوي كلمة المرور على أحرف كبيرة وصغيرة".
Definition MSG_password_needs_digit : string := "❌ يجب أن تحتوي كلمة المرور على أرقام".
Definition MSG_name_taken : string := "❌ هذا الاسم مستخدم بالفعل، اختر اسمًا آخر".
Definition MSG_creation_failed : string := "فشل إنشاء الحساب".

Definition msg_name_available (username : string) : string :=
  "✅ الاسم متاح: `" +:+ username +:+ "`" +:+ nl +:+ nl +:+ "🔐 **الآن أرسل كلمة السر:**" +:+ nl +:+ "- يجب أن تحتوي على أحرف كبيرة وصغيرة" +:+ nl +:+ "- يجب أن تحتوي على أرقام" +:+ nl +:+ "- يجب أن تكون 8 أحرف على الأقل" +:+ nl +:+ nl +:+ "مثال: `Pass1234`".

Definition msg_error (e : Exn) : string :=
  "❌ خطأ: " +:+ exn_msg e +:+ nl +:+ nl +:+ "استخدم /start لإعادة المحاولة".

Definition msg_creation_failed (e : Exn) : string :=
  "❌ **فشل إنشاء الحساب:**" +:+ nl +:+ nl +:+ exn_msg e +:+ nl +:+ nl +:+ "يرجى المحاولة لاحقاً.".

Definition msg_created (username password email_created player_id : string) : string :=
  nl +:+ "🎉 **تم إنشاء الحساب بنجاح!**" +:+ nl +:+ nl +:+ "👤 **اسم المستخدم:** `" +:+ username +:+ "`" +:+ nl +:+ "🔐 **كلمة المرور:** `" +:+ password +:+ "`" +:+ nl +:+ "📧 **البريد الإلكتروني:** `" +:+ email_created +:+ "`" +:+ nl +:+ "🆔 **معرف اللاعب:** `" +:+ player_id +:+ "`" +:+ nl +:+ nl +:+ "🔗 **رابط تسجيل الدخول:**" +:+ nl +:+ "https://www.ichancy.com/login" +:+ nl +:+ nl +:+ "⚠️ **احفظ هذه البيانات في مكان آمن!**" +:+ nl +:+ "            ".

Definition start_create_account (call : Call) : M Flow unit :=
  send_message (call_chat_id call) MSG_ask_username None ;;;
  register_next_step_handler_by_chat_id (call_chat_id call)
                                        (UsernameStep (from_user_id call)).

(** [a, b, c, d = v] *)
Definition unpack4 (v : PyVal) : Res (PyVal * PyVal * PyVal * PyVal) :=
  match Py.iter v with
  | Ok [a; b; c; d] => Ok (a, b, c, d)
  | Ok l =>
      if (length l <? 4)%nat
      then Raise (mkExn ValueError
                    ("not enough values to unpack (expected 4, got "
                       +:+ pretty (length l) +:+ ")"))
      else Raise (mkExn ValueError "too many values to unpack (expected 4)")
  | Raise _ =>
      Raise (mkExn TypeError
               ("cannot unpack non-iterable " +:+ Py.type_name v +:+ " object"))
  | OutOfFuel => OutOfFuel
  end.

(** The message of the [ValueError] raised when the creation failed:
    the first notification's [content] when the body is a dict with
    notifications, the default text otherwise. *)
Definition creation_error_msg (data : PyVal) : Res PyVal :=
  match data with
  | PyDict d =>
      let notes := Py.dict_get d "notification" (PyList []) in
      if Py.truthy notes then
        match Py.item0 notes with
        | Ok first => Py.get first "content" (PyStr MSG_creation_failed)
        | Raise e => Raise e
        | OutOfFuel => OutOfFuel
        end
      else Ok (PyStr MSG_creation_failed)
  | _ => Ok (PyStr MSG_creation_failed)
  end.

(** The three checks on a password, in the order of the source; the
    answer is the message of the first check that fails. *)
Definition password_complaint (password : string) : option string :=
  if (String.length password <? 8)%nat then Some MSG_password_too_short
  else if negb (any_char isupper password) || negb (any_char islower password)
       then Some MSG_password_needs_case
  else if negb (any_char isdigit password) then Some MSG_password_needs_digit
  else None.

Section FlowSteps.
Context `{PyRuntime} (cfg : Config).

Definition process_username_step (message : Message) (telegram_id : Z)
  : M Flow unit :=
  raw <- stripped_text message ;;
  let raw_username := keep_chars username_char raw in
  if (String.length raw_username <? 3)%nat then
    send_message (chat_id message) MSG_name_too_short None
  else
    try_except
      (username <- on_api (api_generate_username cfg raw_username) ;;
       send_message (chat_id message) (msg_name_available username) (Some "Markdown") ;;;
       register_next_step_handler_by_chat_id (chat_id message)
                                             (PasswordStep telegram_id username))
      (fun e => send_message (chat_id message) (msg_error e) None).

(** The part of [process_password_step] inside its [try]. *)
Definition create_account (fuel : nat) (message : Message) (telegram_id : Z)
  (username password : string) : M Flow unit :=
  taken <- on_api (check_player_exists cfg username) ;;
  if Py.truthy taken then
    send_message (chat_id message) MSG_name_taken None
  else
    result <- on_api (create_player_with_credentials cfg fuel username password) ;;
    t <- lift_res (unpack4 result) ;;
    let '(status, data, player_id, email_created) := t in
    if negb (Py.eq_int status 200) || negb (Py.truthy player_id) then
      error_msg <- lift_res (creation_error_msg data) ;;
      raise (mkExn ValueError (py_str error_msg))
    else
      db_update_player_info
        (mkPlayerInfo telegram_id player_id username email_created password) ;;;
      send_message (chat_id message)
                   (msg_created username password (py_str email_created)
                                (py_str player_id))
                   (Some "Markdown").

Definition process_password_step (fuel : nat) (message : Message)
  (telegram_id : Z) (username : string) : M Flow unit :=
  password <- stripped_text message ;;
  match password_complaint password with
  | Some complaint => send_message (chat_id message) complaint None
  | None =>
      try_except
        (create_account fuel message telegram_id username password)
        (fun e => send_message (chat_id message) (msg_creation_failed e)
                               (Some "Markdown"))
  end.
End FlowSteps.

(* ===================================================================== *)
(** * Properties of the provisioning flow                                 *)
(* ===================================================================== *)

Lemma keep_chars_all (p : ascii -> bool) (s : string) :
  all_chars p (keep_chars p s) = true.
Proof.
  induction s as [|c t IH]; [reflexivity|]. simpl.
  destruct (p c) eqn:Hp; [simpl; rewrite Hp; exact IH | exact IH].
Qed.

Lemma on_api_run {A} (m : M World A) (fl : Flow) :
  on_api m fl = (fst (m (api fl)), set_api (snd (m (api fl))) fl).
Proof. unfold on_api. destruct (m (api fl)); reflexivity. Qed.

Section FlowFacts.
Context `{PyRuntime} (cfg : Config).

(** What one run of the guarded part of the password step may have done
    to the database: nothing, or one call, made after the creation
    returned status 200 and a truthy player id, with the values at hand. *)
Definition db_step (fuel : nat) (telegram_id : Z) (username password : string)
  (fl fl' : Flow) : Prop :=
  db_calls fl' = db_calls fl
  \/ exists result status data player_id email_created w0,
      db_calls fl'
      = (db_calls fl
           ++ [mkPlayerInfo telegram_id player_id username email_created password])%list
      /\ fst (create_player_with_credentials cfg fuel username password w0) = Ok result
      /\ unpack4 result = Ok (status, data, player_id, email_created)
      /\ Py.eq_int status 200 = true
      /\ Py.truthy player_id = true.

Lemma create_account_outcome (fuel : nat) (message : Message) (telegram_id : Z)
  (username password : string) (fl : Flow) :
  let run := create_account cfg fuel message telegram_id username password fl in
  next_step (snd run) = next_step fl
  /\ db_step fuel telegram_id username password fl (snd run)
  /\ ((fst run = Ok tt
       /\ exists m, outbox (snd run) = (outbox fl ++ [m])%list
                    /\ to_chat m = chat_id message)
      \/ (is_ok (fst run) = false /\ outbox (snd run) = outbox fl)).
Proof.
  cbv zeta. unfold create_account, bind, on_api, lift_res, raise.
  destruct (check_player_exists cfg username (api fl)) as [[taken|e|] w1];
    try (simpl; split; [reflexivity|]; split; [left; reflexivity|]; right; auto).
  destruct (Py.truthy taken).
  { simpl. split; [reflexivity|]. split; [left; reflexivity|].
    left. split; [reflexivity|]. eexists. split; reflexivity. }
  cbn [api set_api].
  destruct (create_player_with_credentials cfg fuel username password w1)
    as [[result|e|] w2] eqn:Hcreate;
    try (simpl; split; [reflexivity|]; split; [left; reflexivity|]; right; auto).
  destruct (unpack4 result) as [[[[status data] player_id] email_created]|e|] eqn:Hun;
    try (simpl; split; [reflexivity|]; split; [left; reflexivity|]; right; auto).
  destruct (Py.eq_int status 200) eqn:Hst; cbn [negb orb].
  2:{ destruct (creation_error_msg data);
        simpl; (split; [reflexivity|]); (split; [left; reflexivity|]); right; auto. }
  destruct (Py.truthy player_id) eqn:Hpid; cbn [negb].
  2:{ destruct (creation_error_msg data);
        simpl; (split; [reflexivity|]); (split; [left; reflexivity|]); right; auto. }
  unfold db_update_player_info. cbn [db_answer db_calls set_api].
  assert (Hdb : forall fl',
             db_calls fl'
             = (db_calls fl
                  ++ [mkPlayerInfo telegram_id player_id username email_created password])%list ->
             db_step fuel telegram_id username password fl fl').
  { intros fl' Hcalls. right. exists result, status, data, player_id, email_created, w1.
    rewrite Hcreate. auto. }
  destruct (db_answer fl (length (db_calls fl))) as [msg|].
  - simpl. split; [reflexivity|]. split; [apply Hdb; reflexivity|]. right. auto.
  - simpl. split; [reflexivity|]. split; [apply Hdb; reflexivity|].
    left. split; [reflexivity|]. eexists. split; reflexivity.
Qed.

(** X17.  A password that is shorter than 8 characters, or lacks an
    upper-case letter, a lower-case letter or a digit, never reaches the
    remote service or the database: the password step answers with one
    complaint and changes nothing else.  (Text is read on the ASCII range.) *)
Theorem weak_password_never_reaches_service
  (fuel : nat) (message : Message) (telegram_id : Z) (username t : string)
  (fl : Flow) :
  message_text message = Some t ->
  is_ascii t = true ->
  (8 <=? String.length (strip t))%nat
  && any_char isupper (strip t) && any_char islower (strip t)
  && any_char isdigit (strip t) = false ->
  exists complaint,
    process_password_step cfg fuel message telegram_id username fl
    = (Ok tt, mkFlow (api fl)
                     (outbox fl ++ [mkOutgoing (chat_id message) complaint None])%list
                     (next_step fl) (db_calls fl) (db_answer fl))
    /\ In complaint [MSG_password_too_short; MSG_password_needs_case;
                     MSG_password_needs_digit].
Proof.
  intros Ht _ Hweak. unfold process_password_step, stripped_text.
  rewrite Ht, bind_ret_l. unfold password_complaint.
  destruct (String.length (strip t) <? 8)%nat eqn:Hlen.
  { eexists. split; [reflexivity|]. simpl. auto. }
  assert (Hge : (8 <=? String.length (strip t))%nat = true).
  { apply Nat.leb_le. apply Nat.ltb_ge in Hlen. exact Hlen. }
  rewrite Hge in Hweak. simpl in Hweak.
  destruct (any_char isupper (strip t)); simpl in *.
  2:{ eexists. split; [reflexivity|]. simpl. auto. }
  destruct (any_char islower (strip t)); simpl in *.
  2:{ eexists. split; [reflexivity|]. simpl. auto. }
  rewrite Hweak. simpl.
  eexists. split; [reflexivity|]. simpl. auto.
Qed.

(** X18.  Whatever happens in the password step, [db.update_player_info]
    is called at most once, and only after [create_player_with_credentials]
    returned status 200 and a truthy player id; the call carries the
    telegram id and username of the step, the stripped password, and the
    player id and e-mail of that result.  (Text is read on the ASCII
    range.) *)
Theorem db_called_only_after_creation
  (fuel : nat) (message : Message) (telegram_id : Z) (username : string)
  (fl : Flow) :
  let fl' := snd (process_password_step cfg fuel message telegram_id username fl) in
  match message_text message with
  | None => db_calls fl' = db_calls fl
  | Some t => is_ascii t = true -> db_step fuel telegram_id username (strip t) fl fl'
  end.
Proof.
  cbv zeta. unfold process_password_step, stripped_text.
  destruct (message_text message) as [t|]; [|reflexivity].
  intros _. rewrite bind_ret_l.
  destruct (password_complaint (strip t)); [left; reflexivity|].
  unfold try_except.
  destruct (create_account_outcome fuel message telegram_id username (strip t) fl)
    as (_ & Hdb & _).
  destruct (create_account cfg fuel message telegram_id username (strip t) fl)
    as [[u|e|] fl1]; simpl in *; exact Hdb.
Qed.

(** X19.  The password step never lets an exception escape once the
    message has a text: every fault of the client, of the service or of
    the database ends in exactly one message to the chat of the sender;
    the only other outcome is the e-mail loop not ending.  A message
    without text makes the step raise before anything is sent. *)
Theorem password_step_answers_once
  (fuel : nat) (message : Message) (telegram_id : Z) (username : string)
  (fl : Flow) :
  let run := process_password_step cfg fuel message telegram_id username fl in
  match message_text message with
  | None =>
      run = (Raise (mkExn AttributeError "'NoneType' object has no attribute 'strip'"), fl)
  | Some _ =>
      next_step (snd run) = next_step fl
      /\ ((fst run = Ok tt
           /\ exists m, outbox (snd run) = (outbox fl ++ [m])%list
                        /\ to_chat m = chat_id message)
          \/ (fst run = OutOfFuel /\ outbox (snd run) = outbox fl))
  end.
Proof.
  cbv zeta. unfold process_password_step, stripped_text.
  destruct (message_text message) as [t|]; [|reflexivity].
  rewrite bind_ret_l.
  destruct (password_complaint (strip t)).
  { simpl. split; [reflexivity|]. left. split; [reflexivity|].
    eexists. split; reflexivity. }
  unfold try_except.
  destruct (create_account_outcome fuel message telegram_id username (strip t) fl)
    as (Hnext & _ & Hout).
  destruct (create_account cfg fuel message telegram_id username (strip t) fl)
    as [[u|e|] fl1]; simpl in *.
  - split; [exact Hnext|]. destruct Hout as [(_ & Hm) | (Hno & _)]; [|discriminate].
    left. destruct u. auto.
  - destruct Hout as [(Hno & _) | (_ & Hsame)]; [discriminate|].
    split; [exact Hnext|]. left. split; [reflexivity|].
    eexists. rewrite Hsame. split; reflexivity.
  - destruct Hout as [(Hno & _) | (_ & Hsame)]; [discriminate|].
    split; [exact Hnext|]. right. auto.
Qed.
End FlowFacts.

(* ===================================================================== *)
(** * The username step                                                   *)
(* ===================================================================== *)

(** A computation that always comes back: it returns or raises. *)
Definition comes_back {S A} (m : M S A) : Prop :=
  forall s, fst (m s) <> OutOfFuel.

Lemma scan_records_comes_back (key wanted : string) (records : list PyVal) :
  scan_records key wanted records <> OutOfFuel.
Proof.
  induction records as [|record rest IH]; simpl; [discriminate|].
  destruct (Py.get record key PyNone) as [v|e|] eqn:Hg;
    [| discriminate | destruct record; discriminate].
  destruct (Py.eq_str v wanted); [discriminate | exact IH].
Qed.

Lemma find_record_comes_back (key wanted : string) (resp : Response) :
  comes_back (find_record key wanted resp).
Proof.
  intros w. unfold find_record, resp_json. unfold_monad.
  destruct (json resp) as [data|]; simpl; [|discriminate].
  destruct (statistics_records data) as [records|e|] eqn:Hr; simpl; try discriminate.
  - destruct (Py.iter records) as [items|e|] eqn:Hi; simpl; try discriminate.
    + apply scan_records_comes_back.
    + destruct records; discriminate.
  - unfold statistics_records in Hr.
    destruct (Py.get data "result" (PyDict [])) as [res|?|] eqn:Hg; try discriminate.
    + destruct res; discriminate.
    + destruct data; discriminate.
Qed.

Lemma with_retry_comes_back `{PyRuntime} {S : Type}
  (ensure : M S bool) (clear : M S unit) (func : M S PyVal) :
  comes_back ensure -> comes_back clear -> comes_back func ->
  comes_back (with_retry ensure clear func).
Proof.
  intros He Hc Hf s. rewrite with_retry_classified. unfold bind, ret.
  pose proof (He s) as H1. destruct (ensure s) as [[b|e|] s1]; simpl in *; try congruence.
  pose proof (Hf s1) as H2. destruct (func s1) as [[v|e|] s2]; simpl in *; try congruence.
  destruct (classified_failed v); simpl; [|discriminate].
  pose proof (Hc s2) as H3. destruct (clear s2) as [[u|e|] s3]; simpl in *; try congruence.
  pose proof (He s3) as H4. destruct (ensure s3) as [[b'|e|] s4]; simpl in *; try congruence.
  all: apply Hf.
Qed.

Lemma generate_username_loop_comes_back {S : Type}
  (check : string -> M S PyVal) (sfx : M S string) (base : string) (range : list nat) :
  (forall name, comes_back (check name)) -> comes_back sfx ->
  comes_back (generate_username_loop check sfx base range).
Proof.
  intros Hc Hs. induction range as [|i rest IH]; intros s; [discriminate|].
  cbn [generate_username_loop].
  destruct (i =? 0)%nat.
  - rewrite bind_ret_l, bind_eq.
    pose proof (Hc base s) as H1.
    destruct (check base s) as [[v|e|] s1]; simpl in *; try congruence.
    destruct (Py.truthy v); simpl; [apply IH | discriminate].
  - rewrite bind_assoc, bind_eq.
    pose proof (Hs s) as H0.
    destruct (sfx s) as [[x|e|] s0]; simpl in *; try congruence.
    rewrite bind_ret_l, bind_eq.
    pose proof (Hc (base +:+ "_" +:+ x) s0) as H1.
    destruct (check (base +:+ "_" +:+ x) s0) as [[v|e|] s1]; simpl in *; try congruence.
    destruct (Py.truthy v); simpl; [apply IH | discriminate].
Qed.

Section UsernameStep.
Context `{PyRuntime} (cfg : Config).

Lemma ensure_login_comes_back : comes_back (ensure_login cfg).
Proof.
  intros w. rewrite ensure_login_from_ready.
  destruct (ensure_scraper_spec cfg w) as (w1 & jar & Hrun & Hjar & _).
  rewrite Hrun. simpl snd.
  destruct (ensure_login_ready cfg w1 jar Hjar)
    as [(_ & _ & Hnoop) | [(_ & _ & wl & Hwl & Hrun') | (_ & _ & msg & Hraise)]].
  - rewrite Hnoop. discriminate.
  - rewrite Hrun'.
    assert (Hjar' : scraper wl = Some jar) by (destruct Hwl as [-> | ->]; exact Hjar).
    destruct (login_or_raise_ready cfg wl jar Hjar')
      as (_ & [(data & _ & Hr & _) | (data & msg & _ & Hr)]); rewrite Hr; discriminate.
  - rewrite Hraise. discriminate.
Qed.

Lemma check_player_exists_comes_back (login : string) :
  comes_back (check_player_exists cfg login).
Proof.
  unfold check_player_exists, retrying.
  apply with_retry_comes_back.
  - apply ensure_login_comes_back.
  - intros w. rewrite clear_session_run. discriminate.
  - intros w. unfold check_player_exists_body. rewrite bind_eq.
    destruct (post _ _ w) as [[r|e|] w1] eqn:Hp; simpl; try discriminate.
    + unfold try_except. rewrite bind_eq.
      pose proof (find_record_comes_back "username" login r w1) as Hf.
      destruct (find_record "username" login r w1) as [[found|e|] w2]; simpl in *;
        try congruence; try discriminate.
      destruct found; discriminate.
    + unfold post in Hp. destruct (scraper w); [|discriminate].
      destruct (remote w (length (sent w)) _); discriminate.
Qed.

Lemma api_generate_username_comes_back (raw_username : string) :
  comes_back (api_generate_username cfg raw_username).
Proof.
  unfold api_generate_username, generate_username.
  apply generate_username_loop_comes_back.
  - apply check_player_exists_comes_back.
  - intros w. unfold _random_suffix.
    destruct (random_string_format (ascii_lowercase +:+ digits) 3
                ltac:(vm_compute; lia) w) as (x & w1 & Hrun & _).
    rewrite Hrun. discriminate.
Qed.

(** The names [generate_username] over the client can return. *)
Definition generated_from (name u : string) : Prop :=
  u = "ZEUS_" +:+ name
  \/ exists sfx,
      String.length sfx = 3%nat
      /\ all_chars (in_alphabet (ascii_lowercase +:+ digits)) sfx = true
      /\ u = "ZEUS_" +:+ name +:+ "_" +:+ sfx.

Lemma api_generate_username_shape (name : string) (w : World) (u : string) (w' : World) :
  api_generate_username cfg name w = (Ok u, w') -> generated_from name u.
Proof.
  intros Hrun. unfold api_generate_username, generate_username in Hrun.
  destruct (generate_username_loop_result (check_player_exists cfg) _random_suffix
              (fun sfx => String.length sfx = 3%nat
                          /\ all_chars (in_alphabet (ascii_lowercase +:+ digits)) sfx = true))
    with (base := "ZEUS_" +:+ name) (range := seq 0 6) (s := w) (u := u) (s' := w')
    as ([Hbase | (sfx & (Hl & Ha) & Hu)] & _).
  - intros s sfx s' Hsfx. unfold _random_suffix in Hsfx.
    destruct (random_string_format (ascii_lowercase +:+ digits) 3
                ltac:(vm_compute; lia) s) as (x & s1 & Hr & Hlen & Hall & _).
    rewrite Hr in Hsfx. injection Hsfx as <- <-. auto.
  - exact Hrun.
  - left. exact Hbase.
  - right. exists sfx. auto.
Qed.

(** X20.  The username step keeps of the text only letters, digits,
    underscore and hyphen.  Once the message has a text, it never raises
    and answers with exactly one message, and it never writes the
    database.  A kept name shorter than 3 characters is refused without
    contacting the service.  The password step is registered only when a
    name was generated, for the same chat and telegram id, and the name it
    carries is the kept name behind ZEUS_, alone or with a three-character
    suffix; that is also the name shown to the user.  A message without
    text makes the step raise before anything is sent.  (Text is read on
    the ASCII range.) *)
Theorem username_step_outcome (message : Message) (telegram_id : Z) (fl : Flow) :
  let run := process_username_step cfg message telegram_id fl in
  match message_text message with
  | None =>
      run = (Raise (mkExn AttributeError "'NoneType' object has no attribute 'strip'"), fl)
  | Some t =>
      is_ascii t = true ->
      let name := keep_chars username_char (strip t) in
      all_chars username_char name = true
      /\ fst run = Ok tt
      /\ db_calls (snd run) = db_calls fl
      /\ (exists m, outbox (snd run) = (outbox fl ++ [m])%list
                    /\ to_chat m = chat_id message)
      /\ ((String.length name <? 3)%nat = true ->
          snd run = mkFlow (api fl)
                           (outbox fl ++ [mkOutgoing (chat_id message)
                                                     MSG_name_too_short None])%list
                           (next_step fl) (db_calls fl) (db_answer fl))
      /\ (next_step (snd run) = next_step fl
          \/ exists u,
              next_step (snd run)
              = (next_step fl ++ [(chat_id message, PasswordStep telegram_id u)])%list
              /\ (String.length name <? 3)%nat = false
              /\ generated_from name u
              /\ outbox (snd run)
                 = (outbox fl ++ [mkOutgoing (chat_id message) (msg_name_available u)
                                             (Some "Markdown")])%list)
  end.
Proof.
  cbv zeta. unfold process_username_step, stripped_text.
  destruct (message_text message) as [t|]; [|reflexivity].
  intros _. rewrite bind_ret_l.
  split; [apply keep_chars_all|].
  destruct (String.length (keep_chars username_char (strip t)) <? 3)%nat eqn:Hlen.
  { simpl. split; [reflexivity|]. split; [reflexivity|].
    split; [eexists; split; reflexivity|]. split; [reflexivity|]. left. reflexivity. }
  unfold try_except. rewrite bind_eq, on_api_run.
  pose proof (api_generate_username_comes_back
                (keep_chars username_char (strip t)) (api fl)) as Hback.
  destruct (api_generate_username cfg (keep_chars username_char (strip t)) (api fl))
    as [[u|e|] w1] eqn:Hgen; simpl in Hback; try congruence.
  - simpl. split; [reflexivity|]. split; [reflexivity|].
    split; [eexists; split; reflexivity|]. split; [discriminate|].
    right. exists u. split; [reflexivity|]. split; [reflexivity|].
    split; [|reflexivity].
    exact (api_generate_username_shape _ _ _ _ Hgen).
  - simpl. split; [reflexivity|]. split; [reflexivity|].
    split; [eexists; split; reflexivity|]. split; [discriminate|].
    left. reflexivity.
Qed.
End UsernameStep.

(** A password without a digit. *)
Lemma weak_password_never_reaches_service_witness :
  exists complaint,
    process_password_step default_config 5 (mkMessage 42 (Some " Password ")) 7
      "ZEUS_bob" (mkFlow first_start [] [] [] (fun _ => None))
    = (Ok tt, mkFlow first_start [mkOutgoing 42 complaint None] [] [] (fun _ => None))
    /\ In complaint [MSG_password_too_short; MSG_password_needs_case;
                     MSG_password_needs_digit].
Proof.
  apply (weak_password_never_reaches_service default_config 5
           (mkMessage 42 (Some " Password ")) 7 "ZEUS_bob" " Password "
           (mkFlow first_start [] [] [] (fun _ => None)));
    reflexivity.
Defined.

(* ===================================================================== *)
(** * The listing operations on any reply, and [create_player]            *)
(* ===================================================================== *)

Lemma existence_answer (key wanted : string) (r : Response) (w : World) :
  exists b,
    fst (try_except
           (found <- find_record key wanted r ;;
            match found with
            | Some _ => ret (PyBool true)
            | None => ret (PyBool false)
            end)
           (fun _ => ret (PyBool false)) w)
    = Ok (PyBool b).
Proof.
  unfold try_except. rewrite bind_eq.
  pose proof (find_record_comes_back key wanted r w) as Hb.
  destruct (find_record key wanted r w) as [[found|e|] w2].
  - destruct found; eexists; reflexivity.
  - eexists; reflexivity.
  - exfalso. apply Hb. reflexivity.
Qed.

Lemma id_lookup_answer (login : string) (r : Response) (w : World) :
  exists v,
    fst (try_except
           (found <- find_record "username" login r ;;
            match found with
            | Some record => lift_res (Py.get record "playerId" PyNone)
            | None => ret PyNone
            end)
           (fun _ => ret PyNone) w)
    = Ok v.
Proof.
  unfold try_except. rewrite bind_eq.
  pose proof (find_record_comes_back "username" login r w) as Hb.
  destruct (find_record "username" login r w) as [[found|e|] w2].
  - destruct found as [record|]; [|eexists; reflexivity].
    unfold lift_res. destruct record; eexists; reflexivity.
  - eexists; reflexivity.
  - exfalso. apply Hb. reflexivity.
Qed.

Section ReplyExtras.
Context `{PyRuntime} (cfg : Config).

(** X21.  Whatever the statistics endpoint replies (any status, any body,
    decodable or not, of any shape), the bodies of the four listing
    operations return a value and do not raise: the two existence checks
    return a bool, and the listing returns the [records] entry when the
    body has the expected nesting and the empty list otherwise.  Only a
    transport fault, which is no reply, makes them raise. *)
Theorem listing_operations_tolerate_any_reply
  (login email : string) (w : World) (jar : Cookies) (r : Response) :
  scraper w = Some jar ->
  (forall rq, remote w (length (sent w)) rq = Replied r) ->
  (exists b, fst (check_player_exists_body login w) = Ok (PyBool b))
  /\ (exists b, fst (check_email_exists email w) = Ok (PyBool b))
  /\ (exists v, fst (get_player_id_by_login_body login w) = Ok v)
  /\ fst (get_all_players_body w)
     = Ok (match json r with
           | Some data =>
               match statistics_records data with
               | Ok records => records
               | _ => PyList []
               end
           | None => PyList []
           end).
Proof.
  intros Hs Hr.
  unfold check_player_exists_body, check_email_exists, get_player_id_by_login_body,
    get_all_players_body.
  rewrite !bind_eq, !(post_ready _ _ w jar Hs), !Hr.
  split; [apply existence_answer|].
  split; [apply existence_answer|].
  split; [apply id_lookup_answer|].
  unfold try_except. rewrite !bind_eq.
  unfold resp_json. destruct (json r) as [data|]; [|reflexivity].
  unfold ret, lift_res. cbv beta iota.
  destruct (statistics_records data) as [records|e|] eqn:Hrec; try reflexivity.
  exfalso. unfold statistics_records in Hrec.
  destruct (Py.get data "result" (PyDict [])) as [res|?|] eqn:Hg; try discriminate.
  - destruct res; discriminate.
  - destruct data; discriminate.
Qed.

(** X22.  When [create_player] (its body) returns, the result is the
    5-tuple of the status, the decoded body, the generated login, the
    generated password and the looked-up player id; the login is the
    letter u and seven characters from a-z0-9, the password has ten
    characters from a-zA-Z0-9, and the registration request that was sent
    carries this login and password with the address login@example.com. *)
Theorem create_player_reports_sent_credentials (w : World) (result : PyVal) :
  fst (create_player_body cfg w) = Ok result ->
  exists status data tail pwd player_id,
    result = PyTuple [PyInt status; data; PyStr ("u" +:+ tail); PyStr pwd; player_id]
    /\ String.length tail = 7%nat
    /\ all_chars (in_alphabet (ascii_lowercase +:+ digits)) tail = true
    /\ String.length pwd = 10%nat
    /\ all_chars (in_alphabet (ascii_lowercase +:+ ascii_uppercase +:+ digits)) pwd = true
    /\ In (mkRequest (ORIGIN +:+ ENDPOINT_create)
                     (player_payload cfg (("u" +:+ tail) +:+ "@example.com") pwd
                                     ("u" +:+ tail)))
          (sent (snd (create_player_body cfg w))).
Proof.
  unfold create_player_body. rewrite bind_eq.
  destruct (generate_random_credentials_run w)
    as (tail & pwd & w1 & Hrun & Hl1 & Ha1 & Hl2 & Ha2 & _).
  rewrite Hrun. cbv beta iota. rewrite bind_eq.
  destruct (scraper w1) as [jar|] eqn:Hs.
  2:{ unfold post. rewrite Hs. discriminate. }
  rewrite (post_ready _ _ w1 jar Hs).
  destruct (remote w1 (length (sent w1)) _) as [r|msg]; [|discriminate].
  rewrite bind_eq.
  match goal with
  | |- context [get_player_id_by_login cfg ?l ?w2] =>
      destruct (retrying_call_requests cfg _ _ w2
                  (get_player_id_by_login_body_one_request l))
        as (new & Hsent & _);
      fold (get_player_id_by_login cfg l) in Hsent;
      destruct (get_player_id_by_login cfg l w2) as [[pid|ex|] w3] eqn:Hid;
      try discriminate
  end.
  unfold ret. simpl. intros [= <-].
  exists (status_code r), (json_or_empty r), tail, pwd, pid.
  split; [reflexivity|]. repeat (split; [assumption|]).
  simpl in Hsent. rewrite Hsent. apply in_or_app. left.
  apply in_or_app. right. left. reflexivity.
Qed.
End ReplyExtras.

Lemma listing_operations_tolerate_any_reply_witness :
  (exists b, fst (check_player_exists_body "bob"
                    (valid_process (fun _ _ => reply 502 "<html>Bad Gateway</html>" None)))
             = Ok (PyBool b))
  /\ fst (get_all_players_body
            (valid_process (fun _ _ => reply 502 "<html>Bad Gateway</html>" None)))
     = Ok (PyList []).
Proof.
  destruct (listing_operations_tolerate_any_reply "bob" "bob@TSA.com"
              (valid_process (fun _ _ => reply 502 "<html>Bad Gateway</html>" None))
              [] (mkResponse 502 "<html>Bad Gateway</html>" None [])
              eq_refl (fun _ => eq_refl))
    as (H1 & _ & _ & H4).
  split; [exact H1 | exact H4].
Defined.

Lemma create_player_reports_sent_credentials_witness :
  fst (create_player_body default_config
         (valid_process (answers (Some (listing [])))))
  = Ok (PyTuple [PyInt 200; listing []; PyStr "uaaaaaaa"; PyStr "aaaaaaaaaa"; PyNone])
  /\ exists status data tail pwd player_id,
      PyTuple [PyInt 200; listing []; PyStr "uaaaaaaa"; PyStr "aaaaaaaaaa"; PyNone]
      = PyTuple [PyInt status; data; PyStr ("u" +:+ tail); PyStr pwd; player_id]
      /\ String.length tail = 7%nat
      /\ all_chars (in_alphabet (ascii_lowercase +:+ digits)) tail = true
      /\ String.length pwd = 10%nat
      /\ all_chars (in_alphabet (ascii_lowercase +:+ ascii_uppercase +:+ digits)) pwd = true
      /\ In (mkRequest (ORIGIN +:+ ENDPOINT_create)
                       (player_payload default_config
                                       (("u" +:+ tail) +:+ "@example.com") pwd
                                       ("u" +:+ tail)))
            (sent (snd (create_player_body default_config
                          (valid_process (answers (Some (listing []))))))).
Proof.
  assert (H1 : fst (create_player_body default_config
                      (valid_process (answers (Some (listing [])))))
               = Ok (PyTuple [PyInt 200; listing []; PyStr "uaaaaaaa";
                              PyStr "aaaaaaaaaa"; PyNone]))
    by (vm_compute; reflexivity).
  split; [exact H1|].
  exact (create_player_reports_sent_credentials default_config _ _ H1).
Defined.
